(** * JobService: dual-store reads, relational writes and their propagation

    A shallow embedding of [src/services/JobService.js].  The service talks to
    a search index, a relational store, a message bus and three lookup
    services; every such call is recorded in a trace so that statements of the
    form "the store is never queried" can be read off the final world. *)

From stdpp Require Import gmap strings list fin_maps pretty.
From Stdlib Require Import ZArith Lia Ascii Btauto.

#[local] Set Warnings "-register-all".
#[local] Open Scope Z_scope.

(** ** JavaScript values and objects *)

Inductive Value :=
| VNull
| VBool (b : bool)
| VNum (n : Z)
| VStr (s : string)
| VArr (xs : list Value)
| VObj (m : gmap string Value).

(** A JS object used as a record with optional keys; an absent key reads as
    [undefined]. *)
Abbreviation Obj := (gmap string Value).

(** Truthiness of [x] where [x] may be [undefined] ([None]). *)
Definition truthy (x : option Value) : bool :=
  match x with
  | None | Some VNull => false
  | Some (VBool b) => b
  | Some (VNum n) => negb (n =? 0)
  | Some (VStr s) => negb (String.eqb s "")
  | Some (VArr _) | Some (VObj _) => true
  end.

(** [a === b]; two arrays or objects coming from different calls are never
    the same reference. *)
Definition strictEq (a b : option Value) : bool :=
  match a, b with
  | None, None => true
  | Some VNull, Some VNull => true
  | Some (VBool x), Some (VBool y) => Bool.eqb x y
  | Some (VNum x), Some (VNum y) => x =? y
  | Some (VStr x), Some (VStr y) => String.eqb x y
  | _, _ => false
  end.

Definition sameValue (a b : Value) : bool := strictEq (Some a) (Some b).

(** lodash [_.uniq] and [_.difference] on arrays of primitives. *)
Fixpoint uniq (l : list Value) : list Value :=
  match l with
  | [] => []
  | x :: r => x :: List.filter (fun y => negb (sameValue x y)) (uniq r)
  end.

Definition difference (xs ys : list Value) : list Value :=
  List.filter (fun x => negb (existsb (sameValue x) ys)) xs.

(** String conversion as done by a template literal. *)
Fixpoint jsString (v : Value) : string :=
  match v with
  | VNull => "null"
  | VBool true => "true"
  | VBool false => "false"
  | VNum n => pretty n
  | VStr s => s
  | VArr xs =>
      String.concat ","
        (List.map (fun x => match x with VNull => "" | _ => jsString x end) xs)
  | VObj _ => "[object Object]"
  end.

Definition dq : string := String (Ascii.ascii_of_nat 34) EmptyString.

(** ** Errors *)

(** The properties of a thrown object that the service inspects. *)
Record Err := mkErr {
  httpStatus : option Z;
  status : option Z;
  statusCode : option Z;
  message : string
}.

Module HttpStatus.
Definition BAD_REQUEST : Z := 400.
Definition FORBIDDEN : Z := 403.
Definition NOT_FOUND : Z := 404.
End HttpStatus.

(** Modelled from the spec: [common/errors] is not among the sources.  The
    error taxonomy names Forbidden, NotFound and BadRequest; each carries its
    HTTP code in [httpStatus], the property [getJob] tests. *)
Module errors.
Definition BadRequestError (msg : string) : Err :=
  mkErr (Some HttpStatus.BAD_REQUEST) None None msg.
Definition ForbiddenError (msg : string) : Err :=
  mkErr (Some HttpStatus.FORBIDDEN) None None msg.
Definition NotFoundError (msg : string) : Err :=
  mkErr (Some HttpStatus.NOT_FOUND) None None msg.
End errors.

(** A [TypeError] raised by the runtime (reading a property of [undefined],
    calling [map] on a non-array); it carries none of the status properties. *)
Definition TypeError (msg : string) : Err := mkErr None None None msg.

Definition optZ_eqb (a : option Z) (b : Z) : bool :=
  match a with Some x => x =? b | None => false end.

(** Modelled from the spec: [helper.isDocumentMissingException] is not among
    the sources.  The index client signals a structurally missing document
    by a response error whose [statusCode] is 404. *)
Definition isDocumentMissingException (err : Err) : bool :=
  optZ_eqb (statusCode err) 404.

Inductive Result (A : Type) :=
| Ok (a : A)
| Throw (e : Err).
Arguments Ok {A} a.
Arguments Throw {A} e.

(** ** Callers, criteria, index requests *)

Record User := {
  userId : Value;
  hasManagePermission : bool;
  isMachine : bool;
  isConnectManager : bool
}.

(** Search criteria, typed as [searchJobs.schema] admits them. *)
Record Criteria := {
  page : option Z;
  perPage : option Z;
  sortBy : option string;
  sortOrder : option string;
  projectId : option Z;
  externalId : option string;
  description : option string;
  title : option string;
  startDate : option string;
  resourceType : option string;
  skill : option string;
  role : option string;
  rateType : option string;
  workload : option string;
  status_ : option string;
  projectIds : option (list Z);
  jobIds : option (list string)
}.

Record Options := { returnAll : bool }.

Inductive EsIndex := ES_INDEX_JOB | ES_INDEX_JOB_CANDIDATE.

Inductive EsClause :=
| EsMatch (field : string) (query : Value)
| EsTerms (field : string) (values : list Value)
| EsTerm (field : string) (value : Value).

Inductive EsQuery :=
| EsBool (must filter : list EsClause)
| EsLeaf (c : EsClause).

Record EsRequest := {
  es_index : EsIndex;
  es_query : EsQuery;
  es_from : option Z;
  es_size : option Z;
  es_sort : list (string * string)
}.

Record EsHit := { _id : string; _source : Obj }.

(** [body.hits.total.value] and [body.hits.hits]. *)
Record EsBody := { hits_total : Z; hits_hits : list EsHit }.

(** ** Relational queries *)

(** The right-hand side of one key of a Sequelize [where] object. *)
Inductive WhereCond :=
| WVal (v : Value)
| WLike (pattern : string)
| WContains (vs : list Value).

(** [{ [Op.and]: [...], key: cond, ... }]. *)
Record Where := {
  opAnd : list (string * WhereCond);
  fields : list (string * WhereCond)
}.

Record FindAll := {
  fa_where : Where;
  fa_offset : Z;
  fa_limit : Z;
  fa_order : string * string;
  fa_include : bool
}.

Inductive DbOp :=
| OpFindById
| OpFindAll
| OpCreate
| OpUpdate
| OpDestroy.

Inductive Topic :=
| TAAS_JOB_CREATE_TOPIC
| TAAS_JOB_UPDATE_TOPIC
| TAAS_JOB_DELETE_TOPIC.

(** ** The world *)

(** Every call that leaves the service. *)
Inductive Call :=
| CEsGet (index : EsIndex) (id : string)
| CEsSearch (req : EsRequest)
| CJobFindById (id : string) (withCandidates : bool)
| CJobFindAll (q : FindAll)
| CJobCreate (job : Obj)
| CJobUpdate (id : option Value) (data : Obj)
| CJobDestroy (id : option Value)
| CRoleFindAll (roles : list Value)
| CCheckIsMemberOfProject (userId : Value) (projectId : option Value)
| CGetSkillById (skill : Value)
| CGetUserId (userId : Value)
| CPostEvent (topic : Topic) (payload : Obj) (oldValue : option Obj)
| CLogFullError (err : Err) (context : string)
| CLogInfo (context : string) (msg : string)
| CLogDebug (context : string).

Record World := {
  jobs : list Obj;
  jobCandidates : list Obj;
  uuids : nat;
  trace : list Call
}.

(** The collaborators whose code is outside the service.  Each answers with a
    value or raises.  [settlesFirst] is the timing of concurrent calls: of
    the rejections of one [Promise.all], listed in the order of its array,
    the position of the one that settles first. *)
Record Env := {
  esGet : EsIndex -> string -> Result EsHit;
  esSearch : EsRequest -> Result EsBody;
  checkIsMemberOfProject : Value -> option Value -> Result unit;
  getSkillById : Value -> Result unit;
  getUserId : Value -> Result Value;
  postEvent : Topic -> Obj -> option Obj -> Result unit;
  roleFindAll : list Value -> Result (list Value);
  uuid : nat -> string;
  dbFault : DbOp -> option Err;
  sqlOrder : string * string -> list Obj -> list Obj;
  settlesFirst : list Err -> nat
}.

(** ** The effect monad: world passing with exceptions *)

Definition M (A : Type) : Type := World -> Result A * World.

#[export] Instance M_ret : MRet M := fun _ a w => (Ok a, w).
#[export] Instance M_bind : MBind M := fun _ _ f m w =>
  match m w with
  | (Ok a, w') => f a w'
  | (Throw e, w') => (Throw e, w')
  end.

Definition throw {A} (e : Err) : M A := fun w => (Throw e, w).

(** [try { body } catch (err) { handler }]. *)
Definition try_catch {A} (body : M A) (handler : Err -> M A) : M A := fun w =>
  match body w with
  | (Ok a, w') => (Ok a, w')
  | (Throw e, w') => handler e w'
  end.

Definition emit (c : Call) : M unit := fun w =>
  (Ok tt, {| jobs := jobs w; jobCandidates := jobCandidates w;
             uuids := uuids w; trace := trace w ++ [c] |}).

Definition lift {A} (r : Result A) : M A := fun w => (r, w).

Definition getWorld : M World := fun w => (Ok w, w).

Definition setJobs (js : list Obj) : M unit := fun w =>
  (Ok tt, {| jobs := js; jobCandidates := jobCandidates w;
             uuids := uuids w; trace := trace w |}).

(** [Promise.all]: every promise of the list has been started, so every call
    is issued, in list order; [settleAll] keeps each outcome. *)
Fixpoint settleAll {A} (ps : list (M A)) (w : World)
  : list (Result A) * World :=
  match ps with
  | [] => ([], w)
  | p :: ps' =>
      let '(r, w1) := p w in
      let '(rs, w2) := settleAll ps' w1 in
      (r :: rs, w2)
  end.

Definition rejections {A} (rs : list (Result A)) : list Err :=
  omap (fun r => match r with Throw e => Some e | Ok _ => None end) rs.

Definition fulfilments {A} (rs : list (Result A)) : list A :=
  omap (fun r => match r with Ok a => Some a | Throw _ => None end) rs.

(** The combined promise fulfils with all the values when none rejects, and
    otherwise rejects with the rejection that settles first in time, which
    need not be the first of the list: [first] picks it among the rejections
    listed in the order of the array. *)
Definition promiseAll {A} (first : list Err -> nat) (ps : list (M A))
  : M (list A) := fun w =>
  let '(rs, w') := settleAll ps w in
  (match rejections rs with
   | [] => Ok (fulfilments rs)
   | e :: es => Throw (nth (first (e :: es)) (e :: es) e)
   end, w').

(** ** The relational store *)

(** SQL [=] between a cell and a literal: never true on [NULL]. *)
Definition sqlEq (cell : option Value) (v : Value) : bool :=
  match cell, v with
  | Some (VBool x), VBool y => Bool.eqb x y
  | Some (VNum x), VNum y => x =? y
  | Some (VStr x), VStr y => String.eqb x y
  | _, _ => false
  end.

(** SQL [LIKE]: [%] matches any run of characters, [_] any one character. *)
Fixpoint likeMatch (p : string) : string -> bool :=
  match p with
  | EmptyString =>
      fun t => match t with EmptyString => true | String _ _ => false end
  | String c p' =>
      if Ascii.eqb c "%"%char then
        fix star (t : string) : bool :=
          likeMatch p' t
          || match t with EmptyString => false | String _ t' => star t' end
      else if Ascii.eqb c "_"%char then
        fun t => match t with EmptyString => false | String _ t' => likeMatch p' t' end
      else
        fun t => match t with
                 | EmptyString => false
                 | String d t' => Ascii.eqb c d && likeMatch p' t'
                 end
  end.

(** A needle in which no character is a [LIKE] wildcard. *)
Fixpoint wildcardFree (s : string) : bool :=
  match s with
  | EmptyString => true
  | String c s' =>
      negb (Ascii.eqb c "%"%char) && negb (Ascii.eqb c "_"%char) && wildcardFree s'
  end.

(** How Sequelize reads one [key: cond] pair against a row: an array literal
    is [IN], [null] is [IS NULL], any other literal is [=]. *)
Definition condHolds (cell : option Value) (c : WhereCond) : bool :=
  match c with
  | WVal (VArr vs) => existsb (sqlEq cell) vs
  | WVal VNull => match cell with None | Some VNull => true | _ => false end
  | WVal v => sqlEq cell v
  | WLike p => match cell with Some (VStr s) => likeMatch p s | _ => false end
  | WContains vs =>
      match cell with
      | Some (VArr xs) => forallb (fun v => existsb (sameValue v) xs) vs
      | _ => false
      end
  end.

Definition pairHolds (row : Obj) (kc : string * WhereCond) : bool :=
  condHolds (row !! kc.1) kc.2.

Definition whereHolds (wh : Where) (row : Obj) : bool :=
  forallb (pairHolds row) (opAnd wh) && forallb (pairHolds row) (fields wh).

Definition candidatesOf (cands : list Obj) (jobId : option Value) : list Value :=
  List.map VObj
    (List.filter (fun c => match jobId with
                           | Some v => sqlEq (c !! "jobId") v
                           | None => false
                           end) cands).

Definition withCandidatesOf (cands : list Obj) (row : Obj) : Obj :=
  <["candidates" := VArr (candidatesOf cands (row !! "id"))]> row.

Definition hasId (id : option Value) (row : Obj) : bool :=
  match id with Some v => sqlEq (row !! "id") v | None => false end.

(** What [searchJobs] returns; [fromDb] is [None] when the key is absent. *)
Record SearchResult := {
  fromDb : option bool;
  total : Z;
  r_page : Z;
  r_perPage : Z;
  result : list Obj
}.

Definition msgNotFound (id : string) : string :=
  "id: " +:+ id +:+ " " +:+ dq +:+ "Job" +:+ dq +:+ " not found".

Definition msgDoesNotExist (id : string) : string :=
  "id: " +:+ id +:+ " " +:+ dq +:+ "Job" +:+ dq +:+ " doesn't exists.".

Section Service.
Context (env : Env).

Definition fault (op : DbOp) : M unit :=
  match dbFault env op with
  | Some e => throw e
  | None => mret tt
  end.

(** Modelled from the spec: the [Job] model is not among the sources.
    [findById(id, includeCandidates) -> StoredJob | NotFound], optionally
    eager-loading the associated candidates.  The spec fixes the kind of the
    error, not the wording of [msgDoesNotExist]. *)
Definition Job_findById (id : string) (withCandidates : bool) : M Obj :=
  emit (CJobFindById id withCandidates);;
  fault OpFindById;;
  w ← getWorld;
  match List.find (hasId (Some (VStr id))) (jobs w) with
  | None =>
      throw (errors.NotFoundError (msgDoesNotExist id))
  | Some row =>
      mret (if withCandidates then withCandidatesOf (jobCandidates w) row
            else row)
  end.

(** Modelled from the spec: [create(job) -> StoredJob]. *)
Definition Job_create (job : Obj) : M Obj :=
  emit (CJobCreate job);;
  fault OpCreate;;
  w ← getWorld;
  setJobs (jobs w ++ [job]);;
  mret job.

(** Modelled from the spec: [update(id, patch) -> StoredJob], called on the
    instance [job]; the keys of the patch replace those of the row. *)
Definition Job_update (job : Obj) (data : Obj) : M Obj :=
  emit (CJobUpdate (job !! "id") data);;
  fault OpUpdate;;
  w ← getWorld;
  setJobs (List.map (fun row => if hasId (job !! "id") row then data ∪ row
                                else row) (jobs w));;
  mret (data ∪ job).

(** Modelled from the spec: [delete(id) -> void], called on the instance. *)
Definition Job_destroy (job : Obj) : M unit :=
  emit (CJobDestroy (job !! "id"));;
  fault OpDestroy;;
  w ← getWorld;
  setJobs (List.filter (fun row => negb (hasId (job !! "id") row)) (jobs w)).

(** Modelled from the spec: [query(filter, page, pageSize, sort)]; rows that
    satisfy the filter, ordered, then the window [offset, offset+limit). *)
Definition Job_findAll (q : FindAll) : M (list Obj) :=
  emit (CJobFindAll q);;
  fault OpFindAll;;
  w ← getWorld;
  let rows :=
    take (Z.to_nat (fa_limit q))
      (drop (Z.to_nat (fa_offset q))
         (sqlOrder env (fa_order q)
            (List.filter (whereHolds (fa_where q)) (jobs w)))) in
  mret (if fa_include q then List.map (withCandidatesOf (jobCandidates w)) rows
        else rows).

(** ** Collaborators *)

Definition esClient_get (index : EsIndex) (id : string) : M EsHit :=
  emit (CEsGet index id);; lift (esGet env index id).

Definition esClient_search (req : EsRequest) : M EsBody :=
  emit (CEsSearch req);; lift (esSearch env req).

Definition helper_checkIsMemberOfProject (uid : Value) (pid : option Value)
  : M unit :=
  emit (CCheckIsMemberOfProject uid pid);;
  lift (checkIsMemberOfProject env uid pid).

Definition helper_getSkillById (skill : Value) : M unit :=
  emit (CGetSkillById skill);; lift (getSkillById env skill).

Definition helper_getUserId (uid : Value) : M Value :=
  emit (CGetUserId uid);; lift (getUserId env uid).

Definition helper_postEvent (topic : Topic) (payload : Obj)
  (oldValue : option Obj) : M unit :=
  emit (CPostEvent topic payload oldValue);;
  lift (postEvent env topic payload oldValue).

Definition Role_findAll (roles : list Value) : M (list Value) :=
  emit (CRoleFindAll roles);; lift (roleFindAll env roles).

Definition uuid_v4 : M string := fun w =>
  (Ok (uuid env (uuids w)),
   {| jobs := jobs w; jobCandidates := jobCandidates w;
      uuids := S (uuids w); trace := trace w |}).

Definition logger_logFullError (err : Err) (context : string) : M unit :=
  emit (CLogFullError err context).

Definition logger_info (context msg : string) : M unit :=
  emit (CLogInfo context msg).

Definition logger_debug (context : string) : M unit :=
  emit (CLogDebug context).

(** ** Private helpers of the service *)

Definition candidateRecord (hit : EsHit) : Value :=
  VObj (<["id" := VStr (_id hit)]> (_source hit)).

Definition candidatesQuery (jobId : string) : EsRequest :=
  {| es_index := ES_INDEX_JOB_CANDIDATE;
     es_query := EsLeaf (EsTerm "jobId" (VStr jobId));
     es_from := None; es_size := None; es_sort := [] |}.

Definition _getJobCandidates (jobId : string) : M (list Value) :=
  body ← esClient_search (candidatesQuery jobId);
  if hits_total body =? 0 then mret []
  else mret (List.map candidateRecord (hits_hits body)).

(** One element of the [skills.map(...)] array: [found] and the skill. *)
Definition skillResponse (skill : Value) : M (bool * Value) :=
  try_catch (helper_getSkillById skill;; mret (true, skill))
    (fun err =>
       if negb (optZ_eqb (status err) HttpStatus.NOT_FOUND) then throw err
       else mret (false, skill)).

Definition _validateSkills (skills : list Value) : M unit :=
  responses ← promiseAll (settlesFirst env) (List.map skillResponse skills);
  let errResponses := List.filter (fun res => negb res.1) responses in
  if negb (length errResponses =? 0)%nat then
    throw (errors.BadRequestError
             ("Invalid skills: [" +:+ jsString (VArr (List.map snd errResponses))
              +:+ "]"))
  else mret tt.

Definition _validateRoles (roles : list Value) : M unit :=
  foundRoles ← Role_findAll roles;
  let nonexistentRoles := difference roles foundRoles in
  if (0 <? length nonexistentRoles)%nat then
    throw (errors.BadRequestError
             ("Invalid roles: [" +:+ jsString (VArr nonexistentRoles) +:+ "]"))
  else mret tt.

Definition _checkUserPermissionForGetJob (currentUser : User)
  (pid : option Value) : M unit :=
  if negb (hasManagePermission currentUser) && negb (isMachine currentUser)
     && negb (isConnectManager currentUser)
  then helper_checkIsMemberOfProject (userId currentUser) pid
  else mret tt.

(** [_.map(job.dataValues.candidates, c => c.dataValues)]: an array whatever
    the cell holds. *)
Definition candidatesDataValues (cell : option Value) : Value :=
  match cell with
  | Some (VArr cs) => VArr cs
  | _ => VArr []
  end.

(** ** getJob *)

Definition getJob_index (currentUser : User) (id : string) : M Obj :=
  job ← esClient_get ES_INDEX_JOB id;
  _checkUserPermissionForGetJob currentUser (_source job !! "projectId");;
  let jobId := _id job in
  let jobRecord : Obj := _source job ∪ {[ "id" := VStr jobId ]} in
  candidates ← _getJobCandidates jobId;
  if negb (length candidates =? 0)%nat
  then mret (<["candidates" := VArr candidates]> jobRecord)
  else mret jobRecord.

Definition getJob_db (currentUser : User) (id : string) : M Obj :=
  logger_info "getJob" "try to query db for data";;
  job ← Job_findById id true;
  _checkUserPermissionForGetJob currentUser (job !! "projectId");;
  mret (<["candidates" := candidatesDataValues (job !! "candidates")]> job).

(** The [try] block either returns ([Some]) or falls through ([None]). *)
Definition getJob (currentUser : User) (id : string) (fromDb : bool) : M Obj :=
  returned ←
    (if negb fromDb then
       try_catch (jobRecord ← getJob_index currentUser id; mret (Some jobRecord))
         (fun err =>
            if isDocumentMissingException err then
              throw (errors.NotFoundError (msgNotFound id))
            else if optZ_eqb (httpStatus err) HttpStatus.FORBIDDEN then
              throw err
            else
              logger_logFullError err "getJob";; mret None)
     else mret None);
  match returned with
  | Some jobRecord => mret jobRecord
  | None => getJob_db currentUser id
  end.

(** ** createJob *)

Definition arrayOf (x : option Value) : M (list Value) :=
  match x with
  | Some (VArr l) => mret l
  | _ => throw (TypeError "map is not a function")
  end.

(** [_.uniq(x)]: a string is array-like and is split into its characters;
    any other non-array yields the empty array. *)
Definition uniqOf (x : option Value) : list Value :=
  match x with
  | Some (VArr l) => uniq l
  | Some (VStr s) =>
      uniq (List.map (fun c => VStr (String c EmptyString))
              (String.list_ascii_of_string s))
  | _ => []
  end.

Definition isUndefined (x : option Value) : bool :=
  match x with None => true | Some _ => false end.

Definition msgApplicationPage : string :=
  "You are not allowed to set/update the value of field " +:+ dq
  +:+ "isApplicationPageActive" +:+ dq +:+ ".".

Definition msgNotAllowed : string :=
  "You are not allowed to perform this action!".

Definition createJob (currentUser : User) (job : Obj) : M Obj :=
  (if negb (hasManagePermission currentUser) && negb (isMachine currentUser)
   then helper_checkIsMemberOfProject (userId currentUser) (job !! "projectId")
   else mret tt);;
  (if negb (isUndefined (job !! "isApplicationPageActive"))
      && negb (isMachine currentUser)
   then throw (errors.ForbiddenError msgApplicationPage)
   else mret tt);;
  skills ← arrayOf (job !! "skills");
  _validateSkills skills;;
  job ← (if truthy (job !! "roleIds") then
           let roleIds := uniqOf (job !! "roleIds") in
           _validateRoles roleIds;;
           mret (<["roleIds" := VArr roleIds]> job)
         else mret job);
  id ← uuid_v4;
  let job := <["id" := VStr id]> job in
  createdBy ← helper_getUserId (userId currentUser);
  let job := <["createdBy" := createdBy]> job in
  created ← Job_create job;
  helper_postEvent TAAS_JOB_CREATE_TOPIC created None;;
  mret created.

(** ** updateJob *)

Definition updateJob (currentUser : User) (id : string) (data : Obj) : M Obj :=
  (if truthy (data !! "skills") then
     skills ← arrayOf (data !! "skills");
     _validateSkills skills
   else mret tt);;
  data ← (if truthy (data !! "roleIds") then
            let roleIds := uniqOf (data !! "roleIds") in
            _validateRoles roleIds;;
            mret (<["roleIds" := VArr roleIds]> data)
          else mret data);
  job ← Job_findById id false;
  let oldValue := job in
  (if negb (isUndefined (data !! "isApplicationPageActive"))
      && negb (isMachine currentUser)
   then throw (errors.ForbiddenError msgApplicationPage)
   else mret tt);;
  ubahnUserId ← helper_getUserId (userId currentUser);
  (if negb (hasManagePermission currentUser) && negb (isMachine currentUser)
   then
     if negb (strictEq (Some ubahnUserId) (job !! "createdBy"))
     then throw (errors.ForbiddenError msgNotAllowed)
     else mret tt
   else mret tt);;
  let data := <["updatedBy" := ubahnUserId]> data in
  updated ← Job_update job data;
  helper_postEvent TAAS_JOB_UPDATE_TOPIC updated (Some oldValue);;
  job ← Job_findById id true;
  mret (<["candidates" := candidatesDataValues (job !! "candidates")]> job).

(** A call [updateJob(currentUser, id, data, flag)]: the function declares
    three parameters, so a fourth argument is bound to nothing. *)
Definition updateJob_call (currentUser : User) (id : string) (data : Obj)
  (rest : list Value) : M Obj :=
  updateJob currentUser id data.

Definition partiallyUpdateJob (currentUser : User) (id : string) (data : Obj)
  : M Obj :=
  updateJob_call currentUser id data [VBool false].

Definition fullyUpdateJob (currentUser : User) (id : string) (data : Obj)
  : M Obj :=
  updateJob_call currentUser id data [VBool true].

(** ** deleteJob *)

Definition deleteJob (currentUser : User) (id : string) : M unit :=
  (if negb (hasManagePermission currentUser) && negb (isMachine currentUser)
   then throw (errors.ForbiddenError msgNotAllowed)
   else mret tt);;
  job ← Job_findById id false;
  Job_destroy job;;
  helper_postEvent TAAS_JOB_DELETE_TOPIC {[ "id" := VStr id ]} None.

(** ** searchJobs *)

Definition truthyNum (x : option Z) : bool := truthy (VNum <$> x).
Definition truthyStr (x : option string) : bool := truthy (VStr <$> x).

(** [x > 0 ? x : dflt] where [x] may be [undefined]. *)
Definition positiveOr (x : option Z) (dflt : Z) : Z :=
  match x with
  | Some n => if 0 <? n then n else dflt
  | None => dflt
  end.

(** [if (!criteria.k) criteria.k = dflt], then reading [criteria.k]. *)
Definition stringOr (x : option string) (dflt : string) : string :=
  match x with
  | Some s => if truthyStr x then s else dflt
  | None => dflt
  end.

Definition entry (key : string) (v : option Value) : list (string * Value) :=
  match v with
  | Some x => [(key, x)]
  | None => []
  end.

(** [_.pick(criteria, [...])] of the index path, in the order of the list. *)
Definition pickIndex (c : Criteria) : list (string * Value) :=
  entry "projectId" (VNum <$> projectId c)
  ++ entry "externalId" (VStr <$> externalId c)
  ++ entry "description" (VStr <$> description c)
  ++ entry "startDate" (VStr <$> startDate c)
  ++ entry "resourceType" (VStr <$> resourceType c)
  ++ entry "skill" (VStr <$> skill c)
  ++ entry "role" (VStr <$> role c)
  ++ entry "rateType" (VStr <$> rateType c)
  ++ entry "workload" (VStr <$> workload c)
  ++ entry "title" (VStr <$> title c)
  ++ entry "status" (VStr <$> status_ c).

Definition mustClause (kv : string * Value) : EsClause :=
  let '(key, value) := kv in
  if String.eqb key "description" || String.eqb key "title" then
    EsMatch key value
  else if String.eqb key "skill" || String.eqb key "role" then
    EsTerms (key +:+ "s") [value]
  else EsTerm key value.

Definition nonEmptyIds (x : option (list string)) : bool :=
  match x with
  | Some l => (0 <? length l)%nat
  | None => false
  end.

Definition filterClauses (c : Criteria) : list EsClause :=
  (match projectIds c with
   | Some l => [EsTerms "projectId" (List.map VNum l)]
   | None => []
   end)
  ++ (if nonEmptyIds (jobIds c)
      then [EsTerms "_id" (List.map VStr (default [] (jobIds c)))]
      else []).

Definition esQuery (c : Criteria) (sortBy sortOrder : string) (page perPage : Z)
  : EsRequest :=
  {| es_index := ES_INDEX_JOB;
     es_query := EsBool (List.map mustClause (pickIndex c)) (filterClauses c);
     es_from := Some ((page - 1) * perPage);
     es_size := Some perPage;
     es_sort := [(if String.eqb sortBy "id" then "_id" else sortBy, sortOrder)]
  |}.

Definition hitRecord (hit : EsHit) : M Obj :=
  let jobRecord : Obj := <["id" := VStr (_id hit)]> (_source hit) in
  candidates ← _getJobCandidates (_id hit);
  if negb (length candidates =? 0)%nat
  then mret (<["candidates" := VArr candidates]> jobRecord)
  else mret jobRecord.

(** The body of the [try] block. *)
Definition searchJobs_index (c : Criteria) (sortBy sortOrder : string)
  (page perPage : Z) : M SearchResult :=
  logger_debug "searchJobs";;
  body ← esClient_search (esQuery c sortBy sortOrder page perPage);
  result ← promiseAll (settlesFirst env) (List.map hitRecord (hits_hits body));
  mret {| fromDb := None; total := hits_total body;
          r_page := page; r_perPage := perPage; result := result |}.

(** [_.pick(criteria, [...])] of the fallback path. *)
Definition pickDb (c : Criteria) : list (string * Value) :=
  entry "projectId" (VNum <$> projectId c)
  ++ entry "externalId" (VStr <$> externalId c)
  ++ entry "startDate" (VStr <$> startDate c)
  ++ entry "resourceType" (VStr <$> resourceType c)
  ++ entry "rateType" (VStr <$> rateType c)
  ++ entry "workload" (VStr <$> workload c)
  ++ entry "status" (VStr <$> status_ c).

Definition likeField (key : string) (x : option string)
  : list (string * WhereCond) :=
  match x with
  | Some s => if truthyStr x then [(key, WLike ("%" +:+ s +:+ "%"))] else []
  | None => []
  end.

Definition containsField (key : string) (x : option string)
  : list (string * WhereCond) :=
  match x with
  | Some s => if truthyStr x then [(key, WContains [VStr s])] else []
  | None => []
  end.

Definition dbFilter (c : Criteria) : Where :=
  {| opAnd :=
       List.map (fun kv => (kv.1, WVal kv.2)) (pickDb c)
       ++ (if nonEmptyIds (jobIds c)
           then [("id", WVal (VArr (List.map VStr (default [] (jobIds c)))))]
           else []);
     fields :=
       likeField "description" (description c)
       ++ likeField "title" (title c)
       ++ containsField "skills" (skill c)
       ++ containsField "roles" (role c) |}.

Definition searchJobs_db (c : Criteria) (sortBy sortOrder : string)
  (page perPage : Z) : M SearchResult :=
  logger_info "searchJobs" "fallback to DB query";;
  jobs ← Job_findAll {| fa_where := dbFilter c;
                        fa_offset := (page - 1) * perPage;
                        fa_limit := perPage;
                        fa_order := (sortBy, sortOrder);
                        fa_include := true |};
  mret {| fromDb := Some true; total := Z.of_nat (length jobs);
          r_page := page; r_perPage := perPage; result := jobs |}.

Definition msgProjectId : string :=
  "Not allowed without filtering by " +:+ dq +:+ "projectId" +:+ dq.

Definition searchJobs_permission (currentUser : User) (criteria : Criteria)
  (options : Options) : M unit :=
  if negb (hasManagePermission currentUser) && negb (isMachine currentUser)
     && negb (isConnectManager currentUser) && negb (returnAll options)
  then
    (if negb (truthyNum (projectId criteria))
     then throw (errors.ForbiddenError msgProjectId)
     else mret tt);;
    helper_checkIsMemberOfProject (userId currentUser)
      (VNum <$> projectId criteria)
  else mret tt.

Definition searchJobs (currentUser : User) (criteria : Criteria)
  (options : Options) : M SearchResult :=
  searchJobs_permission currentUser criteria options;;
  let page := positiveOr (page criteria) 1 in
  let perPage :=
    if returnAll options then 10000 else positiveOr (perPage criteria) 20 in
  let sortBy := stringOr (sortBy criteria) "id" in
  let sortOrder := stringOr (sortOrder criteria) "desc" in
  returned ←
    try_catch
      (r ← searchJobs_index criteria sortBy sortOrder page perPage;
       mret (Some r))
      (fun err => logger_logFullError err "searchJobs";; mret None);
  match returned with
  | Some r => mret r
  | None => searchJobs_db criteria sortBy sortOrder page perPage
  end.
End Service.

(** ** Reading the trace *)

(** The world after the calls [cs] have been issued and nothing else changed. *)
Definition logged (w : World) (cs : list Call) : World :=
  {| jobs := jobs w; jobCandidates := jobCandidates w; uuids := uuids w;
     trace := trace w ++ cs |}.

Definition isIndexCall (c : Call) : bool :=
  match c with
  | CEsGet _ _ | CEsSearch _ => true
  | _ => false
  end.



Definition isWriteOrEvent (c : Call) : bool :=
  match c with
  | CJobCreate _ | CJobUpdate _ _ | CJobDestroy _ | CPostEvent _ _ _ => true
  | _ => false
  end.

Definition isErrorLog (c : Call) : bool :=
  match c with
  | CLogFullError _ _ => true
  | _ => false
  end.

(** A computation that leaves both tables as they are and issues neither a
    relational write nor a propagation event. *)
Definition readOnly {A} (m : M A) : Prop :=
  forall w,
    jobs (m w).2 = jobs w /\ jobCandidates (m w).2 = jobCandidates w /\
    exists cs, trace (m w).2 = trace w ++ cs /\
               forallb (fun c => negb (isWriteOrEvent c)) cs = true.

(** A caller for whom the read guard consults the membership service. *)
Definition unprivilegedReader (u : User) : bool :=
  negb (hasManagePermission u) && negb (isMachine u)
  && negb (isConnectManager u).

(** The same collaborators with another message bus. *)
Definition withPostEvent (env : Env)
  (bus : Topic -> Obj -> option Obj -> Result unit) : Env :=
  {| esGet := esGet env; esSearch := esSearch env;
     checkIsMemberOfProject := checkIsMemberOfProject env;
     getSkillById := getSkillById env; getUserId := getUserId env;
     postEvent := bus; roleFindAll := roleFindAll env; uuid := uuid env;
     dbFault := dbFault env; sqlOrder := sqlOrder env;
     settlesFirst := settlesFirst env |}.

Definition busUp : Topic -> Obj -> option Obj -> Result unit :=
  fun _ _ _ => Ok tt.

Definition busDown (e : Err) : Topic -> Obj -> option Obj -> Result unit :=
  fun _ _ _ => Throw e.

(** Outcome of one skill lookup as [_validateSkills] reads it. *)
Definition skillMissing (env : Env) (skill : Value) : bool :=
  match getSkillById env skill with
  | Throw e => optZ_eqb (status e) HttpStatus.NOT_FOUND
  | Ok _ => false
  end.

Definition skillLookupFails (env : Env) (skill : Value) : bool :=
  match getSkillById env skill with
  | Throw e => negb (optZ_eqb (status e) HttpStatus.NOT_FOUND)
  | Ok _ => false
  end.

(** The skills of the payload pass validation, or there are none to check. *)
Definition skillsPass (env : Env) (data : Obj) : Prop :=
  truthy (data !! "skills") = false \/
  exists skills, data !! "skills" = Some (VArr skills) /\
                 forallb (fun s => match getSkillById env s with
                                   | Ok _ => true
                                   | Throw _ => false
                                   end) skills = true.

(** The roles of the payload pass validation, or there are none to check. *)
Definition rolesPass (env : Env) (data : Obj) : Prop :=
  truthy (data !! "roleIds") = false \/
  exists found, roleFindAll env (uniqOf (data !! "roleIds")) = Ok found /\
                difference (uniqOf (data !! "roleIds")) found = [].

(** The criteria with another set of project ids. *)
Definition withProjectIds (c : Criteria) (ids : option (list Z)) : Criteria :=
  {| page := page c; perPage := perPage c; sortBy := sortBy c;
     sortOrder := sortOrder c; projectId := projectId c;
     externalId := externalId c; description := description c;
     title := title c; startDate := startDate c;
     resourceType := resourceType c; skill := skill c; role := role c;
     rateType := rateType c; workload := workload c; status_ := status_ c;
     projectIds := ids; jobIds := jobIds c |}.

(** ** Auxiliary notions for the write operations *)

(** The skill lookups issued for a payload. *)
Definition skillCalls (data : Obj) : list Call :=
  match data !! "skills" with
  | Some (VArr skills) => List.map CGetSkillById skills
  | _ => []
  end.

(** The role lookup issued for a payload. *)
Definition roleCalls (data : Obj) : list Call :=
  if truthy (data !! "roleIds") then [CRoleFindAll (uniqOf (data !! "roleIds"))]
  else [].

(** The payload after [data.roleIds = _.uniq(data.roleIds)]. *)
Definition withUniqueRoles (data : Obj) : Obj :=
  if truthy (data !! "roleIds")
  then <["roleIds" := VArr (uniqOf (data !! "roleIds"))]> data
  else data.

Definition invalidSkills (env : Env) (skills : list Value) : string :=
  "Invalid skills: [" +:+ jsString (VArr (List.filter (skillMissing env) skills))
  +:+ "]".

Definition invalidRoles (roles found : list Value) : string :=
  "Invalid roles: [" +:+ jsString (VArr (difference roles found)) +:+ "]".

Definition alwaysThrows {A} (m : M A) : Prop :=
  forall w, exists e, (m w).1 = Throw e.

(** What [updateJob] amounts to when a caller who is not a machine sends the
    application-page flag: validation, lookup, refusal. *)
Definition updateJob_refused (env : Env) (id : string) (data : Obj) : M Obj :=
  (if truthy (data !! "skills")
   then skills ← arrayOf (data !! "skills"); _validateSkills env skills
   else mret tt);;
  (if truthy (data !! "roleIds")
   then _validateRoles env (uniqOf (data !! "roleIds"));;
        mret (<["roleIds" := VArr (uniqOf (data !! "roleIds"))]> data)
   else mret data);;
  Job_findById env id false;;
  throw (errors.ForbiddenError msgApplicationPage).

(** ** The relational query of the fallback, row by row

    What the filter built at lines 485-519 selects, read off the code
    ([dbFilter_matches] ties it to [dbFilter]): the picked scalar keys are
    exact matches, a truthy title or description is a [LIKE] pattern, a
    truthy skill or role must be contained in the columns [skills] and
    [roles], and a non-empty set of job ids restricts the identities.  The
    set of project ids takes no part in it. *)
Module Fallback.

Definition exactMatch (row : Obj) (key : string) (x : option Value) : bool :=
  match x with
  | Some v => sqlEq (row !! key) v
  | None => true
  end.

Definition patternMatch (row : Obj) (key : string) (x : option string) : bool :=
  match x with
  | Some s =>
      if String.eqb s "" then true
      else match row !! key with
           | Some (VStr t) => likeMatch ("%" +:+ s +:+ "%") t
           | _ => false
           end
  | None => true
  end.

Definition memberOf (row : Obj) (key : string) (x : option string) : bool :=
  match x with
  | Some s =>
      if String.eqb s "" then true
      else match row !! key with
           | Some (VArr xs) => existsb (sameValue (VStr s)) xs
           | _ => false
           end
  | None => true
  end.

Definition amongIds (row : Obj) (ids : option (list string)) : bool :=
  match ids with
  | Some (i :: l) => existsb (fun j => sqlEq (row !! "id") (VStr j)) (i :: l)
  | _ => true
  end.

Definition matches (c : Criteria) (row : Obj) : bool :=
  exactMatch row "projectId" (VNum <$> projectId c)
  && exactMatch row "externalId" (VStr <$> externalId c)
  && exactMatch row "startDate" (VStr <$> startDate c)
  && exactMatch row "resourceType" (VStr <$> resourceType c)
  && exactMatch row "rateType" (VStr <$> rateType c)
  && exactMatch row "workload" (VStr <$> workload c)
  && exactMatch row "status" (VStr <$> status_ c)
  && patternMatch row "description" (description c)
  && patternMatch row "title" (title c)
  && memberOf row "skills" (skill c)
  && memberOf row "roles" (role c)
  && amongIds row (jobIds c).

(** [query(filter, page, pageSize, sort) -> items]: the matching rows in the
    requested order, cut to the page, each with its candidates. *)
Definition query (env : Env) (c : Criteria) (sort : string * string)
  (page pageSize : Z) (w : World) : Result (list Obj) :=
  match dbFault env OpFindAll with
  | Some e => Throw e
  | None =>
      Ok (List.map (withCandidatesOf (jobCandidates w))
            (take (Z.to_nat pageSize)
               (drop (Z.to_nat ((page - 1) * pageSize))
                  (sqlOrder env sort (List.filter (matches c) (jobs w))))))
  end.

(** The listing built from a page of rows, tagged with its source. *)
Definition listing (page pageSize : Z) (items : Result (list Obj))
  : Result SearchResult :=
  match items with
  | Ok rows => Ok {| fromDb := Some true; total := Z.of_nat (length rows);
                     r_page := page; r_perPage := pageSize; result := rows |}
  | Throw e => Throw e
  end.

End Fallback.

(** ** The relational query in the words of the specification

    "Free-text fields become substring/pattern matches; skill/role filters
    become 'criteria value is a member of the record's skill/role
    collection'; all other scalar filters become exact-match conjunctions"
    (4.2), over the filters the search criteria may carry (3): project id,
    project id set, external id, title and description, the exact-match
    fields, skill id, role id and a set of job ids.  A job holds its skills
    under [skills] and its roles under [roleIds] (3); a set filter keeps the
    records whose value is in the set; a filter the criteria do not carry
    imposes nothing.  The default sort is by identity, descending (4.5), and
    the count is the number of rows fetched (4.2). *)
Module RecordStore.

Definition exact (row : Obj) (key : string) (x : option Value) : bool :=
  match x with
  | Some v => sqlEq (row !! key) v
  | None => true
  end.

Definition pattern (row : Obj) (key : string) (x : option string) : bool :=
  match x with
  | Some s =>
      match row !! key with
      | Some (VStr t) => likeMatch ("%" +:+ s +:+ "%") t
      | _ => false
      end
  | None => true
  end.

Definition member (row : Obj) (key : string) (x : option string) : bool :=
  match x with
  | Some s =>
      match row !! key with
      | Some (VArr xs) => existsb (sameValue (VStr s)) xs
      | _ => false
      end
  | None => true
  end.

Definition inSet (row : Obj) (key : string) (set : option (list Value))
  : bool :=
  match set with
  | Some vs => existsb (sqlEq (row !! key)) vs
  | None => true
  end.

Definition matches (c : Criteria) (row : Obj) : bool :=
  exact row "projectId" (VNum <$> projectId c)
  && inSet row "projectId" (List.map VNum <$> projectIds c)
  && exact row "externalId" (VStr <$> externalId c)
  && pattern row "title" (title c)
  && pattern row "description" (description c)
  && exact row "startDate" (VStr <$> startDate c)
  && exact row "resourceType" (VStr <$> resourceType c)
  && exact row "rateType" (VStr <$> rateType c)
  && exact row "workload" (VStr <$> workload c)
  && exact row "status" (VStr <$> status_ c)
  && member row "skills" (skill c)
  && member row "roleIds" (role c)
  && inSet row "id" (List.map VStr <$> jobIds c).

(** [query(filter, page, pageSize, sort) -> (items, totalApprox)]: the
    matching rows in the requested order, cut to the page, each with its
    candidates. *)
Definition query (env : Env) (c : Criteria) (page pageSize : Z) (w : World)
  : Result (list Obj) :=
  match dbFault env OpFindAll with
  | Some e => Throw e
  | None =>
      Ok (List.map (withCandidatesOf (jobCandidates w))
            (take (Z.to_nat pageSize)
               (drop (Z.to_nat ((page - 1) * pageSize))
                  (sqlOrder env
                     (default "id" (sortBy c), default "desc" (sortOrder c))
                     (List.filter (matches c) (jobs w))))))
  end.

(** The same criteria run against the relational store: the listing of the
    page, tagged as sourced from the fallback. *)
Definition search (env : Env) (c : Criteria) (page pageSize : Z) (w : World)
  : Result SearchResult :=
  match query env c page pageSize w with
  | Ok rows => Ok {| fromDb := Some true; total := Z.of_nat (length rows);
                     r_page := page; r_perPage := pageSize; result := rows |}
  | Throw e => Throw e
  end.

(** The criteria on which the filter of the code and the words of the
    specification can be compared: no set of project ids, no role, no empty
    string, no empty set. *)
Definition shared (c : Criteria) : Prop :=
  projectIds c = None /\ role c = None /\
  title c <> Some "" /\ description c <> Some "" /\ skill c <> Some "" /\
  jobIds c <> Some [] /\ sortBy c <> Some "" /\ sortOrder c <> Some "".

End RecordStore.

(** ** Sample collaborators and data *)

Module Sample.

Definition noCriteria : Criteria :=
  {| page := None; perPage := None; sortBy := None; sortOrder := None;
     projectId := None; externalId := None; description := None;
     title := None; startDate := None; resourceType := None; skill := None;
     role := None; rateType := None; workload := None; status_ := None;
     projectIds := None; jobIds := None |}.

Definition twoPerPage : Criteria :=
  {| page := Some 1; perPage := Some 2; sortBy := None; sortOrder := None;
     projectId := Some 7; externalId := None; description := None;
     title := Some "dev"; startDate := None; resourceType := None;
     skill := None; role := None; rateType := None; workload := None;
     status_ := None; projectIds := None; jobIds := None |}.

Definition row1 : Obj :=
  {[ "id" := VStr "j1"; "projectId" := VNum 7; "title" := VStr "Rocq dev";
     "createdBy" := VStr "u1" ]}.
Definition row2 : Obj :=
  {[ "id" := VStr "j2"; "projectId" := VNum 7; "title" := VStr "JS dev";
     "createdBy" := VStr "u2" ]}.
Definition row3 : Obj :=
  {[ "id" := VStr "j3"; "projectId" := VNum 7; "title" := VStr "Go developer";
     "createdBy" := VStr "u2" ]}.
Definition cand1 : Obj := {[ "id" := VStr "c1"; "jobId" := VStr "j2" ]}.

Definition world : World :=
  {| jobs := [row1; row2; row3]; jobCandidates := [cand1]; uuids := 0;
     trace := [] |}.

Definition hit1 : EsHit :=
  {| _id := "j1";
     _source := {[ "projectId" := VNum 7; "title" := VStr "Rocq dev" ]} |}.

Definition unavailable : Err := mkErr None None (Some 503) "unavailable".
Definition missing : Err := mkErr None None (Some 404) "document missing".
Definition noSuchSkill : Err := mkErr None (Some 404) None "skill not found".

(** Everything answers; the index holds [j1] without candidates. *)
Definition envUp : Env :=
  {| esGet := fun _ id => if String.eqb id "j1" then Ok hit1 else Throw missing;
     esSearch := fun req =>
       match es_index req with
       | ES_INDEX_JOB => Ok {| hits_total := 1; hits_hits := [hit1] |}
       | ES_INDEX_JOB_CANDIDATE => Ok {| hits_total := 0; hits_hits := [] |}
       end;
     checkIsMemberOfProject := fun _ _ => Ok tt;
     getSkillById := fun s => if sameValue s (VStr "s1") then Ok tt
                              else Throw noSuchSkill;
     getUserId := fun _ => Ok (VStr "u1");
     postEvent := busUp;
     roleFindAll := fun rs => Ok (List.filter (sameValue (VStr "r1")) rs);
     uuid := fun n => "uuid-" +:+ pretty n;
     dbFault := fun _ => None;
     sqlOrder := fun _ rows => rows;
     settlesFirst := fun _ => 0%nat |}.

(** The index is unreachable. *)
Definition envIndexDown : Env :=
  {| esGet := fun _ _ => Throw unavailable;
     esSearch := fun _ => Throw unavailable;
     checkIsMemberOfProject := checkIsMemberOfProject envUp;
     getSkillById := getSkillById envUp; getUserId := getUserId envUp;
     postEvent := busUp; roleFindAll := roleFindAll envUp; uuid := uuid envUp;
     dbFault := dbFault envUp; sqlOrder := sqlOrder envUp;
     settlesFirst := settlesFirst envUp |}.


Definition admin : User :=
  {| userId := VNum 1; hasManagePermission := true; isMachine := false;
     isConnectManager := false |}.

Definition member : User :=
  {| userId := VNum 2; hasManagePermission := false; isMachine := false;
     isConnectManager := false |}.

Definition newJob : Obj :=
  {[ "projectId" := VNum 7; "title" := VStr "QA"; "skills" := VArr [VStr "s1"] ]}.

Definition flagged : Obj := {[ "isApplicationPageActive" := VBool true ]}.

Definition badSkill : Obj := {[ "skills" := VArr [VStr "s1"; VStr "zz"] ]}.

Definition badRole : Obj := {[ "roleIds" := VArr [VStr "r1"; VStr "r9"] ]}.

Definition retitle : Obj := {[ "title" := VStr "Rocq engineer" ]}.

(** The row [createJob] stores for [newJob], and the worlds after a
    successful create and a successful delete of [j1]. *)
Definition created : Obj :=
  <["createdBy" := VStr "u1"]> (<["id" := VStr "uuid-0"]> newJob).

Definition afterCreate : World :=
  {| jobs := [row1; row2; row3; created]; jobCandidates := [cand1]; uuids := 1;
     trace := [CGetSkillById (VStr "s1"); CGetUserId (VNum 1);
               CJobCreate created;
               CPostEvent TAAS_JOB_CREATE_TOPIC created None] |}.

Definition afterDelete : World :=
  {| jobs := [row2; row3]; jobCandidates := [cand1]; uuids := 0;
     trace := [CJobFindById "j1" false; CJobDestroy (Some (VStr "j1"));
               CPostEvent TAAS_JOB_DELETE_TOPIC {[ "id" := VStr "j1" ]} None] |}.

End Sample.

(** * Definitions for the properties of the whole service *)

(** Every call a run adds to the trace satisfies [P]. *)
Definition confined (P : Call -> bool) {A} (m : M A) : Prop :=
  forall w, exists cs, trace (m w).2 = trace w ++ cs /\ forallb P cs = true.

(** A run leaves the identifier supply where it was. *)
Definition keepsUuids {A} (m : M A) : Prop :=
  forall w, uuids (m w).2 = uuids w.

Definition isMembershipCall (c : Call) : bool :=
  match c with
  | CCheckIsMemberOfProject _ _ => true
  | _ => false
  end.

Definition notIndexCall (c : Call) : bool := negb (isIndexCall c).

Definition notMembershipCall (c : Call) : bool := negb (isMembershipCall c).

(** The callers [createJob], [updateJob] and [deleteJob] exempt from their
    checks: [currentUser.hasManagePermission || currentUser.isMachine]. *)
Definition privilegedWriter (u : User) : bool :=
  hasManagePermission u || isMachine u.

(** The row [createJob] hands to [Job.create]: the payload with unique
    [roleIds], then [job.id = uuid()] and [job.createdBy]. *)
Definition createdRow (env : Env) (w : World) (uid : Value) (job : Obj) : Obj :=
  <["createdBy" := uid]>
    (<["id" := VStr (uuid env (uuids w))]> (withUniqueRoles job)).

(** The patch [updateJob] hands to [job.update]: the payload with unique
    [roleIds], then [data.updatedBy]. *)
Definition updatePatch (uid : Value) (data : Obj) : Obj :=
  <["updatedBy" := uid]> (withUniqueRoles data).

(** Every skill lookup answers. *)
Definition allFound (env : Env) (skills : list Value) : bool :=
  forallb (fun s => match getSkillById env s with
                    | Ok _ => true
                    | Throw _ => false
                    end) skills.

(** What one element of the [skills.map(...)] array settles to: found, not
    found (a 404 is caught), or the error of the lookup. *)
Definition lookupOutcome (env : Env) (skill : Value) : Result (bool * Value) :=
  match getSkillById env skill with
  | Ok _ => Ok (true, skill)
  | Throw e =>
      if optZ_eqb (status e) HttpStatus.NOT_FOUND then Ok (false, skill)
      else Throw e
  end.

(** The lookups that fail with something other than "not found", in the
    order of the list: the rejections [Promise.all] chooses from. *)
Definition lookupErrors (env : Env) (skills : list Value) : list Err :=
  rejections (List.map (lookupOutcome env) skills).

(** No two elements are the same value. *)
Fixpoint allDistinct (l : list Value) : bool :=
  match l with
  | [] => true
  | x :: rest => forallb (fun y => negb (sameValue x y)) rest && allDistinct rest
  end.

(** The relational path of [getJob] read off the tables: the fault of the
    store, the missing row, the guard, the row with its candidates. *)
Definition getJob_db_outcome (env : Env) (u : User) (id : string)
  (js cands : list Obj) : Result Obj :=
  match dbFault env OpFindById with
  | Some e => Throw e
  | None =>
      match List.find (hasId (Some (VStr id))) js with
      | None => Throw (errors.NotFoundError (msgDoesNotExist id))
      | Some row =>
          if unprivilegedReader u then
            match checkIsMemberOfProject env (userId u) (row !! "projectId") with
            | Ok _ => Ok (withCandidatesOf cands row)
            | Throw e => Throw e
            end
          else Ok (withCandidatesOf cands row)
      end
  end.

(** What [_getJobCandidates] makes of the response of the candidate search:
    nothing when the response counts no hit, else one record per hit. *)
Definition candidatesIn (body : EsBody) : list Value :=
  if hits_total body =? 0 then []
  else List.map candidateRecord (hits_hits body).

(** The record the index path of [getJob] builds from a document:
    [{ id: job.body._id, ...job.body._source }], with [candidates] when the
    candidate search found some. *)
Definition indexedJob (hit : EsHit) (cs : list Value) : Obj :=
  if negb (length cs =? 0)%nat
  then <["candidates" := VArr cs]> (_source hit ∪ {[ "id" := VStr (_id hit) ]})
  else _source hit ∪ {[ "id" := VStr (_id hit) ]}.

(** The record [searchJobs] builds from one hit of the job index:
    [jobRecord.id = hit._id] on a copy of [hit._source]. *)
Definition hitJob (hit : EsHit) (cs : list Value) : Obj :=
  if negb (length cs =? 0)%nat
  then <["candidates" := VArr cs]> (<["id" := VStr (_id hit)]> (_source hit))
  else <["id" := VStr (_id hit)]> (_source hit).

(** * TeamEventHandler *)
Module TeamEventHandler.

(** What leaves the handler: one publish on [NOTIFICATIONS_CREATE_TOPIC] and
    one debug line. *)
Inductive Effect :=
| EPostEvent (payload : Obj)
| ELogDebug (message : string).

(** [v.key] for the keys the handler reads: a [TypeError] on [undefined] and
    [null], [undefined] on anything that is not an object. *)
Definition getProp (v : option Value) (key : string) : Result (option Value) :=
  match v with
  | None | Some VNull =>
      Throw (TypeError ("Cannot read property " +:+ key))
  | Some (VObj m) => Ok (m !! key)
  | Some _ => Ok None
  end.

(** lodash's [isLength]. *)
Definition isLength (n : Z) : bool := (0 <=? n) && (n <=? 9007199254740991).

(** What [_.map] iterates over: the elements of an array, the characters of
    a string, the indices below [length] of an object with a valid [length]
    (a missing one is [undefined]), the values of any other object (in the
    order of the map; JavaScript takes the order of insertion), nothing
    otherwise. *)
Definition elementsOf (coll : option Value) : list (option Value) :=
  match coll with
  | Some (VArr l) => List.map Some l
  | Some (VStr s) =>
      List.map (fun c => Some (VStr (String c EmptyString)))
        (String.list_ascii_of_string s)
  | Some (VObj m) =>
      match m !! "length" with
      | Some (VNum n) =>
          if isLength n
          then List.map (fun i : nat => m !! pretty i) (seq 0 (Z.to_nat n))
          else List.map (fun kv => Some kv.2) (map_to_list m)
      | _ => List.map (fun kv => Some kv.2) (map_to_list m)
      end
  | _ => []
  end.

(** [_.pick(v, ...keys)] for the keys picked here: those of them that [v]
    has; empty for what is not an object. *)
Definition pick (v : option Value) (keys : list string) : Obj :=
  match v with
  | Some (VObj m) =>
      foldr (fun k acc => match m !! k with
                          | Some x => <[k := x]> acc
                          | None => acc
                          end) ∅ keys
  | _ => ∅
  end.

(** [_.property(key)] applied to an element. *)
Definition property (key : string) (v : option Value) : option Value :=
  match v with
  | Some (VObj m) => m !! key
  | _ => None
  end.

(** [_.join(xs, ',')]: [undefined] and [null] give the empty string. *)
Definition join (xs : list (option Value)) : string :=
  String.concat ","
    (List.map (fun x => match x with
                        | None | Some VNull => ""
                        | Some v => jsString v
                        end) xs).

(** [`${x}`]. *)
Definition interpolate (x : option Value) : string :=
  match x with
  | None => "undefined"
  | Some v => jsString v
  end.

(** A key whose value is [undefined] is not part of the message. *)
Definition setKey (key : string) (x : option Value) (m : Obj) : Obj :=
  match x with
  | Some v => <[key := v]> m
  | None => m
  end.

Definition descriptionText : string :=
  "Send notification when a new Team was created using endpoint " +:+ dq
  +:+ "POST /taas-teams/submitTeamRequest" +:+ dq.

Definition bindR {A B} (r : Result A) (f : A -> Result B) : Result B :=
  match r with
  | Ok a => f a
  | Throw e => Throw e
  end.

(** The [emailData] literal; its properties are evaluated in source order. *)
Definition emailData (template : option Value) (payload : Value)
  : Result Obj :=
  bindR (getProp template "from") (fun from =>
  bindR (getProp (Some payload) "project") (fun project =>
  bindR (getProp project "members") (fun members =>
  let recipients :=
    List.map (fun m => VObj (pick m ["email"])) (elementsOf members) in
  bindR (getProp template "subject") (fun subject =>
  bindR (getProp project "name") (fun teamName =>
  bindR (getProp (Some payload) "jobs") (fun jobs =>
  let jobList :=
    List.map (fun j => VObj (pick j ["title"; "duration"; "startDate"]))
      (elementsOf jobs) in
  bindR (getProp template "sendgridTemplateId") (fun sendgridTemplateId =>
  let data : Obj :=
    setKey "subject" subject
      (setKey "teamName" teamName
         {[ "jobList" := VArr jobList;
            "notificationType" := VObj {[ "newTeamCreated" := VBool true ]};
            "description" := VStr descriptionText ]}) in
  let details : Obj :=
    setKey "from" from
      (setKey "sendgridTemplateId" sendgridTemplateId
         {[ "recipients" := VArr recipients;
            "data" := VObj data;
            "version" := VStr "v3" ]}) in
  Ok ({[ "serviceId" := VStr "email";
         "type" := VStr "taas.notification.team-created";
         "details" := VObj details ]} : Obj)))))))).

Definition debugMessage (payload : Value) : Result string :=
  bindR (getProp (Some payload) "project") (fun project =>
  bindR (getProp project "id") (fun id =>
  bindR (getProp (Some payload) "jobs") (fun jobs =>
  Ok ("project id: " +:+ interpolate id +:+ " created with jobs: "
      +:+ join (List.map (property "id") (elementsOf jobs)))))).

(** [template] is what [helper.getEmailTemplatesForKey(...)[...]] yields and
    [bus] is [helper.postEvent] on the notifications topic. *)
Definition sendNotificationEmail (template : option Value)
  (bus : Obj -> Result unit) (payload : Value) : Result unit * list Effect :=
  match emailData template payload with
  | Throw e => (Throw e, [])
  | Ok email =>
      let message : Obj := {[ "notifications" := VArr [VObj email] ]} in
      match bus message with
      | Throw e => (Throw e, [EPostEvent message])
      | Ok _ =>
          match debugMessage payload with
          | Throw e => (Throw e, [EPostEvent message])
          | Ok text => (Ok tt, [EPostEvent message; ELogDebug text])
          end
      end
  end.

Definition processCreate (template : option Value) (bus : Obj -> Result unit)
  (payload : Value) : Result unit * list Effect :=
  sendNotificationEmail template bus payload.

(** The recipients and the job list of a published message. *)
Definition recipientsOf (message : Obj) : option Value :=
  match message !! "notifications" with
  | Some (VArr [VObj email]) =>
      match email !! "details" with
      | Some (VObj details) => details !! "recipients"
      | _ => None
      end
  | _ => None
  end.

Definition jobListOf (message : Obj) : option Value :=
  match message !! "notifications" with
  | Some (VArr [VObj email]) =>
      match email !! "details" with
      | Some (VObj details) =>
          match details !! "data" with
          | Some (VObj data) => data !! "jobList"
          | _ => None
          end
      | _ => None
      end
  | _ => None
  end.

(** An object with no key outside [keys]. *)
Definition onlyKeys (keys : list string) (v : Value) : Prop :=
  exists m : Obj, v = VObj m /\ forall k, is_Some (m !! k) -> In k keys.

End TeamEventHandler.


(** * More fixtures *)
Module Fixture.


Definition slowFailed : Err := mkErr None (Some 500) None "slow failed".
Definition fastFailed : Err := mkErr None (Some 500) None "fast failed".

(** Two skill lookups fail, and the second of the array settles first. *)
Definition envRace : Env :=
  {| esGet := esGet Sample.envUp; esSearch := esSearch Sample.envUp;
     checkIsMemberOfProject := checkIsMemberOfProject Sample.envUp;
     getSkillById := fun s => if sameValue s (VStr "slow") then Throw slowFailed
                              else Throw fastFailed;
     getUserId := getUserId Sample.envUp;
     postEvent := busUp; roleFindAll := roleFindAll Sample.envUp;
     uuid := uuid Sample.envUp; dbFault := dbFault Sample.envUp;
     sqlOrder := sqlOrder Sample.envUp;
     settlesFirst := fun _ => 1%nat |}.

(** No filter but a set of project ids none of the stored jobs is in. *)
Definition otherProjects : Criteria :=
  withProjectIds Sample.noCriteria (Some [8]).

(** The role [r1] and nothing else, and a stored job that has it. *)
Definition byRole : Criteria :=
  {| page := None; perPage := None; sortBy := None; sortOrder := None;
     projectId := None; externalId := None; description := None;
     title := None; startDate := None; resourceType := None; skill := None;
     role := Some "r1"; rateType := None; workload := None; status_ := None;
     projectIds := None; jobIds := None |}.

Definition roleRow : Obj :=
  {[ "id" := VStr "j4"; "projectId" := VNum 7; "title" := VStr "QA";
     "roleIds" := VArr [VStr "r1"] ]}.

(** A payload that names the same role twice. *)
Definition rolesJob : Obj :=
  {[ "projectId" := VNum 7; "title" := VStr "QA"; "skills" := VArr [VStr "s1"];
     "roleIds" := VArr [VStr "r1"; VStr "r1"] ]}.

Definition template : Value :=
  VObj {[ "from" := VStr "noreply@example.org"; "subject" := VStr "New team";
          "sendgridTemplateId" := VStr "tpl-1" ]}.

(** A team of two members, one without an address, and one job. *)
Definition teamPayload : Value :=
  VObj {[ "project" :=
            VObj {[ "id" := VNum 7; "name" := VStr "Apollo";
                    "members" :=
                      VArr [VObj {[ "email" := VStr "a@example.org";
                                    "userId" := VNum 1 ]};
                            VObj {[ "userId" := VNum 2 ]}] ]};
          "jobs" :=
            VArr [VObj {[ "id" := VStr "j1"; "title" := VStr "Rocq dev";
                          "minSalary" := VNum 10 ]}] ]}.

(** The bus accepts everything; the bus is down. *)
Definition busOk : Obj -> Result unit := fun _ => Ok tt.
Definition busFails : Obj -> Result unit := fun _ => Throw Sample.unavailable.

End Fixture.

(** * Properties *)

Ltac unfold_M :=
  unfold mbind, M_bind, mret, M_ret, throw, try_catch, emit, lift, getWorld,
    setJobs in *.

(** ** Read-only computations *)

Create HintDb readonly.

Lemma readOnly_ret {A} (a : A) : readOnly (mret a).
Proof. intros w. simpl. repeat split. exists []. by rewrite app_nil_r. Qed.

Lemma readOnly_throw {A} (e : Err) : readOnly (@throw A e).
Proof. intros w. simpl. repeat split. exists []. by rewrite app_nil_r. Qed.

Lemma readOnly_lift {A} (r : Result A) : readOnly (lift r).
Proof. intros w. simpl. repeat split. exists []. by rewrite app_nil_r. Qed.

Lemma readOnly_getWorld : readOnly getWorld.
Proof. intros w. simpl. repeat split. exists []. by rewrite app_nil_r. Qed.

Lemma readOnly_emit (c : Call) : isWriteOrEvent c = false -> readOnly (emit c).
Proof.
  intros Hc w. simpl. repeat split. exists [c]. split; [done|].
  simpl. by rewrite Hc.
Qed.

Lemma readOnly_bind {A B} (m : M A) (f : A -> M B) :
  readOnly m -> (forall a, readOnly (f a)) -> readOnly (m ≫= f).
Proof.
  intros Hm Hf w. unfold mbind, M_bind.
  destruct (Hm w) as (Hj & Hc & cs & Ht & Hcs).
  destruct (m w) as [[a|e] w1]; simpl in *.
  - destruct (Hf a w1) as (Hj' & Hc' & cs' & Ht' & Hcs').
    rewrite Hj', Hc', Ht', Hj, Hc, Ht. repeat split.
    exists (cs ++ cs'). rewrite app_assoc. split; [done|].
    rewrite forallb_app, Hcs, Hcs'. done.
  - repeat split; eauto.
Qed.

Lemma readOnly_try {A} (m : M A) (h : Err -> M A) :
  readOnly m -> (forall e, readOnly (h e)) -> readOnly (try_catch m h).
Proof.
  intros Hm Hh w. unfold try_catch.
  destruct (Hm w) as (Hj & Hc & cs & Ht & Hcs).
  destruct (m w) as [[a|e] w1]; simpl in *.
  - repeat split; eauto.
  - destruct (Hh e w1) as (Hj' & Hc' & cs' & Ht' & Hcs').
    rewrite Hj', Hc', Ht', Hj, Hc, Ht. repeat split.
    exists (cs ++ cs'). rewrite app_assoc. split; [done|].
    rewrite forallb_app, Hcs, Hcs'. done.
Qed.

Lemma promiseAll_world {A} first (ps : list (M A)) w :
  (promiseAll first ps w).2 = (settleAll ps w).2.
Proof. unfold promiseAll. by destruct (settleAll ps w). Qed.

Lemma readOnly_promiseAll {A} first (ps : list (M A)) :
  Forall readOnly ps -> readOnly (promiseAll first ps).
Proof.
  intros H. unfold readOnly. intros w. rewrite promiseAll_world. revert w.
  induction H as [|p ps Hp _ IH]; intros w; simpl.
  - repeat split. exists []. by rewrite app_nil_r.
  - destruct (Hp w) as (Hj & Hc & cs & Ht & Hcs).
    destruct (p w) as [r w1]; simpl in *.
    destruct (IH w1) as (Hj' & Hc' & cs' & Ht' & Hcs').
    destruct (settleAll ps w1) as [rs w2]; simpl in *.
    rewrite Hj', Hc', Ht', Hj, Hc, Ht. repeat split.
    exists (cs ++ cs'). rewrite app_assoc. split; [done|].
    rewrite forallb_app, Hcs, Hcs'. done.
Qed.

Lemma readOnly_if {A} (b : bool) (m1 m2 : M A) :
  readOnly m1 -> readOnly m2 -> readOnly (if b then m1 else m2).
Proof. by destruct b. Qed.

#[local] Hint Resolve readOnly_ret readOnly_throw readOnly_lift readOnly_getWorld
  readOnly_bind readOnly_try readOnly_if : readonly.
#[local] Hint Extern 1 (readOnly (emit _)) => apply readOnly_emit; reflexivity : readonly.

Section Frames.
Context (env : Env).

Lemma readOnly_fault op : readOnly (fault env op).
Proof. unfold fault. destruct (dbFault env op); auto with readonly. Qed.
#[local] Hint Resolve readOnly_fault : readonly.

Lemma readOnly_Job_findById id b : readOnly (Job_findById env id b).
Proof.
  unfold Job_findById. repeat (apply readOnly_bind; [auto with readonly|intros]).
  destruct (find _ _); auto with readonly.
Qed.

Lemma readOnly_Job_findAll q : readOnly (Job_findAll env q).
Proof.
  unfold Job_findAll. repeat (apply readOnly_bind; [auto with readonly|intros]).
  auto with readonly.
Qed.

Lemma readOnly_esClient_search q : readOnly (esClient_search env q).
Proof. unfold esClient_search. auto with readonly. Qed.

Lemma readOnly__getJobCandidates id : readOnly (_getJobCandidates env id).
Proof.
  unfold _getJobCandidates. apply readOnly_bind; [apply readOnly_esClient_search|].
  intros body. auto with readonly.
Qed.

Lemma readOnly_checkIsMember uid pid :
  readOnly (helper_checkIsMemberOfProject env uid pid).
Proof. unfold helper_checkIsMemberOfProject. auto with readonly. Qed.

Lemma readOnly__validateSkills skills : readOnly (_validateSkills env skills).
Proof.
  unfold _validateSkills. apply readOnly_bind.
  - apply readOnly_promiseAll, Forall_forall. intros p Hp.
    apply list_elem_of_In, in_map_iff in Hp. destruct Hp as (s & <- & _).
    unfold skillResponse, helper_getSkillById.
    apply readOnly_try; [auto with readonly|].
    intros e. auto with readonly.
  - intros rs. auto with readonly.
Qed.

Lemma readOnly__validateRoles roles : readOnly (_validateRoles env roles).
Proof.
  unfold _validateRoles, Role_findAll. apply readOnly_bind; [auto with readonly|].
  intros found. auto with readonly.
Qed.

Lemma readOnly_searchJobs_permission u c o :
  readOnly (searchJobs_permission env u c o).
Proof.
  unfold searchJobs_permission. apply readOnly_if; [|auto with readonly].
  apply readOnly_bind; [auto with readonly|]. intros _. apply readOnly_checkIsMember.
Qed.

Lemma readOnly_hitRecord hit : readOnly (hitRecord env hit).
Proof.
  unfold hitRecord. apply readOnly_bind; [apply readOnly__getJobCandidates|].
  intros cs. auto with readonly.
Qed.

Lemma readOnly_searchJobs_index c sb so p pp :
  readOnly (searchJobs_index env c sb so p pp).
Proof.
  unfold searchJobs_index, logger_debug.
  apply readOnly_bind; [auto with readonly|]. intros _.
  apply readOnly_bind; [apply readOnly_esClient_search|]. intros body.
  apply readOnly_bind; [|auto with readonly].
  apply readOnly_promiseAll, Forall_forall. intros p0 Hp.
  apply list_elem_of_In, in_map_iff in Hp. destruct Hp as (s & <- & _).
  apply readOnly_hitRecord.
Qed.
End Frames.

(** ** What a successful listing looks like *)

Lemma searchJobs_index_Ok env c sb so p pp w r w' :
  searchJobs_index env c sb so p pp w = (Ok r, w') ->
  fromDb r = None /\ r_page r = p /\ r_perPage r = pp /\
  exists body,
    esSearch env (esQuery c sb so p pp) = Ok body /\ total r = hits_total body.
Proof.
  unfold searchJobs_index, logger_debug, esClient_search. unfold_M. simpl.
  destruct (esSearch env _) as [body|e] eqn:Hs; simpl; [|discriminate].
  destruct (promiseAll _ _ _) as [[l|e] w2]; simpl; [|discriminate].
  intros [= <- <-]. simpl. eauto 10.
Qed.

Lemma searchJobs_db_Ok env c sb so p pp w r w' :
  searchJobs_db env c sb so p pp w = (Ok r, w') ->
  fromDb r = Some true /\ r_page r = p /\ r_perPage r = pp /\
  total r = Z.of_nat (length (result r)) /\
  (length (result r) <= Z.to_nat pp)%nat.
Proof.
  unfold searchJobs_db, logger_info, Job_findAll, fault. unfold_M. simpl.
  destruct (dbFault env OpFindAll); simpl; [discriminate|].
  intros [= <- <-]. simpl. repeat split; try reflexivity.
  rewrite length_map, length_take. lia.
Qed.

Lemma searchJobs_Ok env u c o w r w' :
  searchJobs env u c o w = (Ok r, w') ->
  let p := positiveOr (page c) 1 in
  let pp := if returnAll o then 10000 else positiveOr (perPage c) 20 in
  let sb := stringOr (sortBy c) "id" in
  let so := stringOr (sortOrder c) "desc" in
  exists w0,
    searchJobs_index env c sb so p pp w0 = (Ok r, w') \/
    searchJobs_db env c sb so p pp w0 = (Ok r, w').
Proof.
  unfold searchJobs. intros H. cbv zeta.
  unfold mbind, M_bind at 1 in H.
  destruct (searchJobs_permission env u c o w) as [[[]|e] w0]; [|discriminate].
  unfold mbind, M_bind at 1 in H. unfold try_catch in H.
  unfold mbind, M_bind at 1 in H.
  destruct (searchJobs_index env c _ _ _ _ w0) as [[r1|e] w1] eqn:Hi.
  - simpl in H. unfold mret, M_ret in H. exists w0. left. rewrite Hi. exact H.
  - simpl in H. unfold logger_logFullError in H. unfold_M. simpl in H.
    eexists. right. exact H.
Qed.

Lemma positiveOr_pos x d : 0 < d -> 0 < positiveOr x d.
Proof.
  intros Hd. unfold positiveOr. destruct x as [n|]; [|lia].
  destruct (0 <? n) eqn:Hn; [apply Z.ltb_lt in Hn|]; lia.
Qed.

(** ** getJob: a missing document *)

(** C4. For a read by id with [fromDb = false], when the index get raises a
    document-missing error the operation fails with NotFound, and the only
    call issued is that index get: the relational store is never queried. *)
Theorem getJob_document_missing (env : Env) (u : User) (id : string)
  (w : World) (e : Err) :
  esGet env ES_INDEX_JOB id = Throw e ->
  isDocumentMissingException e = true ->
  getJob env u id false w
  = (Throw (errors.NotFoundError (msgNotFound id)),
     logged w [CEsGet ES_INDEX_JOB id]).
Proof.
  intros Hget Hmiss.
  unfold getJob, getJob_index, esClient_get. unfold_M. simpl.
  rewrite Hget. simpl. rewrite Hmiss. reflexivity.
Qed.

Lemma getJob_document_missing_witness :
  getJob Sample.envUp Sample.member "j9" false Sample.world
  = (Throw (errors.NotFoundError (msgNotFound "j9")),
     logged Sample.world [CEsGet ES_INDEX_JOB "j9"]).
Proof.
  apply (getJob_document_missing Sample.envUp Sample.member "j9" Sample.world
           Sample.missing); reflexivity.
Defined.

(** ** The two update entry points *)

(** C9. For every caller, id, payload and world, [partiallyUpdateJob] and
    [fullyUpdateJob] return the same outcome and leave the same world (tables
    and trace of calls): each is [updateJob] on its first three arguments,
    and [updateJob] has no parameter for the flag they pass. *)
Theorem update_flag_ignored (env : Env) (u : User) (id : string) (data : Obj)
  (w : World) :
  partiallyUpdateJob env u id data w = fullyUpdateJob env u id data w /\
  partiallyUpdateJob env u id data w = updateJob env u id data w /\
  forall rest, updateJob_call env u id data rest w = updateJob env u id data w.
Proof.
  split; [|split].
  - unfold partiallyUpdateJob, fullyUpdateJob, updateJob_call. reflexivity.
  - unfold partiallyUpdateJob, updateJob_call. reflexivity.
  - intros rest. unfold updateJob_call. reflexivity.
Qed.

(** ** Pagination *)

(** C6. Whenever [searchJobs] returns a listing, on either path, its page is
    [criteria.page] when that is greater than 0 and 1 otherwise, and its page
    size is 10000 under [returnAll], and otherwise [criteria.perPage] when
    that is greater than 0 and 20 when it is not. *)
Theorem searchJobs_pagination (env : Env) (u : User) (c : Criteria)
  (o : Options) (w w' : World) (r : SearchResult) :
  searchJobs env u c o w = (Ok r, w') ->
  r_page r = match page c with
             | Some p => if 0 <? p then p else 1
             | None => 1
             end /\
  r_perPage r = if returnAll o then 10000
                else match perPage c with
                     | Some n => if 0 <? n then n else 20
                     | None => 20
                     end.
Proof.
  intros H. apply searchJobs_Ok in H. cbv zeta in H. destruct H as [w0 [H|H]].
  - apply searchJobs_index_Ok in H. destruct H as (_ & -> & -> & _). done.
  - apply searchJobs_db_Ok in H. destruct H as (_ & -> & -> & _). done.
Qed.

Lemma searchJobs_pagination_witness :
  exists r w',
    searchJobs Sample.envIndexDown Sample.admin Sample.twoPerPage
      {| returnAll := false |} Sample.world = (Ok r, w') /\
    r_page r = 1 /\ r_perPage r = 2.
Proof.
  destruct (searchJobs Sample.envIndexDown Sample.admin Sample.twoPerPage
              {| returnAll := false |} Sample.world) as [[r|e] w'] eqn:H.
  - exists r, w'. split; [reflexivity|].
    exact (searchJobs_pagination _ _ _ _ _ _ _ H).
  - vm_compute in H. discriminate H.
Defined.

Example export_page_on_index_path :
  exists r w',
    searchJobs Sample.envUp Sample.admin Sample.noCriteria
      {| returnAll := true |} Sample.world = (Ok r, w') /\
    fromDb r = None /\ r_page r = 1 /\ r_perPage r = 10000.
Proof.
  destruct (searchJobs Sample.envUp Sample.admin Sample.noCriteria
              {| returnAll := true |} Sample.world) as [[r|e] w'] eqn:H.
  - exists r, w'. split; [reflexivity|].
    vm_compute in H. injection H as <- _. done.
  - vm_compute in H. discriminate H.
Qed.

(** ** The total of a listing *)

(** C7. A listing answered by the relational fallback reports as its total
    the number of rows it returns, which is at most the page size; a listing
    answered by the index reports the hit count of the index.  The fallback
    total is not the number of matching records: with three matches and a
    page size of two it is two. *)
Theorem searchJobs_total :
  (forall (env : Env) (u : User) (c : Criteria) (o : Options) (w w' : World)
          (r : SearchResult),
      searchJobs env u c o w = (Ok r, w') ->
      (fromDb r = Some true /\ total r = Z.of_nat (length (result r)) /\
       total r <= r_perPage r)
      \/
      (fromDb r = None /\
       exists body,
         esSearch env
           (esQuery c (stringOr (sortBy c) "id") (stringOr (sortOrder c) "desc")
              (r_page r) (r_perPage r)) = Ok body /\
         total r = hits_total body))
  /\
  (exists r w',
      searchJobs Sample.envIndexDown Sample.admin Sample.twoPerPage
        {| returnAll := false |} Sample.world = (Ok r, w') /\
      fromDb r = Some true /\ total r = 2 /\
      length (List.filter (RecordStore.matches Sample.twoPerPage)
                (jobs Sample.world)) = 3%nat).
Proof.
  split.
  - intros env u c o w w' r H. apply searchJobs_Ok in H. cbv zeta in H.
    destruct H as [w0 [H|H]].
    + right. apply searchJobs_index_Ok in H.
      destruct H as (-> & -> & -> & body & Hb & ->). eauto.
    + left. apply searchJobs_db_Ok in H.
      destruct H as (-> & _ & -> & -> & Hlen). repeat split.
      assert (0 < if returnAll o then 10000 else positiveOr (perPage c) 20).
      { destruct (returnAll o); [lia|]. apply positiveOr_pos. lia. }
      lia.
  - destruct (searchJobs Sample.envIndexDown Sample.admin Sample.twoPerPage
                {| returnAll := false |} Sample.world) as [[r|e] w'] eqn:H.
    + exists r, w'. split; [reflexivity|].
      vm_compute in H. injection H as <- _. done.
    + vm_compute in H. discriminate H.
Qed.

Lemma searchJobs_total_witness :
  exists r w',
    searchJobs Sample.envUp Sample.admin Sample.noCriteria
      {| returnAll := false |} Sample.world = (Ok r, w') /\
    fromDb r = None /\ total r = 1.
Proof.
  destruct (searchJobs Sample.envUp Sample.admin Sample.noCriteria
              {| returnAll := false |} Sample.world) as [[r|e] w'] eqn:H.
  - exists r, w'. split; [reflexivity|].
    destruct (proj1 searchJobs_total _ _ _ _ _ _ _ H)
      as [(Hdb & _)|(Hidx & body & Hb & Ht)].
    + vm_compute in H. injection H as <- _. discriminate Hdb.
    + split; [exact Hidx|]. simpl in Hb. injection Hb as <-. exact Ht.
  - vm_compute in H. discriminate H.
Defined.

(** ** Reads by a caller the guard denies *)

Lemma lookup_withCandidatesOf_ne cands row key :
  key <> "candidates" ->
  withCandidatesOf cands row !! key = row !! key.
Proof. intros Hk. unfold withCandidatesOf. by rewrite lookup_insert_ne. Qed.




(** ** Patterns of the relational store *)

Lemma likeMatch_percent p t :
  likeMatch (String "%"%char p) t
  = likeMatch p t
    || match t with
       | EmptyString => false
       | String _ t' => likeMatch (String "%"%char p) t'
       end.
Proof. by destruct t. Qed.

Lemma likeMatch_literal c p t :
  Ascii.eqb c "%"%char = false -> Ascii.eqb c "_"%char = false ->
  likeMatch (String c p) t
  = match t with
    | EmptyString => false
    | String d t' => Ascii.eqb c d && likeMatch p t'
    end.
Proof. intros H1 H2. simpl. by rewrite H1, H2. Qed.

Lemma likeMatch_any t : likeMatch "%" t = true.
Proof.
  induction t as [|c t IH]; [done|].
  rewrite likeMatch_percent. rewrite IH. by rewrite orb_true_r.
Qed.

Lemma likeMatch_prefix s t :
  wildcardFree s = true ->
  likeMatch (s +:+ "%") t = true <-> exists b, t = s +:+ b.
Proof.
  revert t. induction s as [|c s IH]; intros t Hs.
  - simpl. rewrite likeMatch_any. split; [eauto|done].
  - simpl in Hs. apply andb_true_iff in Hs as [Hc Hs].
    apply andb_true_iff in Hc as [Hc1 Hc2].
    apply negb_true_iff in Hc1, Hc2.
    change (String c s +:+ "%") with (String c (s +:+ "%")).
    rewrite likeMatch_literal by done.
    destruct t as [|d t].
    + split; [done|]. intros [b Hb]. discriminate Hb.
    + rewrite andb_true_iff, IH by done. split.
      * intros [Hcd [b ->]]. apply Ascii.eqb_eq in Hcd as ->. by exists b.
      * intros [b Hb]. injection Hb as -> ->. split; [apply Ascii.eqb_refl|eauto].
Qed.

Lemma likeMatch_suffix p t :
  likeMatch (String "%"%char p) t = true
  <-> exists a b, t = a +:+ b /\ likeMatch p b = true.
Proof.
  induction t as [|c t IH].
  - rewrite likeMatch_percent, orb_false_r. split.
    + intros H. by exists "", "".
    + intros (a & b & Hab & Hb). destruct a; [|discriminate].
      change ("" +:+ b) with b in Hab. by subst b.
  - rewrite likeMatch_percent, orb_true_iff, IH. split.
    + intros [H|(a & b & -> & Hb)].
      * by exists "", (String c t).
      * by exists (String c a), b.
    + intros (a & b & Hab & Hb). destruct a as [|d a].
      * left. change ("" +:+ b) with b in Hab. by subst b.
      * right. injection Hab as -> ->. eauto.
Qed.

(** For a needle without wildcard characters the pattern [%needle%] is
    containment of the needle as a substring. *)
Lemma likeMatch_substring s t :
  wildcardFree s = true ->
  likeMatch ("%" +:+ s +:+ "%") t = true
  <-> exists a b, t = a +:+ s +:+ b.
Proof.
  intros Hs. change ("%" +:+ s +:+ "%") with (String "%"%char (s +:+ "%")).
  rewrite likeMatch_suffix. split.
  - intros (a & b & -> & Hb). apply likeMatch_prefix in Hb as [b' ->]; [|done].
    eauto.
  - intros (a & b & ->). exists a, (s +:+ b). split; [done|].
    apply likeMatch_prefix; eauto.
Qed.

Lemma patternMatch_substring row key s :
  wildcardFree s = true -> s <> "" ->
  Fallback.patternMatch row key (Some s) = true
  <-> exists t a b, row !! key = Some (VStr t) /\ t = a +:+ s +:+ b.
Proof.
  intros Hs Hne. unfold Fallback.patternMatch.
  destruct (String.eqb s "") eqn:He; [by apply String.eqb_eq in He|].
  destruct (row !! key) as [[|?|?|t|?|?]|].
  4: { rewrite likeMatch_substring by done. split.
       - intros (a' & b' & ->). eauto.
       - intros (t' & a' & b' & [= <-] & ->). eauto. }
  all: split; [done|]; by intros (t' & a' & b' & Hrow & _).
Qed.

(** ** The fallback of a listing *)

Lemma existsb_map_VStr (cell : option Value) (ids : list string) :
  existsb (sqlEq cell) (List.map VStr ids)
  = existsb (fun j => sqlEq cell (VStr j)) ids.
Proof. induction ids as [|i ids IH]; simpl; [done|]. by rewrite IH. Qed.

Lemma forallb_entry_num row key (x : option Z) :
  forallb (pairHolds row)
    (List.map (fun kv => (kv.1, WVal kv.2)) (entry key (VNum <$> x)))
  = Fallback.exactMatch row key (VNum <$> x).
Proof. destruct x; simpl; [|done]. by rewrite andb_true_r. Qed.

Lemma forallb_entry_str row key (x : option string) :
  forallb (pairHolds row)
    (List.map (fun kv => (kv.1, WVal kv.2)) (entry key (VStr <$> x)))
  = Fallback.exactMatch row key (VStr <$> x).
Proof. destruct x; simpl; [|done]. by rewrite andb_true_r. Qed.

Lemma forallb_likeField row key x :
  forallb (pairHolds row) (likeField key x) = Fallback.patternMatch row key x.
Proof.
  unfold likeField, Fallback.patternMatch, truthyStr.
  destruct x as [s|]; simpl; [|done].
  destruct (String.eqb s ""); simpl; [done|].
  unfold pairHolds. simpl. by rewrite andb_true_r.
Qed.

Lemma forallb_containsField row key x :
  forallb (pairHolds row) (containsField key x) = Fallback.memberOf row key x.
Proof.
  unfold containsField, Fallback.memberOf, truthyStr.
  destruct x as [s|]; simpl; [|done].
  destruct (String.eqb s ""); simpl; [done|].
  unfold pairHolds. simpl. rewrite andb_true_r.
  destruct (row !! key) as [[]|]; simpl; try done. by rewrite andb_true_r.
Qed.

(** The filter that [searchJobs] hands to the store selects the rows that the
    specification's relational reading of the criteria selects. *)
Lemma dbFilter_matches (c : Criteria) (row : Obj) :
  whereHolds (dbFilter c) row = Fallback.matches c row.
Proof.
  unfold whereHolds, dbFilter, Fallback.matches, pickDb. simpl.
  rewrite !map_app, !forallb_app, !forallb_likeField, !forallb_containsField.
  rewrite forallb_entry_num, !forallb_entry_str.
  assert (forallb (pairHolds row)
            (if nonEmptyIds (jobIds c)
             then [("id", WVal (VArr (List.map VStr (default [] (jobIds c)))))]
             else [])
          = Fallback.amongIds row (jobIds c)) as ->.
  { unfold Fallback.amongIds, nonEmptyIds.
    destruct (jobIds c) as [[|i l]|]; simpl; try done.
    unfold pairHolds. simpl. rewrite existsb_map_VStr. by rewrite andb_true_r. }
  btauto.
Qed.

(** The set of project ids, which the index path turns into a filter clause,
    plays no part in the relational filter. *)
Lemma dbFilter_withProjectIds (c : Criteria) (ids : option (list Z)) :
  dbFilter (withProjectIds c ids) = dbFilter c.
Proof. reflexivity. Qed.

Lemma searchJobs_db_run env c sb so p pp w :
  searchJobs_db env c sb so p pp w
  = (Fallback.listing p pp (Fallback.query env c (sb, so) p pp w),
     logged w [CLogInfo "searchJobs" "fallback to DB query";
               CJobFindAll {| fa_where := dbFilter c;
                              fa_offset := (p - 1) * pp; fa_limit := pp;
                              fa_order := (sb, so); fa_include := true |}]).
Proof.
  unfold searchJobs_db, logger_info, Job_findAll, fault, Fallback.query.
  unfold_M. simpl.
  destruct (dbFault env OpFindAll); simpl.
  - unfold logged. simpl. by rewrite <- app_assoc.
  - rewrite (List.filter_ext _ _ (dbFilter_matches c)).
    unfold logged. simpl. by rewrite <- app_assoc.
Qed.

(** The fallback as the code runs it.  When the caller passes the guard and
    the index path of [searchJobs] raises, whatever the error, the outcome
    is what [Job.findAll] answers for the filter of the code on the same
    tables, with the same page, page size and order, returned as a listing
    tagged [fromDb = true]; the index error is written to the log and is not
    the error of the call. *)
Theorem searchJobs_falls_back (env : Env) (u : User) (c : Criteria)
  (o : Options) (w w0 w1 : World) (e : Err) :
  let p := positiveOr (page c) 1 in
  let pp := if returnAll o then 10000 else positiveOr (perPage c) 20 in
  let sb := stringOr (sortBy c) "id" in
  let so := stringOr (sortOrder c) "desc" in
  searchJobs_permission env u c o w = (Ok tt, w0) ->
  searchJobs_index env c sb so p pp w0 = (Throw e, w1) ->
  searchJobs env u c o w
  = (Fallback.listing p pp (Fallback.query env c (sb, so) p pp w),
     logged w1 [CLogFullError e "searchJobs";
                CLogInfo "searchJobs" "fallback to DB query";
                CJobFindAll {| fa_where := dbFilter c;
                               fa_offset := (p - 1) * pp; fa_limit := pp;
                               fa_order := (sb, so); fa_include := true |}])
  /\
  forall r,
    Fallback.listing p pp (Fallback.query env c (sb, so) p pp w) = Ok r ->
    fromDb r = Some true /\ total r = Z.of_nat (length (result r)).
Proof.
  intros p pp sb so Hperm Hidx. split.
  - unfold searchJobs. fold p pp sb so.
    unfold mbind at 1, M_bind at 1. rewrite Hperm.
    unfold mbind at 1, M_bind at 1, try_catch.
    unfold mbind at 1, M_bind at 1. rewrite Hidx.
    unfold logger_logFullError. unfold_M. simpl.
    rewrite searchJobs_db_run.
    destruct (readOnly_searchJobs_permission env u c o w) as (Hj0 & Hc0 & _).
    destruct (readOnly_searchJobs_index env c sb so p pp w0) as (Hj1 & Hc1 & _).
    rewrite Hperm in Hj0, Hc0. rewrite Hidx in Hj1, Hc1. simpl in *.
    f_equal.
    + unfold Fallback.query. simpl. by rewrite Hj1, Hc1, Hj0, Hc0.
    + unfold logged. simpl. by rewrite <- app_assoc.
  - intros r. unfold Fallback.listing.
    destruct (Fallback.query _ _ _ _ _ _); [|discriminate].
    intros [= <-]. done.
Qed.

Lemma searchJobs_falls_back_witness :
  exists r w',
    searchJobs Sample.envIndexDown Sample.admin Sample.twoPerPage
      {| returnAll := false |} Sample.world = (Ok r, w') /\
    fromDb r = Some true /\ total r = Z.of_nat (length (result r)) /\
    List.filter isErrorLog (trace w')
    = [CLogFullError Sample.unavailable "searchJobs"].
Proof.
  destruct (searchJobs_falls_back Sample.envIndexDown Sample.admin
              Sample.twoPerPage {| returnAll := false |} Sample.world
              Sample.world
              (logged Sample.world
                 [CLogDebug "searchJobs";
                  CEsSearch (esQuery Sample.twoPerPage "id" "desc" 1 2)])
              Sample.unavailable eq_refl eq_refl) as [Hrun Htag].
  destruct (Fallback.listing _ _ _) as [r|e'] eqn:Hl.
  - eexists r, _. split; [exact Hrun|].
    destruct (Htag r eq_refl) as [H1 H2]. repeat split; [exact H1|exact H2].
  - vm_compute in Hl. discriminate Hl.
Defined.

(** On the criteria both can be compared on, the filter of the code selects
    what the words of the specification select. *)
Lemma fallback_matches_shared (c : Criteria) (row : Obj) :
  RecordStore.shared c ->
  Fallback.matches c row = RecordStore.matches c row.
Proof.
  intros (Hp & Hr & Ht & Hd & Hs & Hj & _ & _).
  unfold Fallback.matches, RecordStore.matches. rewrite Hp, Hr.
  assert (forall key x, x <> Some "" ->
            Fallback.patternMatch row key x = RecordStore.pattern row key x)
    as Hpat.
  { intros key [x|] Hx; [|done]. unfold Fallback.patternMatch.
    destruct (String.eqb_spec x ""); [congruence|done]. }
  assert (Fallback.memberOf row "skills" (skill c)
          = RecordStore.member row "skills" (skill c)) as ->.
  { destruct (skill c) as [x|]; [|done]. unfold Fallback.memberOf.
    destruct (String.eqb_spec x ""); [congruence|done]. }
  assert (Fallback.amongIds row (jobIds c)
          = RecordStore.inSet row "id" (List.map VStr <$> jobIds c)) as ->.
  { destruct (jobIds c) as [[|i l]|]; [congruence| |done].
    unfold Fallback.amongIds, RecordStore.inSet. cbn [fmap option_fmap option_map].
    generalize (i :: l). intros ids.
    induction ids as [|j ids IH]; [done|]. cbn [existsb List.map].
    by rewrite IH. }
  rewrite !Hpat by done.
  change (Fallback.exactMatch row) with (RecordStore.exact row).
  cbn [fmap option_fmap option_map RecordStore.inSet RecordStore.member
       Fallback.memberOf].
  btauto.
Qed.

(** So on those criteria the fallback answers the same criteria run against
    the relational store. *)
Lemma searchJobs_falls_back_shared (env : Env) (u : User) (c : Criteria)
  (o : Options) (w w0 w1 : World) (e : Err) :
  let p := positiveOr (page c) 1 in
  let pp := if returnAll o then 10000 else positiveOr (perPage c) 20 in
  RecordStore.shared c ->
  searchJobs_permission env u c o w = (Ok tt, w0) ->
  searchJobs_index env c (stringOr (sortBy c) "id")
    (stringOr (sortOrder c) "desc") p pp w0 = (Throw e, w1) ->
  (searchJobs env u c o w).1 = RecordStore.search env c p pp w.
Proof.
  intros p pp Hc Hperm Hidx.
  rewrite (proj1 (searchJobs_falls_back env u c o w w0 w1 e Hperm Hidx)).
  cbn [fst]. fold p pp.
  unfold Fallback.listing, Fallback.query, RecordStore.search,
    RecordStore.query.
  assert (forall x d, x <> Some "" -> stringOr x d = default d x) as Hdef.
  { intros [x|] d Hx; [|done]. unfold stringOr, truthyStr. simpl.
    destruct x; [congruence|done]. }
  destruct Hc as (H1 & H2 & H3 & H4 & H5 & H6 & Hsb & Hso).
  rewrite !Hdef by done.
  rewrite (List.filter_ext _ _
             (fun row => fallback_matches_shared c row
                           (conj H1 (conj H2 (conj H3 (conj H4 (conj H5
                              (conj H6 (conj Hsb Hso)))))))))
    by done.
  done.
Qed.

(** C1, at the failing input.  The index is down and the criteria carry
    nothing but the set of project ids [8], of which none of the three
    stored jobs is.  The caller passes the guard, the index query, which
    carries the set as a filter clause, raises, and the fallback runs.  The
    same criteria run against the relational store select nothing; the
    fallback of the code never reads the set, sends the filter of the empty
    criteria, and answers all three jobs of project 7. *)
Theorem searchJobs_fallback_ignores_projectIds :
  searchJobs_permission Sample.envIndexDown Sample.admin Fixture.otherProjects
    {| returnAll := false |} Sample.world = (Ok tt, Sample.world)
  /\
  esSearch Sample.envIndexDown (esQuery Fixture.otherProjects "id" "desc" 1 20)
  = Throw Sample.unavailable
  /\
  filterClauses Fixture.otherProjects = [EsTerms "projectId" [VNum 8]]
  /\
  dbFilter Fixture.otherProjects = dbFilter Sample.noCriteria
  /\
  RecordStore.search Sample.envIndexDown Fixture.otherProjects 1 20
    Sample.world
  = Ok {| fromDb := Some true; total := 0; r_page := 1; r_perPage := 20;
          result := [] |}
  /\
  (searchJobs Sample.envIndexDown Sample.admin Fixture.otherProjects
     {| returnAll := false |} Sample.world).1
  = Ok {| fromDb := Some true; total := 3; r_page := 1; r_perPage := 20;
          result := List.map (withCandidatesOf (jobCandidates Sample.world))
                      (jobs Sample.world) |}
  /\
  Forall (fun row : Obj => row !! "projectId" = Some (VNum 7))
    (jobs Sample.world).
Proof.
  split; [reflexivity|]. split; [reflexivity|]. split; [reflexivity|].
  split; [reflexivity|]. split; [vm_compute; reflexivity|].
  split; [vm_compute; reflexivity|].
  repeat constructor.
Qed.

(** The role filter of the fallback reads the column [roles], while the jobs
    the service stores hold their roles under [roleIds]: a job stored with
    role [r1] is selected by the same criteria run against the relational
    store and not by the fallback. *)
Lemma searchJobs_fallback_role_column :
  RecordStore.matches Fixture.byRole Fixture.roleRow = true /\
  whereHolds (dbFilter Fixture.byRole) Fixture.roleRow = false.
Proof. split; vm_compute; reflexivity. Qed.

Lemma searchJobs_index_query_raises env c sb so p pp w e :
  esSearch env (esQuery c sb so p pp) = Throw e ->
  searchJobs_index env c sb so p pp w
  = (Throw e, logged w [CLogDebug "searchJobs";
                        CEsSearch (esQuery c sb so p pp)]).
Proof.
  intros H. unfold searchJobs_index, logger_debug, esClient_search.
  unfold_M. simpl. rewrite H. unfold logged. simpl. by rewrite <- app_assoc.
Qed.

(** ** Stepping through a computation *)

Lemma logged_nil w : logged w [] = w.
Proof. destruct w. unfold logged. simpl. by rewrite app_nil_r. Qed.

Lemma logged_app w a b : logged (logged w a) b = logged w (a ++ b).
Proof. unfold logged. simpl. by rewrite app_assoc. Qed.

Lemma bind_ext {A B} (m : M A) (f g : A -> M B) w :
  (forall a w1, m w = (Ok a, w1) -> f a w1 = g a w1) ->
  (m ≫= f) w = (m ≫= g) w.
Proof.
  intros H. unfold mbind, M_bind. destruct (m w) as [[a|e] w1]; [|done].
  by apply H.
Qed.

Lemma bind_Ok_inv {A B} (m : M A) (f : A -> M B) w b w' :
  (m ≫= f) w = (Ok b, w') ->
  exists a w1, m w = (Ok a, w1) /\ f a w1 = (Ok b, w').
Proof.
  unfold mbind, M_bind. destruct (m w) as [[a|e] w1]; [eauto|discriminate].
Qed.

Lemma bind_run_Ok {A B} (m : M A) (f : A -> M B) w a w1 :
  m w = (Ok a, w1) -> (m ≫= f) w = f a w1.
Proof. unfold mbind, M_bind. by intros ->. Qed.

Lemma bind_run_Throw {A B} (m : M A) (f : A -> M B) w e w1 :
  m w = (Throw e, w1) -> (m ≫= f) w = (Throw e, w1).
Proof. unfold mbind, M_bind. by intros ->. Qed.

Lemma alwaysThrows_throw {A} e : alwaysThrows (@throw A e).
Proof. intros w. by exists e. Qed.

Lemma alwaysThrows_bind {A B} (m : M A) (f : A -> M B) :
  (forall a, alwaysThrows (f a)) -> alwaysThrows (m ≫= f).
Proof.
  intros Hf w. unfold mbind, M_bind. destruct (m w) as [[a|e] w1].
  - apply Hf.
  - by exists e.
Qed.

Ltac step_in H :=
  let a := fresh "a" in
  let w := fresh "w" in
  let Hs := fresh "Hs" in
  cbv beta zeta in H; apply bind_Ok_inv in H as (a & w & Hs & H).

Ltac step_goal := cbv beta zeta; erewrite bind_run_Ok by eassumption.

(** ** Validation of skills and roles *)

Section Validation.
Context (env : Env).

Lemma skillResponse_run skill w :
  skillLookupFails env skill = false ->
  skillResponse env skill w
  = (Ok (negb (skillMissing env skill), skill), logged w [CGetSkillById skill]).
Proof.
  unfold skillLookupFails, skillMissing, skillResponse, helper_getSkillById.
  unfold_M. simpl. destruct (getSkillById env skill) as [[]|e]; simpl; [done|].
  intros H. apply negb_false_iff in H. rewrite H. done.
Qed.

Lemma skillResponse_outcome skill w :
  skillResponse env skill w
  = (lookupOutcome env skill, logged w [CGetSkillById skill]).
Proof.
  unfold skillResponse, helper_getSkillById, lookupOutcome. unfold_M. simpl.
  destruct (getSkillById env skill) as [[]|e]; simpl; [done|].
  by destruct (optZ_eqb _ _).
Qed.

Lemma settleAll_skillResponse skills w :
  settleAll (List.map (skillResponse env) skills) w
  = (List.map (lookupOutcome env) skills,
     logged w (List.map CGetSkillById skills)).
Proof.
  revert w. induction skills as [|s skills IH]; intros w; simpl.
  - by rewrite logged_nil.
  - by rewrite skillResponse_outcome, IH, logged_app.
Qed.

Lemma lookupOutcome_Ok s r :
  lookupOutcome env s = Ok r -> r = (negb (skillMissing env s), s).
Proof.
  unfold lookupOutcome, skillMissing.
  destruct (getSkillById env s) as [[]|e]; [by intros [= <-]|].
  destruct (optZ_eqb _ _); [by intros [= <-]|discriminate].
Qed.

Lemma lookupOutcome_Throw s e :
  lookupOutcome env s = Throw e
  <-> getSkillById env s = Throw e /\
      optZ_eqb (status e) HttpStatus.NOT_FOUND = false.
Proof.
  unfold lookupOutcome.
  destruct (getSkillById env s) as [[]|e0].
  - split; [discriminate|]. by intros [? _].
  - destruct (optZ_eqb (status e0) HttpStatus.NOT_FOUND) eqn:H404.
    + split; [discriminate|]. intros [[= ->] H]. congruence.
    + split; [by intros [= <-]|]. by intros [[= ->] _].
Qed.

Lemma lookupErrors_cons s skills :
  lookupErrors env (s :: skills)
  = match lookupOutcome env s with
    | Throw e => e :: lookupErrors env skills
    | Ok _ => lookupErrors env skills
    end.
Proof.
  unfold lookupErrors, rejections. cbn [List.map omap list_omap].
  by destruct (lookupOutcome env s).
Qed.

Lemma fulfilments_cons {A} (r : Result A) rs :
  fulfilments (r :: rs)
  = match r with
    | Ok a => a :: fulfilments rs
    | Throw _ => fulfilments rs
    end.
Proof. unfold fulfilments. cbn [omap list_omap]. by destruct r. Qed.

Lemma fulfilments_lookupOutcome skills :
  lookupErrors env skills = [] ->
  fulfilments (List.map (lookupOutcome env) skills)
  = List.map (fun s => (negb (skillMissing env s), s)) skills.
Proof.
  induction skills as [|s skills IH]; [done|].
  rewrite lookupErrors_cons. cbn [List.map]. rewrite fulfilments_cons.
  destruct (lookupOutcome env s) as [r|e] eqn:Hs; [|discriminate].
  intros H. apply lookupOutcome_Ok in Hs as ->. by rewrite IH.
Qed.

Lemma promiseAll_skillResponse_outcome skills w :
  promiseAll (settlesFirst env) (List.map (skillResponse env) skills) w
  = (match lookupErrors env skills with
     | [] => Ok (List.map (fun s => (negb (skillMissing env s), s)) skills)
     | e :: es => Throw (nth (settlesFirst env (e :: es)) (e :: es) e)
     end, logged w (List.map CGetSkillById skills)).
Proof.
  unfold promiseAll. rewrite settleAll_skillResponse.
  fold (lookupErrors env skills).
  destruct (lookupErrors env skills) eqn:He; [|done].
  by rewrite fulfilments_lookupOutcome.
Qed.

Lemma lookupErrors_nil skills :
  forallb (fun s => negb (skillLookupFails env s)) skills = true ->
  lookupErrors env skills = [].
Proof.
  induction skills as [|s skills IH]; [done|]. cbn [forallb].
  intros [Hs Hrest]%andb_true_iff. apply negb_true_iff in Hs.
  rewrite lookupErrors_cons.
  destruct (lookupOutcome env s) as [r|e] eqn:Ho; [by apply IH|].
  apply lookupOutcome_Throw in Ho as [Hget H404].
  revert Hs. unfold skillLookupFails. by rewrite Hget, H404.
Qed.

Lemma promiseAll_skillResponse skills w :
  forallb (fun s => negb (skillLookupFails env s)) skills = true ->
  promiseAll (settlesFirst env) (List.map (skillResponse env) skills) w
  = (Ok (List.map (fun s => (negb (skillMissing env s), s)) skills),
     logged w (List.map CGetSkillById skills)).
Proof.
  intros H. rewrite promiseAll_skillResponse_outcome.
  by rewrite lookupErrors_nil.
Qed.

Lemma errResponses_missing skills :
  List.map snd
    (List.filter (fun res : bool * Value => negb res.1)
       (List.map (fun s => (negb (skillMissing env s), s)) skills))
  = List.filter (skillMissing env) skills.
Proof.
  induction skills as [|s skills IH]; simpl; [done|].
  rewrite negb_involutive. destruct (skillMissing env s); simpl; by rewrite IH.
Qed.

Lemma _validateSkills_run skills w :
  forallb (fun s => negb (skillLookupFails env s)) skills = true ->
  _validateSkills env skills w
  = (if existsb (skillMissing env) skills
     then Throw (errors.BadRequestError (invalidSkills env skills))
     else Ok tt,
     logged w (List.map CGetSkillById skills)).
Proof.
  intros H. unfold _validateSkills. unfold mbind, M_bind.
  rewrite promiseAll_skillResponse by done.
  unfold invalidSkills. rewrite <- errResponses_missing.
  set (errs := List.filter _ _).
  assert (existsb (skillMissing env) skills = negb (length errs =? 0)%nat) as ->.
  { subst errs. clear H. induction skills as [|s skills IH]; simpl; [done|].
    rewrite negb_involutive. destruct (skillMissing env s); simpl; done. }
  by destruct (negb _).
Qed.

Lemma skills_step_pass data w :
  skillsPass env data ->
  (if truthy (data !! "skills")
   then skills ← arrayOf (data !! "skills"); _validateSkills env skills
   else mret tt) w
  = (Ok tt, logged w (skillCalls data)).
Proof.
  unfold skillCalls. intros [Hf|(skills & Hs & Hall)].
  - rewrite Hf. destruct (data !! "skills") as [[]|]; try done.
    all: by rewrite logged_nil.
  - rewrite Hs. simpl. unfold mbind, M_bind. simpl.
    assert (forallb (fun s => negb (skillLookupFails env s)) skills = true
            /\ existsb (skillMissing env) skills = false) as [H1 H2].
    { clear Hs. induction skills as [|s skills IH]; simpl; [done|].
      simpl in Hall. apply andb_true_iff in Hall as [Hs Hall].
      destruct (IH Hall) as [-> ->].
      unfold skillLookupFails, skillMissing.
      destruct (getSkillById env s); done. }
    rewrite _validateSkills_run by done. by rewrite H2.
Qed.

Lemma _validateRoles_run roles found w :
  roleFindAll env roles = Ok found ->
  _validateRoles env roles w
  = (if (0 <? length (difference roles found))%nat
     then Throw (errors.BadRequestError (invalidRoles roles found))
     else Ok tt,
     logged w [CRoleFindAll roles]).
Proof.
  intros H. unfold _validateRoles, Role_findAll. unfold_M. simpl. rewrite H.
  unfold invalidRoles. by destruct (0 <? _)%nat.
Qed.

Lemma roles_step_pass data w :
  rolesPass env data ->
  (if truthy (data !! "roleIds")
   then _validateRoles env (uniqOf (data !! "roleIds"));;
        mret (<["roleIds" := VArr (uniqOf (data !! "roleIds"))]> data)
   else mret data) w
  = (Ok (withUniqueRoles data), logged w (roleCalls data)).
Proof.
  unfold roleCalls, withUniqueRoles. intros [Hf|(found & Hr & Hd)].
  - rewrite Hf. by rewrite logged_nil.
  - destruct (truthy _); [|by rewrite logged_nil].
    unfold mbind, M_bind. rewrite (_validateRoles_run _ found) by done.
    by rewrite Hd.
Qed.

Lemma Job_findById_run id b w :
  dbFault env OpFindById = None ->
  Job_findById env id b w
  = (match List.find (hasId (Some (VStr id))) (jobs w) with
     | Some row => Ok (if b then withCandidatesOf (jobCandidates w) row else row)
     | None => Throw (errors.NotFoundError (msgDoesNotExist id))
     end,
     logged w [CJobFindById id b]).
Proof.
  intros H. unfold Job_findById, fault. rewrite H. unfold_M. simpl.
  by destruct (find _ _).
Qed.

Lemma Job_findById_trace id b w r w' :
  Job_findById env id b w = (r, w') ->
  jobs w' = jobs w /\ jobCandidates w' = jobCandidates w /\
  trace w' = trace w ++ [CJobFindById id b].
Proof.
  unfold Job_findById, fault. unfold_M. simpl.
  destruct (dbFault env OpFindById); simpl; [by intros [= _ <-]|].
  destruct (find _ _); simpl; by intros [= _ <-].
Qed.

End Validation.

(** ** A failing publish *)

Ltac bus_norm :=
  repeat match goal with
    | |- context [withPostEvent ?env ?b] =>
        progress
          (change (helper_checkIsMemberOfProject (withPostEvent env b))
             with (helper_checkIsMemberOfProject env);
           change (_validateSkills (withPostEvent env b))
             with (_validateSkills env);
           change (_validateRoles (withPostEvent env b))
             with (_validateRoles env);
           change (uuid_v4 (withPostEvent env b)) with (uuid_v4 env);
           change (helper_getUserId (withPostEvent env b))
             with (helper_getUserId env);
           change (Job_create (withPostEvent env b)) with (Job_create env);
           change (Job_update (withPostEvent env b)) with (Job_update env);
           change (Job_destroy (withPostEvent env b)) with (Job_destroy env);
           change (Job_findById (withPostEvent env b)) with (Job_findById env))
    end.

Ltac bus_norm_in H :=
  repeat match type of H with
    | context [withPostEvent ?env ?b] =>
        progress
          (change (helper_checkIsMemberOfProject (withPostEvent env b))
             with (helper_checkIsMemberOfProject env) in H;
           change (_validateSkills (withPostEvent env b))
             with (_validateSkills env) in H;
           change (_validateRoles (withPostEvent env b))
             with (_validateRoles env) in H;
           change (uuid_v4 (withPostEvent env b)) with (uuid_v4 env) in H;
           change (helper_getUserId (withPostEvent env b))
             with (helper_getUserId env) in H;
           change (Job_create (withPostEvent env b)) with (Job_create env) in H;
           change (Job_update (withPostEvent env b)) with (Job_update env) in H;
           change (Job_destroy (withPostEvent env b))
             with (Job_destroy env) in H;
           change (Job_findById (withPostEvent env b))
             with (Job_findById env) in H)
    end.

Lemma postEvent_run env bus t p o w :
  helper_postEvent (withPostEvent env bus) t p o w
  = (bus t p o, logged w [CPostEvent t p o]).
Proof. reflexivity. Qed.

Lemma createJob_publish_fails env u job w created w1 e :
  createJob (withPostEvent env busUp) u job w = (Ok created, w1) ->
  createJob (withPostEvent env (busDown e)) u job w = (Throw e, w1).
Proof.
  unfold createJob. intros H. bus_norm. bus_norm_in H.
  do 9 step_in H. do 8 step_goal. cbv beta zeta.
  match goal with
  | Hp : helper_postEvent _ _ _ _ _ = _ |- _ =>
      rewrite postEvent_run in Hp; injection Hp as _ <-
  end.
  injection H as <- <-.
  apply bind_run_Throw. rewrite postEvent_run. reflexivity.
Qed.

Lemma updateJob_publish_fails env u id data w updated w1 e :
  updateJob (withPostEvent env busUp) u id data w = (Ok updated, w1) ->
  exists w',
    updateJob (withPostEvent env (busDown e)) u id data w = (Throw e, w') /\
    jobs w' = jobs w1 /\ jobCandidates w' = jobCandidates w1 /\
    trace w1 = trace w' ++ [CJobFindById id true].
Proof.
  unfold updateJob. intros H. bus_norm. bus_norm_in H.
  do 9 step_in H. do 7 step_goal. cbv beta zeta in *.
  injection H as _ <-.
  match goal with
  | Hp : helper_postEvent _ _ _ _ _ = _ |- _ =>
      rewrite postEvent_run in Hp; injection Hp as _ <-
  end.
  match goal with
  | Hf : Job_findById env id true _ = _ |- _ =>
      apply Job_findById_trace in Hf as (Hj & Hc & Ht)
  end.
  eexists. split.
  { apply bind_run_Throw. rewrite postEvent_run. reflexivity. }
  done.
Qed.

Lemma deleteJob_publish_fails env u id w w1 e :
  deleteJob (withPostEvent env busUp) u id w = (Ok tt, w1) ->
  deleteJob (withPostEvent env (busDown e)) u id w = (Throw e, w1).
Proof.
  unfold deleteJob. intros H. bus_norm. bus_norm_in H.
  do 3 step_in H. do 3 step_goal. cbv beta zeta in *.
  rewrite postEvent_run in H. unfold busUp in H. injection H as <-.
  rewrite postEvent_run. reflexivity.
Qed.

(** C3, as stated, fails: with the bus down, [createJob] stores the row and
    then fails with the error of the publish; nothing is written to the log. *)
Lemma createJob_fails_when_publish_fails :
  let run := createJob (withPostEvent Sample.envUp (busDown Sample.unavailable))
               Sample.admin Sample.newJob Sample.world in
  run.1 = Throw Sample.unavailable /\
  jobs run.2
  = jobs Sample.world
    ++ [<["createdBy" := VStr "u1"]> (<["id" := VStr "uuid-0"]> Sample.newJob)]
  /\
  List.filter isErrorLog (trace run.2) = [].
Proof. cbv zeta. split; [|split]; vm_compute; reflexivity. Qed.

(** C3, amended.  Take any call of [createJob], [updateJob] or [deleteJob]
    that succeeds while the bus accepts the event.  With a bus that raises
    [e] the same call fails with [e]; the tables are those of the successful
    run, so the write stays committed; and no call is added to the trace, so
    the failure is not logged ([updateJob] merely stops before its final
    re-read of the row). *)
Theorem publish_failure_fails_the_call (env : Env) (e : Err) :
  (forall u job w created w1,
      createJob (withPostEvent env busUp) u job w = (Ok created, w1) ->
      createJob (withPostEvent env (busDown e)) u job w = (Throw e, w1))
  /\
  (forall u id data w updated w1,
      updateJob (withPostEvent env busUp) u id data w = (Ok updated, w1) ->
      exists w',
        updateJob (withPostEvent env (busDown e)) u id data w = (Throw e, w') /\
        jobs w' = jobs w1 /\ jobCandidates w' = jobCandidates w1 /\
        trace w1 = trace w' ++ [CJobFindById id true])
  /\
  (forall u id w w1,
      deleteJob (withPostEvent env busUp) u id w = (Ok tt, w1) ->
      deleteJob (withPostEvent env (busDown e)) u id w = (Throw e, w1)).
Proof.
  repeat split.
  - intros. by apply createJob_publish_fails with created.
  - intros u id data w updated w1 H.
    destruct (updateJob_publish_fails env u id data w updated w1 e H)
      as (w' & H1 & H2 & H3 & H4).
    exists w'. done.
  - intros. by apply deleteJob_publish_fails.
Qed.

Lemma publish_failure_fails_the_call_witness :
  createJob (withPostEvent Sample.envUp (busDown Sample.unavailable))
    Sample.admin Sample.newJob Sample.world
  = (Throw Sample.unavailable, Sample.afterCreate)
  /\
  deleteJob (withPostEvent Sample.envUp (busDown Sample.unavailable))
    Sample.admin "j1" Sample.world
  = (Throw Sample.unavailable, Sample.afterDelete).
Proof.
  split.
  - apply (proj1 (publish_failure_fails_the_call Sample.envUp
                    Sample.unavailable)
             Sample.admin Sample.newJob Sample.world Sample.created).
    vm_compute. reflexivity.
  - apply (proj2 (proj2 (publish_failure_fails_the_call Sample.envUp
                           Sample.unavailable))).
    vm_compute. reflexivity.
Defined.

(** ** The application-page flag *)

Lemma updateJob_flag_run env u id data w :
  isMachine u = false ->
  isUndefined (data !! "isApplicationPageActive") = false ->
  updateJob env u id data w = updateJob_refused env id data w.
Proof.
  intros Hm Hflag. unfold updateJob, updateJob_refused.
  apply bind_ext. intros [] w1 _.
  apply bind_ext. intros d w2 Hd.
  apply bind_ext. intros job w3 _. cbv zeta.
  assert (isUndefined (d !! "isApplicationPageActive") = false) as ->.
  { destruct (truthy (data !! "roleIds")).
    - apply bind_Ok_inv in Hd as ([] & w' & _ & [= <- _]).
      by rewrite lookup_insert_ne.
    - by injection Hd as <- _. }
  by rewrite Hm.
Qed.

Lemma alwaysThrows_updateJob_refused env id data :
  alwaysThrows (updateJob_refused env id data).
Proof.
  unfold updateJob_refused.
  do 3 (apply alwaysThrows_bind; intro). apply alwaysThrows_throw.
Qed.

Lemma readOnly_updateJob_refused env id data :
  readOnly (updateJob_refused env id data).
Proof.
  unfold updateJob_refused. apply readOnly_bind.
  { apply readOnly_if; [|apply readOnly_ret].
    apply readOnly_bind.
    - unfold arrayOf. destruct (data !! "skills") as [[]|];
        first [apply readOnly_throw | apply readOnly_ret].
    - intros. apply readOnly__validateSkills. }
  intros _. apply readOnly_bind.
  { apply readOnly_if; [|apply readOnly_ret].
    apply readOnly_bind; [apply readOnly__validateRoles|].
    intros. apply readOnly_ret. }
  intros _. apply readOnly_bind; [apply readOnly_Job_findById|].
  intros. apply readOnly_throw.
Qed.

Lemma createJob_flag_run env u job w :
  isMachine u = false ->
  isUndefined (job !! "isApplicationPageActive") = false ->
  createJob env u job w
  = if hasManagePermission u
    then (Throw (errors.ForbiddenError msgApplicationPage), w)
    else (match checkIsMemberOfProject env (userId u) (job !! "projectId") with
          | Ok _ => Throw (errors.ForbiddenError msgApplicationPage)
          | Throw e => Throw e
          end,
          logged w [CCheckIsMemberOfProject (userId u) (job !! "projectId")]).
Proof.
  intros Hm Hflag. unfold createJob, helper_checkIsMemberOfProject.
  rewrite Hm, Hflag. destruct (hasManagePermission u); simpl.
  - unfold_M. by destruct w.
  - unfold_M. simpl. by destruct (checkIsMemberOfProject env _ _) as [[]|e].
Qed.

(** C5, as stated, fails: an update carrying the flag, by a caller who is not
    a machine, for an id that is not in the table fails with NotFound, not
    Forbidden, because the lookup comes before the check of the flag. *)
Lemma updateJob_flag_unknown_id_not_found :
  isMachine Sample.member = false /\
  isUndefined (Sample.flagged !! "isApplicationPageActive") = false /\
  (updateJob Sample.envUp Sample.member "j9" Sample.flagged Sample.world).1
  = Throw (errors.NotFoundError (msgDoesNotExist "j9")) /\
  httpStatus (errors.NotFoundError (msgDoesNotExist "j9"))
  <> Some HttpStatus.FORBIDDEN.
Proof.
  split; [reflexivity|]. split; [reflexivity|]. split.
  - vm_compute. reflexivity.
  - discriminate.
Qed.

(** C5, amended.  When the payload of [createJob] or [updateJob] has the
    key [isApplicationPageActive] and the caller is not a machine, the call
    fails, the job table is unchanged, and neither a relational write nor a
    propagation event is issued.  The error is Forbidden whenever the steps
    before the check of the flag succeed: for [createJob] the membership
    check (or the caller has manage permission); for [updateJob] the
    validation of skills and roles and the lookup of the job. *)
Theorem applicationPage_flag_guarded (env : Env) (u : User) (w : World) :
  isMachine u = false ->
  (forall job,
      isUndefined (job !! "isApplicationPageActive") = false ->
      (exists e, (createJob env u job w).1 = Throw e) /\
      jobs (createJob env u job w).2 = jobs w /\
      (exists cs, trace (createJob env u job w).2 = trace w ++ cs /\
                  forallb (fun c => negb (isWriteOrEvent c)) cs = true) /\
      (hasManagePermission u = true \/
       checkIsMemberOfProject env (userId u) (job !! "projectId") = Ok tt ->
       (createJob env u job w).1
       = Throw (errors.ForbiddenError msgApplicationPage)))
  /\
  (forall id data,
      isUndefined (data !! "isApplicationPageActive") = false ->
      (exists e, (updateJob env u id data w).1 = Throw e) /\
      jobs (updateJob env u id data w).2 = jobs w /\
      (exists cs, trace (updateJob env u id data w).2 = trace w ++ cs /\
                  forallb (fun c => negb (isWriteOrEvent c)) cs = true) /\
      (skillsPass env data -> rolesPass env data ->
       dbFault env OpFindById = None ->
       is_Some (List.find (hasId (Some (VStr id))) (jobs w)) ->
       (updateJob env u id data w).1
       = Throw (errors.ForbiddenError msgApplicationPage))).
Proof.
  intros Hm. split.
  - intros job Hflag. rewrite createJob_flag_run by done.
    destruct (hasManagePermission u); simpl.
    + repeat split; eauto. exists []. by rewrite app_nil_r.
    + destruct (checkIsMemberOfProject env _ _) as [[]|e] eqn:Hc; simpl.
      * repeat split; eauto.
      * repeat split; eauto. by intros [|].
  - intros id data Hflag. rewrite updateJob_flag_run by done.
    destruct (readOnly_updateJob_refused env id data w) as (Hjobs & _ & Htrace).
    repeat split; try done; [apply alwaysThrows_updateJob_refused|].
    unfold updateJob_refused.
    intros Hsk Hro Hf [row Hrow].
    unfold mbind at 1, M_bind at 1. rewrite skills_step_pass by done.
    unfold mbind at 1, M_bind at 1. rewrite roles_step_pass by done.
    unfold mbind at 1, M_bind at 1. rewrite Job_findById_run by done.
    simpl. by rewrite Hrow.
Qed.

Lemma applicationPage_flag_guarded_witness :
  (updateJob Sample.envUp Sample.member "j1" Sample.flagged Sample.world).1
  = Throw (errors.ForbiddenError msgApplicationPage)
  /\
  jobs (updateJob Sample.envUp Sample.member "j1" Sample.flagged Sample.world).2
  = jobs Sample.world
  /\
  (createJob Sample.envUp Sample.member
     (<["isApplicationPageActive" := VBool false]> Sample.newJob)
     Sample.world).1
  = Throw (errors.ForbiddenError msgApplicationPage).
Proof.
  destruct (applicationPage_flag_guarded Sample.envUp Sample.member
              Sample.world eq_refl) as [Hcreate Hupdate].
  destruct (Hupdate "j1" Sample.flagged eq_refl) as (_ & Hjobs & _ & Hforbidden).
  assert (isUndefined
            (<["isApplicationPageActive" := VBool false]> Sample.newJob
               !! "isApplicationPageActive") = false) as Hflag
    by (vm_compute; reflexivity).
  destruct (Hcreate _ Hflag) as (_ & _ & _ & Hc).
  split; [|split].
  - apply Hforbidden.
    + left. reflexivity.
    + left. reflexivity.
    + reflexivity.
    + exists Sample.row1. vm_compute. reflexivity.
  - exact Hjobs.
  - apply Hc. right. reflexivity.
Defined.

(** ** Order of the checks in updateJob *)

(** C10.  In [updateJob], for every caller:
    - when a skill of the payload is unknown to the skill service (and no
      lookup fails otherwise) the call fails with BadRequest after the skill
      lookups alone;
    - when the skills pass and a role of the payload is unknown the call
      fails with BadRequest after the skill and role lookups alone;
    - when skills and roles pass and no row has the id the call fails with
      the NotFound of the lookup.
    None of these runs reaches the identity lookup or the creator check, so
    the outcome is the same for a caller who would be refused. *)
Theorem updateJob_validates_first (env : Env) (u : User) (id : string)
  (data : Obj) (w : World) :
  (forall skills,
      data !! "skills" = Some (VArr skills) ->
      forallb (fun s => negb (skillLookupFails env s)) skills = true ->
      existsb (skillMissing env) skills = true ->
      updateJob env u id data w
      = (Throw (errors.BadRequestError (invalidSkills env skills)),
         logged w (skillCalls data)))
  /\
  (forall found,
      skillsPass env data ->
      truthy (data !! "roleIds") = true ->
      roleFindAll env (uniqOf (data !! "roleIds")) = Ok found ->
      (0 <? length (difference (uniqOf (data !! "roleIds")) found))%nat = true ->
      updateJob env u id data w
      = (Throw (errors.BadRequestError
                  (invalidRoles (uniqOf (data !! "roleIds")) found)),
         logged w (skillCalls data ++ roleCalls data)))
  /\
  (skillsPass env data ->
   rolesPass env data ->
   dbFault env OpFindById = None ->
   List.find (hasId (Some (VStr id))) (jobs w) = None ->
   updateJob env u id data w
   = (Throw (errors.NotFoundError (msgDoesNotExist id)),
      logged w (skillCalls data ++ roleCalls data ++ [CJobFindById id false]))).
Proof.
  repeat split.
  - intros skills Hs Hall Hex. unfold updateJob, skillCalls. rewrite Hs. simpl.
    unfold mbind at 1, M_bind at 1. unfold mbind at 1, M_bind at 1. simpl.
    rewrite _validateSkills_run by done. by rewrite Hex.
  - intros found Hsk Ht Hr Hd. unfold updateJob.
    unfold mbind at 1, M_bind at 1. rewrite skills_step_pass by done.
    unfold mbind at 1, M_bind at 1. unfold roleCalls. rewrite Ht.
    unfold mbind at 1, M_bind at 1.
    rewrite (_validateRoles_run _ _ found) by done. rewrite Hd.
    by rewrite logged_app.
  - intros Hsk Hro Hf Hnone. unfold updateJob.
    unfold mbind at 1, M_bind at 1. rewrite skills_step_pass by done.
    unfold mbind at 1, M_bind at 1. rewrite roles_step_pass by done.
    unfold mbind at 1, M_bind at 1. rewrite Job_findById_run by done.
    simpl. rewrite Hnone. by rewrite !logged_app.
Qed.

(** [member] resolves to [u1] and did not create [j2]; the payloads name a
    skill and a role that do not exist. *)
Lemma updateJob_validates_first_witness :
  strictEq (Some (VStr "u1")) (Sample.row2 !! "createdBy") = false /\
  updateJob Sample.envUp Sample.member "j2" Sample.badSkill Sample.world
  = (Throw (errors.BadRequestError "Invalid skills: [zz]"),
     logged Sample.world [CGetSkillById (VStr "s1"); CGetSkillById (VStr "zz")])
  /\
  updateJob Sample.envUp Sample.member "j2" Sample.badRole Sample.world
  = (Throw (errors.BadRequestError "Invalid roles: [r9]"),
     logged Sample.world [CRoleFindAll [VStr "r1"; VStr "r9"]])
  /\
  updateJob Sample.envUp Sample.member "j9" Sample.retitle Sample.world
  = (Throw (errors.NotFoundError (msgDoesNotExist "j9")),
     logged Sample.world [CJobFindById "j9" false]).
Proof.
  split; [reflexivity|]. split; [|split].
  - apply (proj1 (updateJob_validates_first Sample.envUp Sample.member "j2"
                    Sample.badSkill Sample.world) [VStr "s1"; VStr "zz"]);
      reflexivity.
  - apply (proj1 (proj2 (updateJob_validates_first Sample.envUp Sample.member
                           "j2" Sample.badRole Sample.world)) [VStr "r1"]).
    + left. reflexivity.
    + reflexivity.
    + reflexivity.
    + reflexivity.
  - apply (proj2 (proj2 (updateJob_validates_first Sample.envUp Sample.member
                           "j9" Sample.retitle Sample.world))).
    + left. reflexivity.
    + left. reflexivity.
    + reflexivity.
    + vm_compute. reflexivity.
Defined.

(** ** The candidates key *)

(** C8 at a failing input: [j1] has no candidates, and the relational path of
    [getJob] returns it with the key [candidates] bound to the empty array,
    where the claim has the key absent. *)
Theorem getJob_db_empty_candidates_present :
  candidatesOf (jobCandidates Sample.world) (Some (VStr "j1")) = [] /\
  (getJob Sample.envUp Sample.admin "j1" true Sample.world).1
  = Ok (<["candidates" := VArr []]> Sample.row1) /\
  (<["candidates" := VArr []]> Sample.row1 : Obj) !! "candidates"
  = Some (VArr []).
Proof. split; [|split]; vm_compute; reflexivity. Qed.

(** The same on the relational path of [searchJobs]. *)
Example searchJobs_db_empty_candidates_present :
  (searchJobs Sample.envIndexDown Sample.admin Sample.twoPerPage
     {| returnAll := false |} Sample.world).1
  = Ok {| fromDb := Some true; total := 2; r_page := 1; r_perPage := 2;
          result := [<["candidates" := VArr []]> Sample.row1;
                     <["candidates" := VArr [VObj Sample.cand1]]> Sample.row2] |}.
Proof. vm_compute. reflexivity. Qed.

(** The index path of the same read leaves the key out. *)
Example getJob_index_empty_candidates_absent :
  exists r,
    (getJob Sample.envUp Sample.admin "j1" false Sample.world).1 = Ok r /\
    r !! "candidates" = None.
Proof.
  exists (_source Sample.hit1 ∪ {[ "id" := VStr "j1" ]}).
  split; vm_compute; reflexivity.
Qed.

(** Whatever the row and its candidates, the relational path of [getJob]
    binds the key. *)
Lemma getJob_db_candidates_bound env u id w r w' :
  getJob env u id true w = (Ok r, w') ->
  exists cs, r !! "candidates" = Some (VArr cs).
Proof.
  unfold getJob, getJob_db. simpl. intros H.
  step_in H. injection Hs as <- <-.
  do 3 step_in H. injection H as <- _.
  rewrite lookup_insert_eq. unfold candidatesDataValues.
  destruct (a0 !! "candidates") as [[]|]; eauto.
Qed.

(** ** What a successful create leaves behind *)

Lemma readOnly_jobs {A} (m : M A) w r w' :
  readOnly m -> m w = (r, w') -> jobs w' = jobs w.
Proof. intros Hm H. destruct (Hm w) as [Hj _]. by rewrite H in Hj. Qed.

Lemma readOnly_uuid_v4 env : readOnly (uuid_v4 env).
Proof. intros w. simpl. repeat split. exists []. by rewrite app_nil_r. Qed.

Lemma readOnly_helper_getUserId env uid : readOnly (helper_getUserId env uid).
Proof.
  unfold helper_getUserId. apply readOnly_bind.
  - by apply readOnly_emit.
  - intros. apply readOnly_lift.
Qed.

Lemma readOnly_arrayOf x : readOnly (arrayOf x).
Proof.
  unfold arrayOf. destruct x as [[]|];
    first [apply readOnly_throw | apply readOnly_ret].
Qed.

(** A successful [createJob] appends the returned row to the job table. *)
Lemma createJob_stores env u job w created w1 :
  createJob env u job w = (Ok created, w1) ->
  jobs w1 = jobs w ++ [created].
Proof.
  unfold createJob. intros H. do 9 step_in H. injection H as <- <-.
  apply readOnly_jobs in Hs;
    [|apply readOnly_if; [apply readOnly_checkIsMember|apply readOnly_ret]].
  apply readOnly_jobs in Hs0;
    [|apply readOnly_if; [apply readOnly_throw|apply readOnly_ret]].
  apply readOnly_jobs in Hs1; [|apply readOnly_arrayOf].
  apply readOnly_jobs in Hs2; [|apply readOnly__validateSkills].
  apply readOnly_jobs in Hs3;
    [|apply readOnly_if;
      [apply readOnly_bind; [apply readOnly__validateRoles|intros; apply readOnly_ret]
      |apply readOnly_ret]].
  apply readOnly_jobs in Hs4; [|apply readOnly_uuid_v4].
  apply readOnly_jobs in Hs5; [|apply readOnly_helper_getUserId].
  revert Hs6 Hs7. unfold Job_create, fault, helper_postEvent. unfold_M. simpl.
  destruct (dbFault env OpCreate); simpl; [discriminate|].
  intros [= <- <-]. simpl.
  destruct (postEvent env _ _ _) as [[]|]; simpl; [|discriminate].
  intros [= _ <-]. simpl. congruence.
Qed.

(** * The service as a whole *)

Lemma confined_ret P {A} (a : A) : confined P (mret a).
Proof. intros w. exists []. simpl. by rewrite app_nil_r. Qed.

Lemma confined_throw P {A} (e : Err) : confined P (@throw A e).
Proof. intros w. exists []. simpl. by rewrite app_nil_r. Qed.

Lemma confined_lift P {A} (r : Result A) : confined P (lift r).
Proof. intros w. exists []. simpl. by rewrite app_nil_r. Qed.

Lemma confined_getWorld P : confined P getWorld.
Proof. intros w. exists []. simpl. by rewrite app_nil_r. Qed.

Lemma confined_setJobs P js : confined P (setJobs js).
Proof. intros w. exists []. simpl. by rewrite app_nil_r. Qed.

Lemma confined_uuid_v4 P env : confined P (uuid_v4 env).
Proof. intros w. exists []. simpl. by rewrite app_nil_r. Qed.

Lemma confined_emit P c : P c = true -> confined P (emit c).
Proof. intros Hc w. exists [c]. simpl. by rewrite Hc. Qed.

Lemma confined_bind P {A B} (m : M A) (f : A -> M B) :
  confined P m -> (forall a, confined P (f a)) -> confined P (m ≫= f).
Proof.
  intros Hm Hf w. unfold mbind, M_bind.
  destruct (Hm w) as (cs & Ht & Hcs).
  destruct (m w) as [[a|e] w1]; simpl in *; [|eauto].
  destruct (Hf a w1) as (cs' & Ht' & Hcs').
  exists (cs ++ cs'). rewrite Ht', Ht, app_assoc, forallb_app, Hcs, Hcs'. done.
Qed.

Lemma confined_try P {A} (m : M A) (h : Err -> M A) :
  confined P m -> (forall e, confined P (h e)) -> confined P (try_catch m h).
Proof.
  intros Hm Hh w. unfold try_catch.
  destruct (Hm w) as (cs & Ht & Hcs).
  destruct (m w) as [[a|e] w1]; simpl in *; [eauto|].
  destruct (Hh e w1) as (cs' & Ht' & Hcs').
  exists (cs ++ cs'). rewrite Ht', Ht, app_assoc, forallb_app, Hcs, Hcs'. done.
Qed.

Lemma confined_promiseAll_map P {A B} first (f : A -> M B) (l : list A) :
  (forall a, confined P (f a)) ->
  confined P (promiseAll first (List.map f l)).
Proof.
  intros Hf. unfold confined. intros w. rewrite promiseAll_world. revert w.
  induction l as [|a l IH]; intros w; simpl.
  - exists []. by rewrite app_nil_r.
  - destruct (Hf a w) as (cs & Ht & Hcs).
    destruct (f a w) as [r w1]; simpl in *.
    destruct (IH w1) as (cs' & Ht' & Hcs').
    destruct (settleAll (List.map f l) w1) as [rs w2]; simpl in *.
    exists (cs ++ cs'). rewrite Ht', Ht, app_assoc, forallb_app, Hcs, Hcs'. done.
Qed.

Ltac confined_step :=
  first
    [ apply confined_ret | apply confined_throw | apply confined_lift
    | apply confined_getWorld | apply confined_setJobs | apply confined_uuid_v4
    | apply confined_emit; reflexivity
    | apply confined_bind; [|intros]
    | apply confined_try; [|intros]
    | apply confined_promiseAll_map; intros
    | match goal with
      | |- confined _ (if ?b then _ else _) => destruct b
      | |- confined _ (match ?x with _ => _ end) => destruct x
      end ].

Ltac confined_unfold :=
  unfold getJob, getJob_index, getJob_db, createJob, updateJob, deleteJob,
    searchJobs, searchJobs_permission, searchJobs_index, searchJobs_db,
    hitRecord, _getJobCandidates, _validateSkills, skillResponse,
    _validateRoles, _checkUserPermissionForGetJob, arrayOf,
    Job_findById, Job_findAll, Job_create, Job_update, Job_destroy, fault,
    esClient_get, esClient_search, helper_checkIsMemberOfProject,
    helper_getSkillById, helper_getUserId, helper_postEvent, Role_findAll,
    logger_logFullError, logger_info, logger_debug.

Ltac confined_tac := confined_unfold; cbv zeta; repeat confined_step.

Section Confinement.
Context (env : Env).

Lemma getJob_fromDb_no_index u id :
  confined notIndexCall (getJob env u id true).
Proof. confined_tac. Qed.

Lemma createJob_no_index u job : confined notIndexCall (createJob env u job).
Proof. confined_tac. Qed.

Lemma updateJob_no_index u id data :
  confined notIndexCall (updateJob env u id data).
Proof. confined_tac. Qed.

Lemma deleteJob_no_index u id : confined notIndexCall (deleteJob env u id).
Proof. confined_tac. Qed.

End Confinement.

Lemma hasId_Some id row :
  hasId (Some (VStr id)) row = true <-> row !! "id" = Some (VStr id).
Proof.
  unfold hasId, sqlEq. split.
  - destruct (row !! "id") as [[]|]; try done.
    by intros ->%String.eqb_eq.
  - intros ->. apply String.eqb_refl.
Qed.

Lemma lookup_withUniqueRoles (data : Obj) key :
  key <> "roleIds" -> withUniqueRoles data !! key = data !! key.
Proof.
  intros Hk. unfold withUniqueRoles. destruct (truthy _); [|done].
  by rewrite lookup_insert_ne.
Qed.

Lemma find_filter_negb {A} (f : A -> bool) (l : list A) :
  List.find f (List.filter (fun x => negb (f x)) l) = None.
Proof.
  induction l as [|x l IH]; simpl; [done|].
  destruct (f x) eqn:Hx; simpl; [done|]. by rewrite Hx.
Qed.

Lemma allFound_spec env skills :
  allFound env skills = true ->
  forallb (fun s => negb (skillLookupFails env s)) skills = true /\
  existsb (skillMissing env) skills = false.
Proof.
  unfold allFound. induction skills as [|s skills IH]; simpl; [done|].
  intros [Hs Hall]%andb_true_iff. destruct (IH Hall) as [-> ->].
  unfold skillLookupFails, skillMissing. by destruct (getSkillById env s).
Qed.

Section Writes.
Context (env : Env).

(** X17 (deleteJob): a caller who neither has the manage permission nor is a
    machine is refused with 403 before anything is called; for the others an
    unknown id is answered with "not found" after the single lookup, with
    nothing destroyed and nothing published. *)
Theorem deleteJob_refusals (u : User) (id : string) (w : World) :
  (privilegedWriter u = false ->
   deleteJob env u id w = (Throw (errors.ForbiddenError msgNotAllowed), w))
  /\
  (privilegedWriter u = true ->
   dbFault env OpFindById = None ->
   List.find (hasId (Some (VStr id))) (jobs w) = None ->
   deleteJob env u id w
   = (Throw (errors.NotFoundError (msgDoesNotExist id)),
      logged w [CJobFindById id false])).
Proof.
  unfold privilegedWriter. split.
  - intros Hu. apply orb_false_iff in Hu as [H1 H2].
    unfold deleteJob. rewrite H1, H2. simpl. by destruct w.
  - intros Hu Hf Hnone. unfold deleteJob.
    assert (negb (hasManagePermission u) && negb (isMachine u) = false) as ->.
    { by destruct (hasManagePermission u), (isMachine u). }
    unfold mbind at 1, M_bind at 1. unfold mret at 1, M_ret at 1.
    unfold mbind at 1, M_bind at 1. rewrite Job_findById_run by done.
    by rewrite Hnone.
Qed.

Lemma deleteJob_run (u : User) (id : string) (w : World) row :
  privilegedWriter u = true ->
  dbFault env OpFindById = None ->
  dbFault env OpDestroy = None ->
  List.find (hasId (Some (VStr id))) (jobs w) = Some row ->
  deleteJob env u id w
  = (postEvent env TAAS_JOB_DELETE_TOPIC {[ "id" := VStr id ]} None,
     {| jobs := List.filter (fun r => negb (hasId (Some (VStr id)) r)) (jobs w);
        jobCandidates := jobCandidates w; uuids := uuids w;
        trace := trace w ++ [CJobFindById id false;
                             CJobDestroy (Some (VStr id));
                             CPostEvent TAAS_JOB_DELETE_TOPIC
                               {[ "id" := VStr id ]} None] |}).
Proof.
  unfold privilegedWriter. intros Hu Hf Hd Hrow. unfold deleteJob.
  assert (negb (hasManagePermission u) && negb (isMachine u) = false) as ->.
  { by destruct (hasManagePermission u), (isMachine u). }
  unfold mbind at 1, M_bind at 1. unfold mret at 1, M_ret at 1.
  unfold mbind at 1, M_bind at 1. rewrite Job_findById_run by done.
  rewrite Hrow.
  assert (row !! "id" = Some (VStr id)) as Hid.
  { apply List.find_some in Hrow as [_ Hrow]. by apply hasId_Some. }
  unfold Job_destroy, fault, helper_postEvent. rewrite Hd, Hid.
  unfold_M. simpl. by rewrite <- !app_assoc.
Qed.

End Writes.

Lemma keepsUuids_ret {A} (a : A) : keepsUuids (mret a).
Proof. done. Qed.
Lemma keepsUuids_throw {A} e : keepsUuids (@throw A e).
Proof. done. Qed.
Lemma keepsUuids_lift {A} (r : Result A) : keepsUuids (lift r).
Proof. done. Qed.
Lemma keepsUuids_emit c : keepsUuids (emit c).
Proof. done. Qed.
Lemma keepsUuids_bind {A B} (m : M A) (f : A -> M B) :
  keepsUuids m -> (forall a, keepsUuids (f a)) -> keepsUuids (m ≫= f).
Proof.
  intros Hm Hf w. unfold mbind, M_bind. specialize (Hm w).
  destruct (m w) as [[a|e] w1]; simpl in *; [|done]. by rewrite Hf.
Qed.
Lemma keepsUuids_try {A} (m : M A) (h : Err -> M A) :
  keepsUuids m -> (forall e, keepsUuids (h e)) -> keepsUuids (try_catch m h).
Proof.
  intros Hm Hh w. unfold try_catch. specialize (Hm w).
  destruct (m w) as [[a|e] w1]; simpl in *; [done|]. by rewrite Hh.
Qed.
Lemma keepsUuids_promiseAll_map {A B} first (f : A -> M B) (l : list A) :
  (forall a, keepsUuids (f a)) ->
  keepsUuids (promiseAll first (List.map f l)).
Proof.
  intros Hf. unfold keepsUuids. intros w. rewrite promiseAll_world. revert w.
  induction l as [|a l IH]; intros w; simpl; [done|].
  specialize (Hf a w). destruct (f a w) as [r w1]; simpl in *.
  specialize (IH w1). destruct (settleAll (List.map f l) w1) as [rs w2].
  simpl in *. congruence.
Qed.

Ltac keepsUuids_step :=
  first
    [ apply keepsUuids_ret | apply keepsUuids_throw | apply keepsUuids_lift
    | apply keepsUuids_emit
    | apply keepsUuids_bind; [|intros]
    | apply keepsUuids_try; [|intros]
    | apply keepsUuids_promiseAll_map; intros
    | match goal with
      | |- keepsUuids (if ?b then _ else _) => destruct b
      | |- keepsUuids (match ?x with _ => _ end) => destruct x
      end ].

Ltac keepsUuids_tac := confined_unfold; cbv zeta; repeat keepsUuids_step.

Lemma run_uuids {A} (m : M A) w r w' :
  keepsUuids m -> m w = (r, w') -> uuids w' = uuids w.
Proof. intros Hm H. specialize (Hm w). by rewrite H in Hm. Qed.

Lemma run_readOnly {A} (m : M A) w r w' :
  readOnly m -> m w = (r, w') ->
  jobs w' = jobs w /\ jobCandidates w' = jobCandidates w /\
  exists cs, trace w' = trace w ++ cs /\
             List.filter isWriteOrEvent cs = [].
Proof.
  intros Hm H. destruct (Hm w) as (Hj & Hc & cs & Ht & Hcs).
  rewrite H in Hj, Hc, Ht. simpl in *. repeat split; try done.
  exists cs. split; [done|]. clear Ht.
  induction cs as [|c cs IH]; simpl in *; [done|].
  apply andb_true_iff in Hcs as [Hc1 Hcs].
  apply negb_true_iff in Hc1. rewrite Hc1. auto.
Qed.

Ltac readOnly_step :=
  first
    [ apply readOnly__validateSkills | apply readOnly__validateRoles
    | apply readOnly_checkIsMember | apply readOnly_Job_findById
    | apply readOnly_ret | apply readOnly_throw | apply readOnly_lift
    | apply readOnly_getWorld
    | apply readOnly_emit; reflexivity
    | apply readOnly_bind; [|intros]
    | apply readOnly_try; [|intros]
    | match goal with
      | |- readOnly (if ?b then _ else _) => destruct b
      | |- readOnly (match ?x with _ => _ end) => destruct x
      end ].

Ltac readOnly_tac :=
  unfold arrayOf, helper_getUserId; cbv zeta; repeat readOnly_step.

Section Create.
Context (env : Env).

Lemma keepsUuids_checkIsMember uid pid :
  keepsUuids (helper_checkIsMemberOfProject env uid pid).
Proof. keepsUuids_tac. Qed.

Lemma keepsUuids__validateSkills skills : keepsUuids (_validateSkills env skills).
Proof. keepsUuids_tac. Qed.

Lemma keepsUuids__validateRoles roles : keepsUuids (_validateRoles env roles).
Proof. keepsUuids_tac. Qed.

Lemma keepsUuids_arrayOf x : keepsUuids (arrayOf x).
Proof. keepsUuids_tac. Qed.

Lemma roles_step_Ok (data : Obj) w d w' :
  (if truthy (data !! "roleIds")
   then _validateRoles env (uniqOf (data !! "roleIds"));;
        mret (<["roleIds" := VArr (uniqOf (data !! "roleIds"))]> data)
   else mret data) w = (Ok d, w') ->
  d = withUniqueRoles data.
Proof.
  unfold withUniqueRoles. destruct (truthy _).
  - intros H. apply bind_Ok_inv in H as ([] & w1 & _ & [= <- _]). done.
  - by intros [= <- _].
Qed.


Lemma uuid_v4_run w : 
  uuid_v4 env w
  = (Ok (uuid env (uuids w)),
     {| jobs := jobs w; jobCandidates := jobCandidates w;
        uuids := S (uuids w); trace := trace w |}).
Proof. reflexivity. Qed.

Lemma helper_getUserId_Ok uid w v w' :
  helper_getUserId env uid w = (Ok v, w') ->
  getUserId env uid = Ok v /\ w' = logged w [CGetUserId uid].
Proof.
  unfold helper_getUserId. unfold_M. simpl.
  destruct (getUserId env uid); by intros [= <- <-].
Qed.

Lemma Job_create_Ok job w r w' :
  Job_create env job w = (Ok r, w') ->
  r = job /\
  w' = {| jobs := jobs w ++ [job]; jobCandidates := jobCandidates w;
          uuids := uuids w; trace := trace w ++ [CJobCreate job] |}.
Proof.
  unfold Job_create, fault. unfold_M. simpl.
  destruct (dbFault env OpCreate); simpl; [discriminate|].
  by intros [= <- <-].
Qed.

Lemma helper_postEvent_Ok t p o w w' :
  helper_postEvent env t p o w = (Ok tt, w') ->
  postEvent env t p o = Ok tt /\ w' = logged w [CPostEvent t p o].
Proof.
  unfold helper_postEvent. unfold_M. simpl.
  destruct (postEvent env t p o) as [[]|]; by intros [= <-].
Qed.

Lemma createJob_Ok (u : User) (job : Obj) (w w1 : World) (created : Obj) :
  createJob env u job w = (Ok created, w1) ->
  exists uid,
    getUserId env (userId u) = Ok uid /\
    created = createdRow env w uid job /\
    created !! "id" = Some (VStr (uuid env (uuids w))) /\
    created !! "createdBy" = Some uid /\
    (forall k, k <> "id" -> k <> "createdBy" -> k <> "roleIds" ->
               created !! k = job !! k) /\
    jobs w1 = jobs w ++ [created] /\
    jobCandidates w1 = jobCandidates w /\
    uuids w1 = S (uuids w) /\
    exists cs, trace w1 = trace w ++ cs /\
               List.filter isWriteOrEvent cs
               = [CJobCreate created;
                  CPostEvent TAAS_JOB_CREATE_TOPIC created None].
Proof.
  unfold createJob. intros H. do 9 step_in H. injection H as <- <-.
  apply roles_step_Ok in Hs3 as Hd. subst a3.
  rewrite uuid_v4_run in Hs4. injection Hs4 as <- <-.
  apply helper_getUserId_Ok in Hs5 as [Huid ->].
  apply Job_create_Ok in Hs6 as [-> ->].
  destruct a7. apply helper_postEvent_Ok in Hs7 as [Hbus ->].
  assert (uuids w5 = uuids w) as Hu.
  { apply run_uuids in Hs; [|keepsUuids_tac].
    apply run_uuids in Hs0; [|keepsUuids_tac].
    apply run_uuids in Hs1; [|keepsUuids_tac].
    apply run_uuids in Hs2; [|keepsUuids_tac].
    apply run_uuids in Hs3; [|keepsUuids_tac]. congruence. }
  apply run_readOnly in Hs as (Hj & Hc & cs & Ht & Hcs); [|readOnly_tac].
  apply run_readOnly in Hs0 as (Hj0 & Hc0 & cs0 & Ht0 & Hcs0); [|readOnly_tac].
  apply run_readOnly in Hs1 as (Hj1 & Hc1 & cs1 & Ht1 & Hcs1); [|readOnly_tac].
  apply run_readOnly in Hs2 as (Hj2 & Hc2 & cs2 & Ht2 & Hcs2); [|readOnly_tac].
  apply run_readOnly in Hs3 as (Hj3 & Hc3 & cs3 & Ht3 & Hcs3); [|readOnly_tac].
  exists a5. unfold createdRow. rewrite Hu. simpl.
  repeat split; try done.
  - by rewrite lookup_insert_ne, lookup_insert_eq.
  - by rewrite lookup_insert_eq.
  - intros k H1 H2 H3.
    rewrite !lookup_insert_ne by done. by apply lookup_withUniqueRoles.
  - congruence.
  - congruence.
  - exists (cs ++ cs0 ++ cs1 ++ cs2 ++ cs3
            ++ [CGetUserId (userId u);
                CJobCreate (<["createdBy":=a5]>
                              (<["id":=VStr (uuid env (uuids w))]>
                                 (withUniqueRoles job)));
                CPostEvent TAAS_JOB_CREATE_TOPIC
                  (<["createdBy":=a5]>
                     (<["id":=VStr (uuid env (uuids w))]>
                        (withUniqueRoles job))) None]).
    split.
    + rewrite Ht3, Ht2, Ht1, Ht0, Ht. rewrite <- !app_assoc. done.
    + rewrite !List.filter_app, Hcs, Hcs0, Hcs1, Hcs2, Hcs3. done.
Qed.

(** X11 (createJob): every successful create returns the payload with a fresh
    [id], the caller's [createdBy] and unique [roleIds], every other key as
    sent; it appends exactly that row to the jobs, leaves the candidates
    alone, draws one identifier, and its only write and only event are the
    insert of the row and its publication on the create topic, in this
    order. *)
Theorem createJob_returns (u : User) (job : Obj) (w w1 : World) (created : Obj) :
  createJob env u job w = (Ok created, w1) ->
  exists uid,
    getUserId env (userId u) = Ok uid /\
    created = createdRow env w uid job /\
    created !! "id" = Some (VStr (uuid env (uuids w))) /\
    created !! "createdBy" = Some uid /\
    (forall k, k <> "id" -> k <> "createdBy" -> k <> "roleIds" ->
               created !! k = job !! k) /\
    jobs w1 = jobs w ++ [created] /\
    jobCandidates w1 = jobCandidates w /\
    uuids w1 = S (uuids w) /\
    exists cs, trace w1 = trace w ++ cs /\
               List.filter isWriteOrEvent cs
               = [CJobCreate created;
                  CPostEvent TAAS_JOB_CREATE_TOPIC created None].
Proof. apply createJob_Ok. Qed.

End Create.

Lemma candidatesDataValues_stored cands row :
  <["candidates" :=
      candidatesDataValues (withCandidatesOf cands row !! "candidates")]>
    (withCandidatesOf cands row)
  = withCandidatesOf cands row.
Proof.
  unfold withCandidatesOf. rewrite lookup_insert_eq. simpl.
  by rewrite insert_insert_eq.
Qed.


Section Update.
Context (env : Env).

Lemma guard_Ok (c : bool) (e : Err) w a w' :
  (if c then throw e else mret tt) w = (Ok a, w') -> c = false /\ w' = w.
Proof. destruct c; [discriminate|]. by intros [= _ <-]. Qed.

Lemma Job_findById_Ok id b w job w' :
  Job_findById env id b w = (Ok job, w') ->
  dbFault env OpFindById = None /\
  exists row,
    List.find (hasId (Some (VStr id))) (jobs w) = Some row /\
    job = (if b then withCandidatesOf (jobCandidates w) row else row) /\
    w' = logged w [CJobFindById id b].
Proof.
  destruct (dbFault env OpFindById) as [e|] eqn:Hf.
  - unfold Job_findById, fault. rewrite Hf. unfold_M. simpl. discriminate.
  - rewrite Job_findById_run by done.
    destruct (find _ _) as [row|]; [|discriminate].
    intros [= <- <-]. eauto.
Qed.

Lemma Job_update_Ok job data w r w' :
  Job_update env job data w = (Ok r, w') ->
  r = data ∪ job /\
  w' = {| jobs := List.map (fun row => if hasId (job !! "id") row
                                       then data ∪ row else row) (jobs w);
          jobCandidates := jobCandidates w; uuids := uuids w;
          trace := trace w ++ [CJobUpdate (job !! "id") data] |}.
Proof.
  unfold Job_update, fault. unfold_M. simpl.
  destruct (dbFault env OpUpdate); simpl; [discriminate|].
  by intros [= <- <-].
Qed.

Lemma find_map_patch id (patch : Obj) (l : list Obj) row :
  patch !! "id" = None ->
  List.find (hasId (Some (VStr id))) l = Some row ->
  List.find (hasId (Some (VStr id)))
    (List.map (fun r => if hasId (Some (VStr id)) r then patch ∪ r else r) l)
  = Some (patch ∪ row).
Proof.
  intros Hp. induction l as [|x l IH]; [done|]. cbn [List.find List.map].
  destruct (hasId (Some (VStr id)) x) eqn:Hx.
  - intros [= <-].
    assert (hasId (Some (VStr id)) (patch ∪ x) = true) as ->; [|done].
    apply hasId_Some. apply hasId_Some in Hx.
    by rewrite lookup_union_r.
  - intros Hfind. rewrite Hx. by apply IH.
Qed.

Lemma creator_check_Ok (u : User) (uid : Value) (row : Obj) w a w' :
  (if negb (hasManagePermission u) && negb (isMachine u)
   then if negb (strictEq (Some uid) (row !! "createdBy"))
        then throw (errors.ForbiddenError msgNotAllowed)
        else mret tt
   else mret tt) w = (Ok a, w') ->
  (privilegedWriter u = true \/
   strictEq (Some uid) (row !! "createdBy") = true) /\ w' = w.
Proof.
  unfold privilegedWriter.
  destruct (hasManagePermission u); [intros [= _ <-]; auto|].
  destruct (isMachine u); [intros [= _ <-]; auto|].
  cbn [negb andb orb].
  destruct (strictEq (Some uid) (row !! "createdBy")); cbn [negb].
  - intros [= _ <-]. auto.
  - discriminate.
Qed.

Lemma flag_check_false (u : User) (data : Obj) :
  negb (isUndefined (data !! "isApplicationPageActive"))
  && negb (isMachine u) = false ->
  isUndefined (data !! "isApplicationPageActive") = true \/ isMachine u = true.
Proof.
  destruct (isUndefined _); [auto|]. destruct (isMachine u); [auto|]. done.
Qed.

(** X15 (updateJob): every successful update found the row, was made by a
    privileged caller or by the row's creator, and carried the application
    page flag only for a machine; it patches exactly the rows with that id
    (the patch wins key by key), leaves the candidates alone, and its only
    write and only event are the update and the publication of the patched
    row together with the old one. When the payload has no [id] the answer is
    the patched row with its candidates. *)
Theorem updateJob_returns (u : User) (id : string) (data : Obj) (w w1 : World)
  (r : Obj) :
  updateJob env u id data w = (Ok r, w1) ->
  exists row uid,
    List.find (hasId (Some (VStr id))) (jobs w) = Some row /\
    getUserId env (userId u) = Ok uid /\
    (isUndefined (data !! "isApplicationPageActive") = true \/
     isMachine u = true) /\
    (privilegedWriter u = true \/
     strictEq (Some uid) (row !! "createdBy") = true) /\
    jobs w1
    = List.map (fun x => if hasId (Some (VStr id)) x
                         then updatePatch uid data ∪ x else x) (jobs w) /\
    jobCandidates w1 = jobCandidates w /\
    (exists cs,
        trace w1 = trace w ++ cs /\
        List.filter isWriteOrEvent cs
        = [CJobUpdate (Some (VStr id)) (updatePatch uid data);
           CPostEvent TAAS_JOB_UPDATE_TOPIC (updatePatch uid data ∪ row)
             (Some row)]) /\
    (data !! "id" = None ->
     r = withCandidatesOf (jobCandidates w) (updatePatch uid data ∪ row)).
Proof.
  unfold updateJob. intros H. do 9 step_in H. injection H as <- <-.
  apply roles_step_Ok in Hs0 as Hd. subst a0.
  apply Job_findById_Ok in Hs1 as (_ & row & Hrow & -> & ->).
  apply guard_Ok in Hs2 as [Hflag ->].
  apply flag_check_false in Hflag.
  rewrite lookup_withUniqueRoles in Hflag by done.
  apply helper_getUserId_Ok in Hs3 as [Huid ->].
  apply creator_check_Ok in Hs4 as [Hauth ->].
  apply Job_update_Ok in Hs5 as [-> ->].
  destruct a6. apply helper_postEvent_Ok in Hs6 as [Hbus ->].
  apply Job_findById_Ok in Hs7 as (_ & row' & Hrow' & -> & ->).
  apply run_readOnly in Hs as (Hj & Hc & cs & Ht & Hcs); [|readOnly_tac].
  apply run_readOnly in Hs0 as (Hj0 & Hc0 & cs0 & Ht0 & Hcs0); [|readOnly_tac].
  simpl in *.
  assert (row !! "id" = Some (VStr id)) as Hid.
  { apply List.find_some in Hrow as [_ Hrow]. by apply hasId_Some. }
  rewrite Hid in *. rewrite Hj0, Hj in *. rewrite Hc0, Hc in *.
  exists row, a3. change (<["updatedBy":=a3]> (withUniqueRoles data))
    with (updatePatch a3 data) in *.
  repeat split; try done.
  - eexists. split.
    + rewrite Ht0, Ht. rewrite <- !app_assoc. reflexivity.
    + rewrite !List.filter_app, Hcs, Hcs0. done.
  - intros Hnoid.
    rewrite (find_map_patch id (updatePatch a3 data) (jobs w) row) in Hrow'.
    + injection Hrow' as <-. apply candidatesDataValues_stored.
    + unfold updatePatch. rewrite lookup_insert_ne by done.
      by rewrite lookup_withUniqueRoles.
    + done.
Qed.

End Update.

Lemma getJob_db_result env u id w :
  (getJob_db env u id w).1
  = getJob_db_outcome env u id (jobs w) (jobCandidates w).
Proof.
  unfold getJob_db, getJob_db_outcome, logger_info, Job_findById, fault,
    _checkUserPermissionForGetJob, helper_checkIsMemberOfProject,
    unprivilegedReader.
  unfold_M. simpl.
  destruct (dbFault env OpFindById); simpl; [done|].
  destruct (find _ _) as [row|]; simpl; [|done].
  rewrite lookup_withCandidatesOf_ne by done.
  destruct (negb (hasManagePermission u) && negb (isMachine u)
            && negb (isConnectManager u)); simpl.
  - destruct (checkIsMemberOfProject env _ _) as [[]|e]; simpl; [|done].
    by rewrite candidatesDataValues_stored.
  - by rewrite candidatesDataValues_stored.
Qed.


Section Delete.
Context (env : Env).

Lemma Job_destroy_Ok job w a w' :
  Job_destroy env job w = (Ok a, w') ->
  w' = {| jobs := List.filter (fun row => negb (hasId (job !! "id") row)) (jobs w);
          jobCandidates := jobCandidates w; uuids := uuids w;
          trace := trace w ++ [CJobDestroy (job !! "id")] |}.
Proof.
  unfold Job_destroy, fault. unfold_M. simpl.
  destruct (dbFault env OpDestroy); simpl; [discriminate|].
  by intros [= _ <-].
Qed.

Lemma getJob_fromDb_missing u id w :
  dbFault env OpFindById = None ->
  List.find (hasId (Some (VStr id))) (jobs w) = None ->
  (getJob env u id true w).1 = Throw (errors.NotFoundError (msgDoesNotExist id)).
Proof.
  intros Hf Hnone. unfold getJob, getJob_db, logger_info. simpl.
  unfold mbind at 1, M_bind at 1. unfold mret at 1, M_ret at 1.
  unfold mbind at 1, M_bind at 1. unfold emit at 1.
  unfold mbind at 1, M_bind at 1. rewrite Job_findById_run by done.
  simpl. by rewrite Hnone.
Qed.

(** X18 (deleteJob, getJob): every successful delete was made by a
    privileged caller; it removes exactly the rows with that id, its calls
    are the lookup, the destroy and the publication of [{ id }] on the delete
    topic, and a read of that id from the relational store afterwards answers
    "not found" for every caller. *)
Theorem deleteJob_removes (u : User) (id : string) (w w1 : World) :
  deleteJob env u id w = (Ok tt, w1) ->
  privilegedWriter u = true /\
  jobs w1 = List.filter (fun r => negb (hasId (Some (VStr id)) r)) (jobs w) /\
  trace w1 = trace w ++ [CJobFindById id false; CJobDestroy (Some (VStr id));
                         CPostEvent TAAS_JOB_DELETE_TOPIC
                           {[ "id" := VStr id ]} None] /\
  forall reader,
    (getJob env reader id true w1).1
    = Throw (errors.NotFoundError (msgDoesNotExist id)).
Proof.
  unfold deleteJob. intros H. do 3 step_in H.
  apply guard_Ok in Hs as [Hu ->].
  apply Job_findById_Ok in Hs0 as (Hf & row & Hrow & -> & ->).
  apply Job_destroy_Ok in Hs1 as ->.
  apply helper_postEvent_Ok in H as [_ ->].
  assert (row !! "id" = Some (VStr id)) as Hid.
  { apply List.find_some in Hrow as [_ Hrow]. by apply hasId_Some. }
  rewrite Hid. simpl. repeat split.
  - unfold privilegedWriter.
    by destruct (hasManagePermission u), (isMachine u).
  - by rewrite <- !app_assoc.
  - intros reader. apply getJob_fromDb_missing; [done|]. simpl.
    apply find_filter_negb.
Qed.

(** X14 (createJob, getJob): when the drawn identifier is not yet in the
    table, a privileged read of it from the relational store after a
    successful create returns the created row with its candidates, which
    agrees with the payload on every key but [id], [createdBy], [roleIds] and
    [candidates]. *)
Theorem createJob_then_getJob (u reader : User) (job : Obj) (w w1 : World)
  (created : Obj) :
  createJob env u job w = (Ok created, w1) ->
  dbFault env OpFindById = None ->
  unprivilegedReader reader = false ->
  forallb (fun r => negb (hasId (Some (VStr (uuid env (uuids w)))) r)) (jobs w)
  = true ->
  (getJob env reader (uuid env (uuids w)) true w1).1
  = Ok (withCandidatesOf (jobCandidates w) created) /\
  forall k, k <> "id" -> k <> "createdBy" -> k <> "roleIds" ->
            k <> "candidates" ->
            withCandidatesOf (jobCandidates w) created !! k = job !! k.
Proof.
  intros H Hf Hreader Hfresh.
  apply createJob_Ok in H
    as (uid & _ & _ & Hid & _ & Hkeys & Hjobs & Hcands & _).
  split.
  - change (getJob env reader (uuid env (uuids w)) true w1)
      with (getJob_db env reader (uuid env (uuids w)) w1).
    rewrite getJob_db_result. unfold getJob_db_outcome.
    rewrite Hf, Hjobs, Hcands, Hreader.
    assert (List.find (hasId (Some (VStr (uuid env (uuids w)))))
              (jobs w ++ [created]) = Some created) as ->; [|done].
    clear -Hfresh Hid. induction (jobs w) as [|x l IH]; simpl in *.
    + assert (hasId (Some (VStr (uuid env (uuids w)))) created = true) as Hc
        by (by apply hasId_Some).
      unfold hasId in Hc. by rewrite Hc.
    + apply andb_true_iff in Hfresh as [Hx Hl]. apply negb_true_iff in Hx.
      unfold hasId in Hx. rewrite Hx. by apply IH.
  - intros k H1 H2 H3 H4. unfold withCandidatesOf.
    rewrite lookup_insert_ne by done. by apply Hkeys.
Qed.

End Delete.

Lemma readOnly_getJob_index env u id : readOnly (getJob_index env u id).
Proof.
  unfold getJob_index, esClient_get, _checkUserPermissionForGetJob.
  apply readOnly_bind.
  { apply readOnly_bind; [by apply readOnly_emit|intros; apply readOnly_lift]. }
  intros hit. apply readOnly_bind.
  { apply readOnly_if; [apply readOnly_checkIsMember|apply readOnly_ret]. }
  intros _. apply readOnly_bind; [apply readOnly__getJobCandidates|].
  intros cs. apply readOnly_if; apply readOnly_ret.
Qed.

Lemma readOnly_getJob_db env u id : readOnly (getJob_db env u id).
Proof.
  unfold getJob_db, logger_info, _checkUserPermissionForGetJob.
  apply readOnly_bind; [by apply readOnly_emit|]. intros _.
  apply readOnly_bind; [apply readOnly_Job_findById|]. intros job.
  apply readOnly_bind; [|intros; apply readOnly_ret].
  apply readOnly_if; [apply readOnly_checkIsMember|apply readOnly_ret].
Qed.

Lemma getJob_readOnly env u id fromDb : readOnly (getJob env u id fromDb).
Proof.
  unfold getJob. apply readOnly_bind.
  - apply readOnly_if; [|apply readOnly_ret].
    apply readOnly_try.
    + apply readOnly_bind; [apply readOnly_getJob_index|].
      intros. apply readOnly_ret.
    + intros e. repeat apply readOnly_if; try apply readOnly_throw.
      apply readOnly_bind; [by apply readOnly_emit|]. intros. apply readOnly_ret.
  - intros [r|]; [apply readOnly_ret|apply readOnly_getJob_db].
Qed.

Lemma readOnly_searchJobs_db env c sb so p pp :
  readOnly (searchJobs_db env c sb so p pp).
Proof.
  unfold searchJobs_db, logger_info.
  apply readOnly_bind; [by apply readOnly_emit|]. intros _.
  apply readOnly_bind; [apply readOnly_Job_findAll|]. intros. apply readOnly_ret.
Qed.

Lemma searchJobs_readOnly env u c o : readOnly (searchJobs env u c o).
Proof.
  unfold searchJobs. apply readOnly_bind; [apply readOnly_searchJobs_permission|].
  intros _. cbv zeta. apply readOnly_bind.
  - apply readOnly_try.
    + apply readOnly_bind; [apply readOnly_searchJobs_index|].
      intros. apply readOnly_ret.
    + intros e. apply readOnly_bind; [by apply readOnly_emit|].
      intros. apply readOnly_ret.
  - intros [r|]; [apply readOnly_ret|apply readOnly_searchJobs_db].
Qed.


Section Reads.
Context (env : Env).

Lemma getJob_db_no_index u id : confined notIndexCall (getJob_db env u id).
Proof. confined_tac. Qed.

(** X4 (getJob): when the index path fails with an error that is neither a
    missing document nor a 403, the call logs that error and answers what the
    relational path answers, without touching the index again. *)
Theorem getJob_falls_back (u : User) (id : string) (w w1 : World) (e : Err) :
  getJob_index env u id w = (Throw e, w1) ->
  isDocumentMissingException e = false ->
  optZ_eqb (httpStatus e) HttpStatus.FORBIDDEN = false ->
  (getJob env u id false w).1 = (getJob env u id true w).1 /\
  exists cs, trace (getJob env u id false w).2
             = trace w1 ++ CLogFullError e "getJob" :: cs /\
             forallb notIndexCall cs = true.
Proof.
  intros Hidx Hmiss H403.
  assert (getJob env u id false w
          = getJob_db env u id (logged w1 [CLogFullError e "getJob"])) as Hrun.
  { unfold getJob. simpl. unfold mbind at 1, M_bind at 1. unfold try_catch.
    unfold mbind at 1, M_bind at 1. rewrite Hidx. rewrite Hmiss, H403.
    unfold logger_logFullError. unfold_M. reflexivity. }
  assert (getJob env u id true w = getJob_db env u id w) as Hdb
    by reflexivity.
  rewrite Hrun, Hdb, !getJob_db_result. simpl.
  destruct (readOnly_getJob_index env u id w) as (Hj & Hc & _).
  rewrite Hidx in Hj, Hc. simpl in Hj, Hc. rewrite Hj, Hc.
  split; [done|].
  destruct (getJob_db_no_index u id (logged w1 [CLogFullError e "getJob"]))
    as (cs & Ht & Hcs).
  exists cs. split; [|done]. rewrite Ht. simpl. by rewrite <- app_assoc.
Qed.

Lemma _getJobCandidates_Ok jobId w cs w' :
  _getJobCandidates env jobId w = (Ok cs, w') ->
  exists body,
    esSearch env (candidatesQuery jobId) = Ok body /\
    cs = (if hits_total body =? 0 then []
          else List.map candidateRecord (hits_hits body)).
Proof.
  unfold _getJobCandidates, esClient_search. unfold_M. simpl.
  destruct (esSearch env _) as [body|]; simpl; [|discriminate].
  exists body. split; [done|]. destruct (hits_total body =? 0); by injection H as <-.
Qed.

Lemma permission_check_Ok u pid w a w' :
  _checkUserPermissionForGetJob env u pid w = (Ok a, w') ->
  unprivilegedReader u = true ->
  checkIsMemberOfProject env (userId u) pid = Ok tt.
Proof.
  unfold _checkUserPermissionForGetJob, unprivilegedReader,
    helper_checkIsMemberOfProject.
  intros H Hu. rewrite Hu in H. revert H. unfold_M. simpl.
  by destruct (checkIsMemberOfProject env _ _) as [[]|].
Qed.


Lemma getJob_index_Ok u id w r w' :
  getJob_index env u id w = (Ok r, w') ->
  exists hit cs,
    esGet env ES_INDEX_JOB id = Ok hit /\
    (unprivilegedReader u = true ->
     checkIsMemberOfProject env (userId u) (_source hit !! "projectId") = Ok tt) /\
    (exists found,
        esSearch env (candidatesQuery (_id hit)) = Ok found /\
        cs = candidatesIn found) /\
    r = indexedJob hit cs.
Proof.
  unfold getJob_index. intros H. do 3 step_in H.
  exists a, a1. repeat split.
  - revert Hs. unfold esClient_get. unfold_M. simpl.
    destruct (esGet env ES_INDEX_JOB id); by intros [= <- _].
  - intros Hu. by eapply permission_check_Ok.
  - apply _getJobCandidates_Ok in Hs1 as (found & Hfound & ->). eauto.
  - unfold indexedJob. cbv zeta in H.
    destruct (negb (length a1 =? 0)%nat); by injection H as <- _.
Qed.

Lemma lookup_indexedJob hit cs k :
  k <> "id" -> k <> "candidates" ->
  indexedJob hit cs !! k = _source hit !! k.
Proof.
  intros H1 H2. unfold indexedJob.
  destruct (negb _); rewrite ?lookup_insert_ne by done;
    rewrite lookup_union, lookup_singleton_ne by done;
    by destruct (_source hit !! k).
Qed.

Lemma getJob_db_Ok u id w r w' :
  getJob_db env u id w = (Ok r, w') ->
  exists row,
    List.find (hasId (Some (VStr id))) (jobs w) = Some row /\
    (unprivilegedReader u = true ->
     checkIsMemberOfProject env (userId u) (row !! "projectId") = Ok tt) /\
    r = withCandidatesOf (jobCandidates w) row.
Proof.
  intros H. pose proof (getJob_db_result env u id w) as Hr.
  rewrite H in Hr. simpl in Hr. unfold getJob_db_outcome in Hr.
  destruct (dbFault env OpFindById); [discriminate|].
  destruct (find _ _) as [row|]; [|discriminate].
  exists row. split; [done|].
  destruct (unprivilegedReader u).
  - destruct (checkIsMemberOfProject env _ _) as [[]|]; [|discriminate].
    injection Hr as ->. done.
  - injection Hr as ->. done.
Qed.

Lemma getJob_Ok u id fromDb w r w' :
  getJob env u id fromDb w = (Ok r, w') ->
  (exists w0 w1, getJob_index env u id w0 = (Ok r, w1)) \/
  (exists w0, getJob_db env u id w0 = (Ok r, w') /\
              jobs w0 = jobs w /\ jobCandidates w0 = jobCandidates w).
Proof.
  unfold getJob. intros H. step_in H. destruct a as [r'|].
  - injection H as <- <-. left. destruct fromDb; simpl in Hs.
    + discriminate.
    + unfold try_catch in Hs.
      destruct ((getJob_index env u id ≫= _) w) as [[o|e] w2] eqn:Hi.
      * injection Hs as -> ->. apply bind_Ok_inv in Hi as (r0 & w3 & Hi & [= <- <-]).
        eauto.
      * revert Hs. destruct (isDocumentMissingException e); [discriminate|].
        destruct (optZ_eqb _ _); [discriminate|].
        unfold logger_logFullError. unfold_M. simpl. discriminate.
  - right. exists w0. split; [done|]. destruct fromDb; simpl in Hs.
    + by injection Hs as <-.
    + unfold try_catch in Hs.
      destruct ((getJob_index env u id ≫= _) w) as [[o|e] w2] eqn:Hi.
      * injection Hs as -> ->. by apply bind_Ok_inv in Hi as (r0 & w3 & Hi & [=]).
      * assert (jobs w2 = jobs w /\ jobCandidates w2 = jobCandidates w) as [Hj Hc].
        { assert (readOnly (getJob_index env u id ≫= fun jobRecord => mret (Some jobRecord))) as Hro.
          { apply readOnly_bind; [apply readOnly_getJob_index|]. intros. apply readOnly_ret. }
          destruct (Hro w) as (Hj & Hc & _). by rewrite Hi in Hj, Hc. }
        revert Hs. destruct (isDocumentMissingException e); [discriminate|].
        destruct (optZ_eqb _ _); [discriminate|].
        unfold logger_logFullError. unfold_M. simpl. by intros [= <-].
Qed.

(** X5 (getJob, _checkUserPermissionForGetJob): a caller without the manage
    permission, not a machine and not a connect manager, is only ever
    returned a job of a project the membership service admits them to, on
    either path. *)
Theorem getJob_only_to_members (u : User) (id : string) (fromDb : bool)
  (w w' : World) (r : Obj) :
  getJob env u id fromDb w = (Ok r, w') ->
  unprivilegedReader u = true ->
  checkIsMemberOfProject env (userId u) (r !! "projectId") = Ok tt.
Proof.
  intros H Hu. apply getJob_Ok in H as [(w0 & w1 & H)|(w0 & H & _)].
  - apply getJob_index_Ok in H as (hit & cs & _ & Hm & _ & ->).
    rewrite lookup_indexedJob by done. auto.
  - apply getJob_db_Ok in H as (row & _ & Hm & ->).
    unfold withCandidatesOf. rewrite lookup_insert_ne by done. auto.
Qed.

End Reads.


Lemma lookup_hitJob_candidates hit cs :
  hitJob hit cs !! "candidates"
  = (if (length cs =? 0)%nat then _source hit !! "candidates"
     else Some (VArr cs)).
Proof.
  unfold hitJob. destruct (length cs =? 0)%nat; simpl.
  - by rewrite lookup_insert_ne.
  - by rewrite lookup_insert_eq.
Qed.

Lemma promiseAll_map_Ok {A B} first (f : A -> M B) (l : list A) w rs w' :
  promiseAll first (List.map f l) w = (Ok rs, w') ->
  Forall2 (fun a b => exists w1 w2, f a w1 = (Ok b, w2)) l rs.
Proof.
  unfold promiseAll.
  destruct (settleAll (List.map f l) w) as [os w2] eqn:Hs.
  destruct (rejections os) eqn:Hr; [|discriminate]. intros [= <- _].
  clear w'. revert w os w2 Hs Hr.
  induction l as [|a l IH]; intros w os w2; simpl.
  - intros [= <- _] _. constructor.
  - destruct (f a w) as [r w1] eqn:Ha.
    destruct (settleAll (List.map f l) w1) as [os' w3] eqn:Hl.
    intros [= <- <-]. destruct r as [b|e]; [|discriminate].
    unfold rejections, fulfilments. cbn [omap list_omap]. intros Hr.
    constructor; [eauto|]. by eapply IH.
Qed.

Section Search.
Context (env : Env).

Lemma searchJobs_inv u c o w res w' :
  searchJobs env u c o w = (res, w') ->
  let p := positiveOr (page c) 1 in
  let pp := if returnAll o then 10000 else positiveOr (perPage c) 20 in
  let sb := stringOr (sortBy c) "id" in
  let so := stringOr (sortOrder c) "desc" in
  (exists e, searchJobs_permission env u c o w = (Throw e, w') /\ res = Throw e)
  \/
  exists w0,
    searchJobs_permission env u c o w = (Ok tt, w0) /\
    jobs w0 = jobs w /\ jobCandidates w0 = jobCandidates w /\
    ((exists r, searchJobs_index env c sb so p pp w0 = (Ok r, w') /\ res = Ok r)
     \/
     (exists e w1,
         searchJobs_index env c sb so p pp w0 = (Throw e, w1) /\
         res = Fallback.listing p pp
                 (Fallback.query env c (sb, so) p pp w))).
Proof.
  intros H p pp sb so. unfold searchJobs in H. fold p pp sb so in H.
  unfold mbind at 1, M_bind at 1 in H.
  destruct (searchJobs_permission env u c o w) as [[[]|e] w0] eqn:Hperm.
  - right. exists w0.
    destruct (readOnly_searchJobs_permission env u c o w) as (Hj0 & Hc0 & _).
    rewrite Hperm in Hj0, Hc0. simpl in Hj0, Hc0.
    repeat split; try done.
    unfold mbind at 1, M_bind at 1, try_catch in H.
    unfold mbind at 1, M_bind at 1 in H.
    destruct (searchJobs_index env c sb so p pp w0) as [[r|e] w1] eqn:Hidx.
    + left. exists r. simpl in H. by injection H as <- <-.
    + right. exists e, w1. split; [done|].
      revert H. unfold logger_logFullError. unfold_M. simpl.
      rewrite searchJobs_db_run. intros [= <- _].
      destruct (readOnly_searchJobs_index env c sb so p pp w0) as (Hj1 & Hc1 & _).
      rewrite Hidx in Hj1, Hc1. simpl in Hj1, Hc1.
      unfold Fallback.query. simpl. by rewrite Hj1, Hc1, Hj0, Hc0.
  - left. exists e. by injection H as <- <-.
Qed.

(** X7 (searchJobs): once the permission check has passed and the
    relational store has no fault, the search returns a listing whatever the
    index does; and the only errors a search ever raises are those of the
    permission check and the fault of the relational listing. *)
Theorem searchJobs_failure_modes (u : User) (c : Criteria) (o : Options)
  (w : World) :
  (forall w0,
      searchJobs_permission env u c o w = (Ok tt, w0) ->
      dbFault env OpFindAll = None ->
      exists r, (searchJobs env u c o w).1 = Ok r)
  /\
  (forall e,
      (searchJobs env u c o w).1 = Throw e ->
      (searchJobs_permission env u c o w).1 = Throw e \/
      dbFault env OpFindAll = Some e).
Proof.
  destruct (searchJobs env u c o w) as [res w'] eqn:H.
  apply searchJobs_inv in H. cbv zeta in H. simpl. split.
  - intros w0 Hperm Hdb.
    destruct H as [(e & Hp & _)|(w0' & _ & _ & _ & [(r & _ & ->)|(e & w1 & _ & ->)])].
    + rewrite Hperm in Hp. discriminate.
    + eauto.
    + unfold Fallback.listing, Fallback.query. rewrite Hdb. eauto.
  - intros e ->.
    destruct H as [(e' & Hp & [= <-])|(w0' & _ & _ & _ & [(r & _ & Hr)|(e' & w1 & _ & Hr)])].
    + left. by rewrite Hp.
    + discriminate.
    + right. revert Hr. unfold Fallback.listing, Fallback.query.
      destruct (dbFault env OpFindAll); [by intros [= ->]|discriminate].
Qed.

Lemma searchJobs_permission_Ok u c o w a w' :
  searchJobs_permission env u c o w = (Ok a, w') ->
  unprivilegedReader u = true -> returnAll o = false ->
  exists p, projectId c = Some p /\ p <> 0 /\
            checkIsMemberOfProject env (userId u) (Some (VNum p)) = Ok tt.
Proof.
  unfold searchJobs_permission, unprivilegedReader. intros H Hu Ho.
  rewrite Hu, Ho in H. revert H.
  unfold helper_checkIsMemberOfProject, truthyNum. unfold_M. simpl.
  destruct (projectId c) as [p|] eqn:Hp; simpl; [|discriminate].
  destruct (p =? 0) eqn:Hz; simpl; [discriminate|].
  intros H. exists p. repeat split; [by apply Z.eqb_neq|].
  by destruct (checkIsMemberOfProject env _ _) as [[]|].
Qed.

(** X8 (searchJobs): a caller without the manage permission, not a machine
    and not a connect manager, who does not ask for [returnAll], is returned
    a listing only when the criteria name a project and the membership
    service admits them to it. *)
Theorem searchJobs_only_to_members (u : User) (c : Criteria) (o : Options)
  (w w' : World) (r : SearchResult) :
  searchJobs env u c o w = (Ok r, w') ->
  unprivilegedReader u = true -> returnAll o = false ->
  exists p, projectId c = Some p /\ p <> 0 /\
            checkIsMemberOfProject env (userId u) (Some (VNum p)) = Ok tt.
Proof.
  intros H Hu Ho. apply searchJobs_inv in H. cbv zeta in H.
  destruct H as [(e & _ & [=])|(w0 & Hperm & _)].
  by eapply searchJobs_permission_Ok.
Qed.

Lemma hitRecord_Ok hit w r w' :
  hitRecord env hit w = (Ok r, w') ->
  exists found,
    esSearch env (candidatesQuery (_id hit)) = Ok found /\
    r = hitJob hit (candidatesIn found).
Proof.
  unfold hitRecord. intros H. step_in H.
  apply _getJobCandidates_Ok in Hs as (found & Hfound & ->).
  exists found. split; [done|]. unfold hitJob, candidatesIn.
  destruct (negb _); by injection H as <- _.
Qed.

(** X9 (searchJobs): a listing answered by the index has one record per hit
    of the search response, in the response's order, each the hit's source
    with [id] set to the document id, and with [candidates] set to what the
    candidate search for that id found, only when it found some. *)
Theorem searchJobs_index_records (u : User) (c : Criteria) (o : Options)
  (w w' : World) (r : SearchResult) :
  searchJobs env u c o w = (Ok r, w') ->
  fromDb r = None ->
  exists body,
    esSearch env
      (esQuery c (stringOr (sortBy c) "id") (stringOr (sortOrder c) "desc")
         (r_page r) (r_perPage r)) = Ok body /\
    Forall2 (fun hit x =>
               exists found,
                 esSearch env (candidatesQuery (_id hit)) = Ok found /\
                 x = hitJob hit (candidatesIn found) /\
                 x !! "candidates"
                 = (if (length (candidatesIn found) =? 0)%nat
                    then _source hit !! "candidates"
                    else Some (VArr (candidatesIn found))))
      (hits_hits body) (result r) /\
    List.map (fun x : Obj => x !! "id") (result r)
    = List.map (fun hit => Some (VStr (_id hit))) (hits_hits body).
Proof.
  intros H Hsrc. apply searchJobs_inv in H. cbv zeta in H.
  destruct H as [(e & _ & [=])|(w0 & _ & _ & _ & [(r0 & Hidx & [= <-])|(e & w1 & _ & Hr)])].
  - revert Hidx. unfold searchJobs_index, logger_debug, esClient_search.
    unfold_M. simpl.
    destruct (esSearch env _) as [body|] eqn:Hs; simpl; [|discriminate].
    destruct (promiseAll _ _) as [[rs|] w2] eqn:Hall; simpl; [|discriminate].
    intros [= <- _]. simpl. exists body. split; [done|].
    apply promiseAll_map_Ok in Hall.
    assert (Forall2 (fun hit x =>
                       exists found,
                         esSearch env (candidatesQuery (_id hit)) = Ok found /\
                         x = hitJob hit (candidatesIn found))
              (hits_hits body) rs) as HF.
    { eapply Forall2_impl; [exact Hall|].
      intros hit x (w3 & w4 & Hx). by eapply hitRecord_Ok. }
    split.
    { eapply Forall2_impl; [exact HF|].
      intros hit x (found & Hfound & ->). exists found.
      split; [done|]. split; [done|]. apply lookup_hitJob_candidates. }
    clear -HF.
    induction HF as [|hit x hits xs (found & _ & ->) _ IH]; simpl; [done|].
    f_equal; [|done]. unfold hitJob.
    destruct (negb _); rewrite ?lookup_insert_ne by done; apply lookup_insert_eq.
  - exfalso. revert Hr. unfold Fallback.listing.
    destruct (Fallback.query _ _ _ _ _ _); [|discriminate].
    intros [= ->]. discriminate.
Qed.

Lemma exactMatch_projectId row p :
  Fallback.exactMatch row "projectId" (Some (VNum p)) = true ->
  row !! "projectId" = Some (VNum p).
Proof.
  unfold Fallback.exactMatch, sqlEq.
  destruct (row !! "projectId") as [[]|]; try done.
  by intros ->%Z.eqb_eq.
Qed.

(** X10 (searchJobs): when sorting only reorders or drops rows, every record
    of a listing answered by the relational store is a stored row matching
    the criteria, together with its candidates; in particular it belongs to
    the project the criteria name. *)
Theorem searchJobs_fallback_rows (u : User) (c : Criteria) (o : Options)
  (w w' : World) (r : SearchResult) :
  (forall sort rows x, In x (sqlOrder env sort rows) -> In x rows) ->
  searchJobs env u c o w = (Ok r, w') ->
  fromDb r = Some true ->
  forall x, In x (result r) ->
    exists row,
      In row (jobs w) /\
      Fallback.matches c row = true /\
      x = withCandidatesOf (jobCandidates w) row /\
      (forall p, projectId c = Some p -> x !! "projectId" = Some (VNum p)).
Proof.
  intros Hsort H Hsrc x Hx. apply searchJobs_inv in H. cbv zeta in H.
  destruct H as [(e & _ & [=])|(w0 & _ & _ & _ & [(r0 & Hidx & [= <-])|(e & w1 & _ & Hr)])].
  - apply searchJobs_index_Ok in Hidx as (Hn & _). congruence.
  - revert Hr. unfold Fallback.listing, Fallback.query.
    destruct (dbFault env OpFindAll); [discriminate|].
    intros [= ->]. simpl in Hx.
    apply in_map_iff in Hx as (row & <- & Hrow).
    apply list_elem_of_In in Hrow. apply elem_of_take in Hrow as (i & Hrow & _).
    apply list_elem_of_lookup_2 in Hrow. 
    apply list_elem_of_In in Hrow.
    assert (In row
              (sqlOrder env (stringOr (sortBy c) "id", stringOr (sortOrder c) "desc")
                 (List.filter (Fallback.matches c) (jobs w)))) as Hin.
    { apply list_elem_of_In. apply list_elem_of_In in Hrow.
      eapply (subseteq_drop _ _ _ Hrow). }
    apply Hsort in Hin. apply filter_In in Hin as [Hin Hmatch].
    exists row. repeat split; try done.
    intros p Hp. rewrite lookup_withCandidatesOf_ne by done.
    apply exactMatch_projectId. revert Hmatch. unfold Fallback.matches.
    rewrite Hp. simpl. rewrite !andb_true_iff. tauto.
Qed.

End Search.



Lemma sameValue_eq a b : sameValue a b = true -> a = b.
Proof.
  unfold sameValue, strictEq. destruct a, b; try done.
  - by intros ->%Bool.eqb_prop.
  - by intros ->%Z.eqb_eq.
  - by intros ->%String.eqb_eq.
Qed.

Lemma allDistinct_filter f l :
  allDistinct l = true -> allDistinct (List.filter f l) = true.
Proof.
  induction l as [|x l IH]; simpl; [done|].
  intros [Hx Hl]%andb_true_iff. destruct (f x); simpl; [|auto].
  rewrite IH by done. rewrite andb_true_r.
  clear -Hx. induction l as [|y l IH]; simpl in *; [done|].
  apply andb_true_iff in Hx as [Hy Hl]. destruct (f y); simpl; [|auto].
  by rewrite Hy, IH.
Qed.

Lemma forallb_filter_same {A} (f : A -> bool) (l : list A) :
  forallb f (List.filter f l) = true.
Proof.
  induction l as [|y l IH]; simpl; [done|].
  destruct (f y) eqn:Hy; simpl; [|done]. by rewrite Hy.
Qed.

Lemma allDistinct_uniq l : allDistinct (uniq l) = true.
Proof.
  induction l as [|x l IH]; simpl; [done|].
  rewrite allDistinct_filter by done. rewrite andb_true_r.
  apply forallb_filter_same.
Qed.

Lemma existsb_filter_other v x r :
  sameValue v x = false ->
  existsb (sameValue v) (List.filter (fun y => negb (sameValue x y)) r)
  = existsb (sameValue v) r.
Proof.
  intros Hvx. induction r as [|y r IHr]; simpl; [done|].
  destruct (sameValue x y) eqn:Hxy; simpl.
  - rewrite IHr. destruct (sameValue v y) eqn:Hvy; [|done].
    apply sameValue_eq in Hxy. subst y. congruence.
  - by rewrite IHr.
Qed.

Lemma existsb_uniq v l :
  existsb (sameValue v) (uniq l) = existsb (sameValue v) l.
Proof.
  induction l as [|x l IH]; simpl; [done|].
  destruct (sameValue v x) eqn:Hvx; simpl; [done|].
  by rewrite existsb_filter_other.
Qed.

Lemma difference_nil roles found :
  difference roles found = []
  <-> forallb (fun r => existsb (sameValue r) found) roles = true.
Proof.
  unfold difference. induction roles as [|r roles IH]; simpl; [done|].
  destruct (existsb (sameValue r) found); simpl; [done|].
  split; discriminate.
Qed.

Section Validators.
Context (env : Env).

Lemma _validateSkills_eval (skills : list Value) (w : World) :
  _validateSkills env skills w
  = (match lookupErrors env skills with
     | e :: es => Throw (nth (settlesFirst env (e :: es)) (e :: es) e)
     | [] =>
         if existsb (skillMissing env) skills
         then Throw (errors.BadRequestError (invalidSkills env skills))
         else Ok tt
     end,
     logged w (List.map CGetSkillById skills)).
Proof.
  unfold _validateSkills. unfold mbind, M_bind.
  rewrite promiseAll_skillResponse_outcome.
  destruct (lookupErrors env skills); [|done].
  unfold invalidSkills. rewrite <- errResponses_missing.
  set (errs := List.filter _ _).
  assert (existsb (skillMissing env) skills = negb (length errs =? 0)%nat) as ->.
  { subst errs. induction skills as [|s skills IH]; simpl; [done|].
    rewrite negb_involutive. destruct (skillMissing env s); simpl; done. }
  by destruct (negb _).
Qed.

Lemma allFound_iff skills :
  allFound env skills = true
  <-> lookupErrors env skills = [] /\
      existsb (skillMissing env) skills = false.
Proof.
  unfold allFound. induction skills as [|s skills IH]; [done|].
  rewrite lookupErrors_cons. cbn [forallb existsb].
  unfold lookupOutcome, skillMissing at 1.
  destruct (getSkillById env s) as [[]|e]; simpl.
  - by rewrite IH.
  - destruct (optZ_eqb (status e) HttpStatus.NOT_FOUND); simpl.
    + split; [done|]. by intros [_ ?].
    + split; [done|]. by intros [? _].
Qed.

Lemma _validateSkills_Ok skills w a w' :
  _validateSkills env skills w = (Ok a, w') -> allFound env skills = true.
Proof.
  rewrite _validateSkills_eval. intros H. apply allFound_iff.
  destruct (lookupErrors env skills); [|discriminate].
  by destruct (existsb _ _).
Qed.

Lemma In_lookupErrors skills e :
  In e (lookupErrors env skills)
  <-> exists s, In s skills /\ getSkillById env s = Throw e /\
                optZ_eqb (status e) HttpStatus.NOT_FOUND = false.
Proof.
  induction skills as [|s skills IH].
  - split; [intros []|]. by intros (s & [] & _).
  - rewrite lookupErrors_cons.
    destruct (lookupOutcome env s) as [r|e0] eqn:Ho.
    + rewrite IH. split.
      * intros (s' & Hin & H). exists s'. split; [by right|done].
      * intros (s' & [<-|Hin] & H); [|eauto].
        apply lookupOutcome_Throw in H. congruence.
    + cbn [In]. rewrite IH. split.
      * intros [<-|(s' & Hin & H)].
        -- exists s. split; [by left|]. by apply lookupOutcome_Throw.
        -- exists s'. split; [by right|done].
      * intros (s' & [<-|Hin] & H); [|right; eauto].
        apply lookupOutcome_Throw in H. left. congruence.
Qed.

Lemma nth_head_In {A} (n : nat) (x : A) (l : list A) :
  In (nth n (x :: l) x) (x :: l).
Proof.
  destruct (lt_dec n (length (x :: l))) as [Hn|Hn].
  - by apply nth_In.
  - rewrite nth_overflow by lia. by left.
Qed.

(** X19 (_validateSkills): every skill is looked up, in the order of the
    list, whatever the answers; the validation passes exactly when every
    lookup answers; when some lookups fail with something other than a 404
    it raises the error of one of them, the one that settles first, which
    need not be the first of the list; otherwise it names the skills that
    were not found in a 400. *)
Theorem validateSkills_outcome (skills : list Value) (w : World) :
  (_validateSkills env skills w).2 = logged w (List.map CGetSkillById skills)
  /\
  ((_validateSkills env skills w).1 = Ok tt <-> allFound env skills = true)
  /\
  (forall e es,
      lookupErrors env skills = e :: es ->
      (_validateSkills env skills w).1
      = Throw (nth (settlesFirst env (e :: es)) (e :: es) e) /\
      exists s e',
        In s skills /\ getSkillById env s = Throw e' /\
        optZ_eqb (status e') HttpStatus.NOT_FOUND = false /\
        (_validateSkills env skills w).1 = Throw e')
  /\
  (lookupErrors env skills = [] ->
   existsb (skillMissing env) skills = true ->
   (_validateSkills env skills w).1
   = Throw (errors.BadRequestError (invalidSkills env skills))).
Proof.
  rewrite _validateSkills_eval. cbn [fst snd]. split; [done|].
  rewrite allFound_iff. split; [|split].
  - destruct (lookupErrors env skills).
    + destruct (existsb _ _); split; try done. by intros [_ ?].
    + split; [done|]. by intros [? _].
  - intros e es He.
    assert (In (nth (settlesFirst env (e :: es)) (e :: es) e)
              (lookupErrors env skills)) as Hin
      by (rewrite He; apply nth_head_In).
    rewrite He. split; [done|].
    apply In_lookupErrors in Hin as (s & Hs & Hget & H404).
    exists s, (nth (settlesFirst env (e :: es)) (e :: es) e). done.
  - by intros -> ->.
Qed.

(** X20 (_validateRoles): when the role query answers, the validation
    passes exactly when every requested role is among the roles found, and
    it issues that one query either way. *)
Theorem validateRoles_outcome (roles found : list Value) (w : World) :
  roleFindAll env roles = Ok found ->
  ((_validateRoles env roles w).1 = Ok tt
   <-> forallb (fun r => existsb (sameValue r) found) roles = true) /\
  (_validateRoles env roles w).2 = logged w [CRoleFindAll roles].
Proof.
  intros H. rewrite (_validateRoles_run env roles found) by done. simpl.
  split; [|done]. rewrite <- difference_nil.
  destruct (difference roles found); simpl; split; done.
Qed.

Lemma _validateRoles_Ok roles w a w' :
  _validateRoles env roles w = (Ok a, w') ->
  exists found, roleFindAll env roles = Ok found /\ difference roles found = [].
Proof.
  unfold _validateRoles, Role_findAll. unfold_M. simpl.
  destruct (roleFindAll env roles) as [found|]; simpl; [|discriminate].
  destruct (difference roles found) eqn:Hd; simpl; [eauto|discriminate].
Qed.

Lemma roles_step_rolesPass (data : Obj) w d w' :
  (if truthy (data !! "roleIds")
   then _validateRoles env (uniqOf (data !! "roleIds"));;
        mret (<["roleIds" := VArr (uniqOf (data !! "roleIds"))]> data)
   else mret data) w = (Ok d, w') ->
  rolesPass env data.
Proof.
  unfold rolesPass. destruct (truthy _); [|auto].
  intros H. apply bind_Ok_inv in H as ([] & w1 & H & _).
  right. by eapply _validateRoles_Ok.
Qed.

Lemma skills_step_skillsPass (data : Obj) w a w' :
  (if truthy (data !! "skills")
   then skills ← arrayOf (data !! "skills"); _validateSkills env skills
   else mret tt) w = (Ok a, w') ->
  skillsPass env data.
Proof.
  unfold skillsPass. destruct (truthy _); [|auto].
  intros H. apply bind_Ok_inv in H as (skills & w1 & Ha & H).
  right. exists skills. split.
  - revert Ha. unfold arrayOf. destruct (data !! "skills") as [[]|]; try done.
    by intros [= <- _].
  - by eapply _validateSkills_Ok.
Qed.

Lemma member_step_Ok (u : User) (pid : option Value) w a w' :
  (if negb (hasManagePermission u) && negb (isMachine u)
   then helper_checkIsMemberOfProject env (userId u) pid
   else mret tt) w = (Ok a, w') ->
  privilegedWriter u = true \/
  checkIsMemberOfProject env (userId u) pid = Ok tt.
Proof.
  unfold privilegedWriter.
  destruct (hasManagePermission u); [auto|]. destruct (isMachine u); [auto|].
  cbn [negb andb orb]. unfold helper_checkIsMemberOfProject. unfold_M. simpl.
  destruct (checkIsMemberOfProject env _ _) as [[]|]; [auto|discriminate].
Qed.

(** X12 (createJob): a create succeeds only if the caller is privileged or a
    member of the payload's project, the application page flag is absent or
    the caller is a machine, [skills] is an array whose lookups all answer,
    the roles (if any) were all found, the store accepts the insert and the
    publication succeeds. *)
Theorem createJob_requires (u : User) (job : Obj) (w w1 : World)
  (created : Obj) :
  createJob env u job w = (Ok created, w1) ->
  (privilegedWriter u = true \/
   checkIsMemberOfProject env (userId u) (job !! "projectId") = Ok tt) /\
  (isUndefined (job !! "isApplicationPageActive") = true \/
   isMachine u = true) /\
  (exists skills, job !! "skills" = Some (VArr skills) /\
                  allFound env skills = true) /\
  rolesPass env job /\
  dbFault env OpCreate = None /\
  postEvent env TAAS_JOB_CREATE_TOPIC created None = Ok tt.
Proof.
  unfold createJob. intros H. do 9 step_in H. injection H as <- <-.
  apply member_step_Ok in Hs.
  apply guard_Ok in Hs0 as [Hflag _]. apply flag_check_false in Hflag.
  apply roles_step_rolesPass in Hs3 as Hroles.
  apply _validateSkills_Ok in Hs2.
  destruct a7. apply helper_postEvent_Ok in Hs7 as [Hbus _].
  repeat split; try done.
  - exists a1. split; [|done]. revert Hs1. unfold arrayOf.
    destruct (job !! "skills") as [[]|]; try done. by intros [= <- _].
  - revert Hs6. unfold Job_create, fault. unfold_M. simpl.
    by destruct (dbFault env OpCreate).
Qed.

(** X13 (createJob, _validateRoles): the [roleIds] a successful create
    stores are those of the payload without repetitions, and all of them
    exist. *)
Theorem createJob_roleIds (u : User) (job : Obj) (w w1 : World)
  (created : Obj) (roles : list Value) :
  createJob env u job w = (Ok created, w1) ->
  job !! "roleIds" = Some (VArr roles) ->
  exists stored,
    created !! "roleIds" = Some (VArr stored) /\
    allDistinct stored = true /\
    (forall v, existsb (sameValue v) stored = existsb (sameValue v) roles) /\
    exists found, roleFindAll env stored = Ok found /\
                  forallb (fun r => existsb (sameValue r) found) stored = true.
Proof.
  intros H Hroles.
  assert (rolesPass env job) as Hpass.
  { revert H. unfold createJob. intros H. do 4 step_in H.
    step_in H. by apply roles_step_rolesPass in Hs3. }
  apply createJob_Ok in H as (uid & _ & -> & _).
  exists (uniq roles). unfold createdRow, withUniqueRoles.
  rewrite Hroles. simpl. rewrite !lookup_insert_ne by done.
  rewrite lookup_insert_eq. repeat split.
  - apply allDistinct_uniq.
  - intros v. apply existsb_uniq.
  - destruct Hpass as [Hf|(found & Hr & Hd)].
    + by rewrite Hroles in Hf.
    + rewrite Hroles in Hr, Hd. simpl in Hr, Hd.
      exists found. split; [done|]. by apply difference_nil.
Qed.

End Validators.

Section More.
Context (env : Env).

(** X16 (updateJob): an update succeeds only if the skills and the roles of
    the payload (if any) are valid, the store answers the lookup and the
    update, the row exists, the caller's user id resolves and the
    publication of the patched row succeeds. *)
Theorem updateJob_requires (u : User) (id : string) (data : Obj)
  (w w1 : World) (r : Obj) :
  updateJob env u id data w = (Ok r, w1) ->
  skillsPass env data /\ rolesPass env data /\
  dbFault env OpFindById = None /\ dbFault env OpUpdate = None /\
  exists row uid,
    List.find (hasId (Some (VStr id))) (jobs w) = Some row /\
    getUserId env (userId u) = Ok uid /\
    postEvent env TAAS_JOB_UPDATE_TOPIC (updatePatch uid data ∪ row) (Some row)
    = Ok tt.
Proof.
  unfold updateJob. intros H. do 9 step_in H. injection H as <- <-.
  apply skills_step_skillsPass in Hs as Hskills.
  apply roles_step_rolesPass in Hs0 as Hroles.
  apply roles_step_Ok in Hs0 as Hd. subst a0.
  apply run_readOnly in Hs as (Hj & _); [|readOnly_tac].
  apply run_readOnly in Hs0 as (Hj0 & _); [|readOnly_tac].
  apply Job_findById_Ok in Hs1 as (Hf & row & Hrow & -> & ->).
  apply guard_Ok in Hs2 as [_ ->].
  apply helper_getUserId_Ok in Hs3 as [Huid ->].
  apply creator_check_Ok in Hs4 as [_ ->].
  assert (dbFault env OpUpdate = None) as Hu.
  { revert Hs5. unfold Job_update, fault. unfold_M. simpl.
    by destruct (dbFault env OpUpdate). }
  apply Job_update_Ok in Hs5 as [-> ->].
  destruct a6. apply helper_postEvent_Ok in Hs6 as [Hbus _].
  repeat split; try done.
  exists row, a3. rewrite <- Hj, <- Hj0. done.
Qed.

(** X6 (getJob): when the index path succeeds, so does the call, with the
    same record: the source of the document key by key, an [id] of its own
    taking precedence over the document id, and [candidates] replaced by
    what the candidate search for the document id found, only when it found
    some. *)
Theorem getJob_index_record (u : User) (id : string) (w w' : World) (r : Obj) :
  getJob_index env u id w = (Ok r, w') ->
  getJob env u id false w = (Ok r, w') /\
  exists hit found,
    esGet env ES_INDEX_JOB id = Ok hit /\
    esSearch env (candidatesQuery (_id hit)) = Ok found /\
    r = indexedJob hit (candidatesIn found) /\
    r !! "id" = Some (default (VStr (_id hit)) (_source hit !! "id")) /\
    (forall k, k <> "id" -> k <> "candidates" -> r !! k = _source hit !! k) /\
    r !! "candidates"
    = (if (length (candidatesIn found) =? 0)%nat
       then _source hit !! "candidates"
       else Some (VArr (candidatesIn found))).
Proof.
  intros H. split.
  - unfold getJob. simpl. unfold mbind at 1, M_bind at 1, try_catch.
    unfold mbind at 1, M_bind at 1. by rewrite H.
  - apply getJob_index_Ok
      in H as (hit & cs & Hget & _ & (found & Hfound & ->) & ->).
    exists hit, found. split; [done|]. split; [done|]. split; [done|].
    set (cs := candidatesIn found). repeat split.
    + unfold indexedJob. destruct (negb _);
        rewrite ?lookup_insert_ne by done;
        rewrite lookup_union, lookup_singleton_eq;
        by destruct (_source hit !! "id").
    + intros k H1 H2. by apply lookup_indexedJob.
    + unfold indexedJob. destruct (length cs =? 0)%nat; simpl.
      * rewrite lookup_union, lookup_singleton_ne by done.
        by destruct (_source hit !! "candidates").
      * by rewrite lookup_insert_eq.
Qed.

(** X1 (getJob, searchJobs): the two reads leave both tables as they are and
    issue neither a relational write nor an event, whatever they answer. *)
Theorem reads_never_write (u : User) :
  (forall id fromDb, readOnly (getJob env u id fromDb)) /\
  (forall c o, readOnly (searchJobs env u c o)).
Proof.
  split; intros; [apply getJob_readOnly|apply searchJobs_readOnly].
Qed.

(** X2 (getJob from the store, createJob, updateJob, deleteJob): none of
    them calls the index, whatever they answer. *)
Theorem relational_operations_skip_index (u : User) :
  (forall id, confined notIndexCall (getJob env u id true)) /\
  (forall job, confined notIndexCall (createJob env u job)) /\
  (forall id data, confined notIndexCall (updateJob env u id data)) /\
  (forall id, confined notIndexCall (deleteJob env u id)).
Proof.
  repeat split; intros.
  - apply getJob_fromDb_no_index.
  - apply createJob_no_index.
  - apply updateJob_no_index.
  - apply deleteJob_no_index.
Qed.

(** X3 (getJob, searchJobs): a read by a caller with the manage permission,
    a machine or a connect manager, and any [returnAll] listing, never asks
    the membership service. *)
Theorem reads_skip_membership (u : User) :
  (unprivilegedReader u = false ->
   forall id fromDb, confined notMembershipCall (getJob env u id fromDb)) /\
  (forall c o,
      unprivilegedReader u = false \/ returnAll o = true ->
      confined notMembershipCall (searchJobs env u c o)).
Proof.
  unfold unprivilegedReader. split.
  - intros Hu id fromDb.
    unfold getJob, getJob_index, getJob_db, _checkUserPermissionForGetJob.
    rewrite Hu. confined_tac.
  - intros c o Hu. unfold searchJobs, searchJobs_permission.
    assert (negb (hasManagePermission u) && negb (isMachine u)
            && negb (isConnectManager u) && negb (returnAll o) = false) as ->.
    { destruct Hu as [->| ->]; [done|]. by rewrite andb_false_r. }
    confined_tac.
Qed.

End More.

(** * TeamEventHandler: what is published, and when *)

Import TeamEventHandler.

Lemma lookup_pick (m : Obj) (keys : list string) (k : string) (x : Value) :
  pick (Some (VObj m)) keys !! k = Some x -> In k keys /\ m !! k = Some x.
Proof.
  unfold pick. induction keys as [|k0 keys IH]; cbn [foldr].
  - by rewrite lookup_empty.
  - destruct (m !! k0) as [x0|] eqn:Hk0.
    + destruct (decide (k = k0)) as [->|Hne].
      * rewrite lookup_insert_eq. intros [= <-]. split; [by left|done].
      * rewrite lookup_insert_ne by done. intros H.
        destruct (IH H). split; [by right|done].
    + intros H. destruct (IH H). split; [by right|done].
Qed.

Lemma pick_onlyKeys (v : option Value) (keys : list string) :
  onlyKeys keys (VObj (pick v keys)).
Proof.
  exists (pick v keys). split; [done|]. intros k [x Hx].
  destruct v as [[]|]; try (by cbn [pick] in Hx; rewrite lookup_empty in Hx).
  by destruct (lookup_pick _ _ _ _ Hx).
Qed.

Lemma lookup_details (from sg : option Value) (recipients data : Value) :
  let details : Obj :=
    setKey "from" from
      (setKey "sendgridTemplateId" sg
         {[ "recipients" := recipients; "data" := data;
            "version" := VStr "v3" ]}) in
  details !! "recipients" = Some recipients /\
  details !! "data" = Some data.
Proof.
  destruct from, sg; cbn [setKey]; split;
    rewrite ?lookup_insert_ne by done; by rewrite lookup_insert_eq.
Qed.

Lemma lookup_data (subject teamName : option Value) (jobList : Value) :
  let data : Obj :=
    setKey "subject" subject
      (setKey "teamName" teamName
         {[ "jobList" := jobList;
            "notificationType" := VObj {[ "newTeamCreated" := VBool true ]};
            "description" := VStr descriptionText ]}) in
  data !! "jobList" = Some jobList.
Proof.
  destruct subject, teamName; cbn [setKey];
    rewrite ?lookup_insert_ne by done; by rewrite lookup_insert_eq.
Qed.

Lemma recipientsOf_message (email details : Obj) :
  email !! "details" = Some (VObj details) ->
  recipientsOf {[ "notifications" := VArr [VObj email] ]}
  = details !! "recipients".
Proof.
  intros H. unfold recipientsOf. rewrite lookup_singleton_eq.
  cbv beta iota. by rewrite H.
Qed.

Lemma jobListOf_message (email details data : Obj) :
  email !! "details" = Some (VObj details) ->
  details !! "data" = Some (VObj data) ->
  jobListOf {[ "notifications" := VArr [VObj email] ]} = data !! "jobList".
Proof.
  intros H H'. unfold jobListOf. rewrite lookup_singleton_eq.
  cbv beta iota. by rewrite H, H'.
Qed.

Lemma emailData_shape template payload email :
  emailData template payload = Ok email ->
  exists project members jobs,
    getProp (Some payload) "project" = Ok project /\
    getProp project "members" = Ok members /\
    getProp (Some payload) "jobs" = Ok jobs /\
    recipientsOf {[ "notifications" := VArr [VObj email] ]}
    = Some (VArr (List.map (fun m => VObj (pick m ["email"]))
                    (elementsOf members))) /\
    jobListOf {[ "notifications" := VArr [VObj email] ]}
    = Some (VArr (List.map
                    (fun j => VObj (pick j ["title"; "duration"; "startDate"]))
                    (elementsOf jobs))).
Proof.
  unfold emailData, bindR.
  destruct (getProp template "from") as [from|]; [|discriminate].
  destruct (getProp (Some payload) "project") as [project|] eqn:Hp;
    [|discriminate].
  destruct (getProp project "members") as [members|] eqn:Hm; [|discriminate].
  destruct (getProp template "subject") as [subject|]; [|discriminate].
  destruct (getProp project "name") as [teamName|]; [|discriminate].
  destruct (getProp (Some payload) "jobs") as [jobs|] eqn:Hj; [|discriminate].
  destruct (getProp template "sendgridTemplateId") as [sg|]; [|discriminate].
  intros [= <-]. exists project, members, jobs.
  split; [done|]. split; [done|]. split; [done|].
  match goal with
  | |- context [ VObj (setKey "from" from (setKey "sendgridTemplateId" sg
                   (<["recipients" := ?r]> (<["data" := ?d]> ?rest)))) ] =>
      destruct (lookup_details from sg r d) as [Hr Hd]
  end.
  split.
  - erewrite recipientsOf_message; [exact Hr|].
    rewrite !lookup_insert_ne by done. by rewrite lookup_singleton_eq.
  - erewrite jobListOf_message; [apply lookup_data| |exact Hd].
    rewrite !lookup_insert_ne by done. by rewrite lookup_singleton_eq.
Qed.

(** X21 (sendNotificationEmail): whatever the payload holds, a message the
    handler publishes lists one recipient per project member, carrying
    nothing but the member's [email], and one entry per job, carrying nothing
    but its [title], [duration] and [startDate]. *)
Theorem notification_discloses (template : option Value)
  (bus : Obj -> Result unit) (payload : Value) (message : Obj) :
  In (EPostEvent message) (sendNotificationEmail template bus payload).2 ->
  exists recipients jobList,
    recipientsOf message = Some (VArr recipients) /\
    jobListOf message = Some (VArr jobList) /\
    Forall (onlyKeys ["email"]) recipients /\
    Forall (onlyKeys ["title"; "duration"; "startDate"]) jobList /\
    exists project members jobs,
      getProp (Some payload) "project" = Ok project /\
      getProp project "members" = Ok members /\
      getProp (Some payload) "jobs" = Ok jobs /\
      length recipients = length (elementsOf members) /\
      length jobList = length (elementsOf jobs).
Proof.
  unfold sendNotificationEmail.
  destruct (emailData template payload) as [email|e] eqn:He; [|intros []].
  destruct (emailData_shape _ _ _ He)
    as (project & members & jobs & Hp & Hm & Hj & Hr & Hl).
  assert (forall m, EPostEvent message
                    = EPostEvent {[ "notifications" := VArr [VObj email] ]}
                    \/ m -> m \/
          message = {[ "notifications" := VArr [VObj email] ]}) as Hcase.
  { intros m [[= ->]|H]; [by right|by left]. }
  intros Hin.
  assert (message = {[ "notifications" := VArr [VObj email] ]}) as ->.
  { destruct (bus _); [destruct (debugMessage payload)|];
      cbn [snd In] in Hin; intuition congruence. }
  eexists _, _. split; [exact Hr|]. split; [exact Hl|].
  split; [|split].
  - apply Forall_forall. intros x Hx. apply list_elem_of_In in Hx.
    apply in_map_iff in Hx as (m & <- & _). apply pick_onlyKeys.
  - apply Forall_forall. intros x Hx. apply list_elem_of_In in Hx.
    apply in_map_iff in Hx as (m & <- & _). apply pick_onlyKeys.
  - exists project, members, jobs. by rewrite !length_map.
Qed.

(** X22 (processCreate, sendNotificationEmail): the handler either fails
    before publishing anything, or publishes once and fails with the error
    of the publication without logging, or publishes once, logs once and
    succeeds; and without a template it raises a [TypeError] and publishes
    nothing. *)
Theorem processCreate_outcomes (template : option Value)
  (bus : Obj -> Result unit) (payload : Value) :
  ((exists e, processCreate template bus payload = (Throw e, []))
   \/
   (exists message e,
       bus message = Throw e /\
       processCreate template bus payload = (Throw e, [EPostEvent message]))
   \/
   (exists message text,
       bus message = Ok tt /\
       processCreate template bus payload
       = (Ok tt, [EPostEvent message; ELogDebug text])))
  /\
  (template = None \/ template = Some VNull ->
   exists text,
     processCreate template bus payload = (Throw (TypeError text), [])).
Proof.
  unfold processCreate, sendNotificationEmail. split.
  - destruct (emailData template payload) as [email|e] eqn:He; [|eauto].
    destruct (bus _) as [[]|e] eqn:Hbus; [|eauto 6].
    destruct (emailData_shape _ _ _ He)
      as (project & members & jobs & Hp & Hm & Hj & _).
    unfold debugMessage, bindR. rewrite Hp, Hj.
    destruct project as [[]|]; try discriminate Hm; cbn [getProp];
      right; right; eauto.
  - intros [-> | ->]; cbn [emailData bindR getProp]; eauto.
Qed.

(** ** The properties above on the fixtures *)

Lemma reads_skip_membership_witness :
  confined notMembershipCall
    (getJob Sample.envUp Sample.admin "j1" false).
Proof.
  apply (proj1 (reads_skip_membership Sample.envUp Sample.admin)).
  reflexivity.
Defined.

Lemma getJob_falls_back_witness :
  exists e w1,
    getJob_index Sample.envIndexDown Sample.admin "j1" Sample.world
    = (Throw e, w1) /\
    (getJob Sample.envIndexDown Sample.admin "j1" false Sample.world).1
    = (getJob Sample.envIndexDown Sample.admin "j1" true Sample.world).1.
Proof.
  destruct (getJob_index Sample.envIndexDown Sample.admin "j1" Sample.world)
    as [[r|e] w1] eqn:H.
  - vm_compute in H. discriminate H.
  - exists e, w1. split; [reflexivity|].
    assert (e = Sample.unavailable) as He.
    { vm_compute in H. injection H as <- _. reflexivity. }
    subst e.
    apply (getJob_falls_back _ _ _ _ _ _ H); reflexivity.
Defined.

Lemma getJob_only_to_members_witness :
  exists r w',
    getJob Sample.envUp Sample.member "j1" false Sample.world = (Ok r, w') /\
    checkIsMemberOfProject Sample.envUp (userId Sample.member)
      (r !! "projectId") = Ok tt.
Proof.
  destruct (getJob Sample.envUp Sample.member "j1" false Sample.world)
    as [[r|e] w'] eqn:H.
  - exists r, w'. split; [reflexivity|].
    apply (getJob_only_to_members _ _ _ _ _ _ _ H). reflexivity.
  - vm_compute in H. discriminate H.
Defined.

Lemma getJob_index_record_witness :
  exists r w',
    getJob_index Sample.envUp Sample.admin "j1" Sample.world = (Ok r, w') /\
    getJob Sample.envUp Sample.admin "j1" false Sample.world = (Ok r, w').
Proof.
  destruct (getJob_index Sample.envUp Sample.admin "j1" Sample.world)
    as [[r|e] w'] eqn:H.
  - exists r, w'. split; [reflexivity|].
    exact (proj1 (getJob_index_record _ _ _ _ _ _ H)).
  - vm_compute in H. discriminate H.
Defined.

Lemma searchJobs_failure_modes_witness :
  exists r,
    (searchJobs Sample.envIndexDown Sample.admin Sample.noCriteria
       {| returnAll := false |} Sample.world).1 = Ok r.
Proof.
  apply (proj1 (searchJobs_failure_modes Sample.envIndexDown Sample.admin
                  Sample.noCriteria {| returnAll := false |} Sample.world)
           Sample.world); reflexivity.
Defined.

Lemma searchJobs_only_to_members_witness :
  exists p,
    projectId Sample.twoPerPage = Some p /\ p <> 0 /\
    checkIsMemberOfProject Sample.envUp (userId Sample.member)
      (Some (VNum p)) = Ok tt.
Proof.
  destruct (searchJobs Sample.envUp Sample.member Sample.twoPerPage
              {| returnAll := false |} Sample.world) as [[r|e] w'] eqn:H.
  - apply (searchJobs_only_to_members _ _ _ _ _ _ _ H); reflexivity.
  - vm_compute in H. discriminate H.
Defined.

Lemma searchJobs_index_records_witness :
  exists r w',
    searchJobs Sample.envUp Sample.admin Sample.noCriteria
      {| returnAll := false |} Sample.world = (Ok r, w') /\
    List.map (fun x : Obj => x !! "id") (result r) = [Some (VStr "j1")].
Proof.
  destruct (searchJobs Sample.envUp Sample.admin Sample.noCriteria
              {| returnAll := false |} Sample.world) as [[r|e] w'] eqn:H.
  - exists r, w'. split; [reflexivity|].
    assert (fromDb r = None) as Hsrc.
    { pose proof H as H'. vm_compute in H'. injection H' as <- _.
      reflexivity. }
    destruct (searchJobs_index_records _ _ _ _ _ _ _ H Hsrc)
      as (body & Hb & _ & Hids).
    rewrite Hids. simpl in Hb. injection Hb as <-. reflexivity.
  - vm_compute in H. discriminate H.
Defined.

Lemma searchJobs_fallback_rows_witness :
  exists r w',
    searchJobs Sample.envIndexDown Sample.admin Sample.twoPerPage
      {| returnAll := false |} Sample.world = (Ok r, w') /\
    forall x, In x (result r) -> x !! "projectId" = Some (VNum 7).
Proof.
  destruct (searchJobs Sample.envIndexDown Sample.admin Sample.twoPerPage
              {| returnAll := false |} Sample.world) as [[r|e] w'] eqn:H.
  - exists r, w'. split; [reflexivity|].
    assert (fromDb r = Some true) as Hsrc.
    { pose proof H as H'. vm_compute in H'. injection H' as <- _.
      reflexivity. }
    intros x Hx.
    destruct (searchJobs_fallback_rows Sample.envIndexDown _ _ _ _ _ _
                (fun _ _ _ Hin => Hin) H Hsrc x Hx)
      as (row & _ & _ & _ & Hp).
    apply Hp. reflexivity.
  - vm_compute in H. discriminate H.
Defined.

Lemma createJob_returns_witness :
  createJob Sample.envUp Sample.admin Sample.newJob Sample.world
  = (Ok Sample.created, Sample.afterCreate) /\
  jobs Sample.afterCreate = jobs Sample.world ++ [Sample.created].
Proof.
  assert (createJob Sample.envUp Sample.admin Sample.newJob Sample.world
          = (Ok Sample.created, Sample.afterCreate)) as H
    by (vm_compute; reflexivity).
  split; [exact H|].
  destruct (createJob_returns _ _ _ _ _ _ H)
    as (uid & _ & _ & _ & _ & _ & Hj & _).
  exact Hj.
Defined.

Lemma createJob_requires_witness :
  createJob Sample.envUp Sample.admin Sample.newJob Sample.world
  = (Ok Sample.created, Sample.afterCreate) /\
  exists skills,
    Sample.newJob !! "skills" = Some (VArr skills) /\
    allFound Sample.envUp skills = true.
Proof.
  assert (createJob Sample.envUp Sample.admin Sample.newJob Sample.world
          = (Ok Sample.created, Sample.afterCreate)) as H
    by (vm_compute; reflexivity).
  split; [exact H|].
  destruct (createJob_requires _ _ _ _ _ _ H) as (_ & _ & Hs & _).
  exact Hs.
Defined.

Lemma createJob_roleIds_witness :
  exists created w' stored,
    createJob Sample.envUp Sample.admin Fixture.rolesJob Sample.world
    = (Ok created, w') /\
    created !! "roleIds" = Some (VArr stored) /\
    allDistinct stored = true.
Proof.
  destruct (createJob Sample.envUp Sample.admin Fixture.rolesJob Sample.world)
    as [[created|e] w'] eqn:H.
  - destruct (createJob_roleIds _ _ _ _ _ _ [VStr "r1"; VStr "r1"] H)
      as (stored & Hs & Hd & _); [vm_compute; reflexivity|].
    exists created, w', stored. split; [reflexivity|]. split; assumption.
  - vm_compute in H. discriminate H.
Defined.

Lemma createJob_then_getJob_witness :
  (getJob Sample.envUp Sample.admin (uuid Sample.envUp 0) true
     Sample.afterCreate).1
  = Ok (withCandidatesOf (jobCandidates Sample.world) Sample.created).
Proof.
  assert (createJob Sample.envUp Sample.admin Sample.newJob Sample.world
          = (Ok Sample.created, Sample.afterCreate)) as H
    by (vm_compute; reflexivity).
  apply (createJob_then_getJob Sample.envUp Sample.admin Sample.admin
           _ _ _ _ H).
  - reflexivity.
  - vm_compute; reflexivity.
  - vm_compute; reflexivity.
Defined.

Lemma updateJob_returns_witness :
  exists r w',
    updateJob Sample.envUp Sample.admin "j1" Sample.retitle Sample.world
    = (Ok r, w') /\
    jobCandidates w' = jobCandidates Sample.world /\
    exists uid row,
      r = withCandidatesOf (jobCandidates Sample.world)
            (updatePatch uid Sample.retitle ∪ row).
Proof.
  destruct (updateJob Sample.envUp Sample.admin "j1" Sample.retitle
              Sample.world) as [[r|e] w'] eqn:H.
  - exists r, w'. split; [reflexivity|].
    destruct (updateJob_returns _ _ _ _ _ _ _ H)
      as (row & uid & _ & _ & _ & _ & _ & Hc & _ & Hr).
    split; [exact Hc|]. exists uid, row. apply Hr. reflexivity.
  - vm_compute in H. discriminate H.
Defined.

Lemma updateJob_requires_witness :
  exists r w',
    updateJob Sample.envUp Sample.admin "j1" Sample.retitle Sample.world
    = (Ok r, w') /\
    skillsPass Sample.envUp Sample.retitle /\
    rolesPass Sample.envUp Sample.retitle.
Proof.
  destruct (updateJob Sample.envUp Sample.admin "j1" Sample.retitle
              Sample.world) as [[r|e] w'] eqn:H.
  - exists r, w'. split; [reflexivity|].
    destruct (updateJob_requires _ _ _ _ _ _ _ H) as (Hs & Hr & _).
    split; assumption.
  - vm_compute in H. discriminate H.
Defined.

Lemma deleteJob_refusals_witness :
  deleteJob Sample.envUp Sample.member "j1" Sample.world
  = (Throw (errors.ForbiddenError msgNotAllowed), Sample.world)
  /\
  deleteJob Sample.envUp Sample.admin "j9" Sample.world
  = (Throw (errors.NotFoundError (msgDoesNotExist "j9")),
     logged Sample.world [CJobFindById "j9" false]).
Proof.
  split.
  - apply (proj1 (deleteJob_refusals Sample.envUp Sample.member "j1"
                    Sample.world)).
    reflexivity.
  - apply (proj2 (deleteJob_refusals Sample.envUp Sample.admin "j9"
                    Sample.world)); reflexivity.
Defined.

Lemma deleteJob_removes_witness :
  deleteJob Sample.envUp Sample.admin "j1" Sample.world
  = (Ok tt, Sample.afterDelete) /\
  jobs Sample.afterDelete
  = List.filter (fun r => negb (hasId (Some (VStr "j1")) r))
      (jobs Sample.world) /\
  (getJob Sample.envUp Sample.member "j1" true Sample.afterDelete).1
  = Throw (errors.NotFoundError (msgDoesNotExist "j1")).
Proof.
  assert (deleteJob Sample.envUp Sample.admin "j1" Sample.world
          = (Ok tt, Sample.afterDelete)) as H
    by (vm_compute; reflexivity).
  split; [exact H|].
  destruct (deleteJob_removes _ _ _ _ _ H) as (_ & Hj & _ & Hr).
  split; [exact Hj|apply Hr].
Defined.

Lemma validateSkills_outcome_witness :
  (_validateSkills Sample.envUp [VStr "s1"; VStr "zz"] Sample.world).1
  = Throw (errors.BadRequestError
             (invalidSkills Sample.envUp [VStr "s1"; VStr "zz"]))
  /\
  (_validateSkills Fixture.envRace [VStr "slow"; VStr "fast"] Sample.world).1
  = Throw Fixture.fastFailed.
Proof.
  split.
  - apply (proj2 (proj2 (proj2 (validateSkills_outcome Sample.envUp
                                  [VStr "s1"; VStr "zz"] Sample.world))));
      reflexivity.
  - apply (proj1 (proj1 (proj2 (proj2 (validateSkills_outcome Fixture.envRace
                                         [VStr "slow"; VStr "fast"]
                                         Sample.world)))
                    Fixture.slowFailed [Fixture.fastFailed] eq_refl)).
Defined.

Lemma validateRoles_outcome_witness :
  (_validateRoles Sample.envUp [VStr "r1"; VStr "r9"] Sample.world).1
  <> Ok tt.
Proof.
  intros H.
  apply (proj1 (validateRoles_outcome Sample.envUp [VStr "r1"; VStr "r9"]
                  [VStr "r1"] Sample.world eq_refl)) in H.
  discriminate H.
Defined.

Lemma notification_discloses_witness :
  exists message recipients,
    In (EPostEvent message)
      (sendNotificationEmail (Some Fixture.template) Fixture.busOk
         Fixture.teamPayload).2 /\
    recipientsOf message = Some (VArr recipients) /\
    length recipients = 2%nat /\
    Forall (onlyKeys ["email"]) recipients.
Proof.
  destruct (sendNotificationEmail (Some Fixture.template) Fixture.busOk
              Fixture.teamPayload) as [r effects] eqn:H.
  destruct effects as [|[message|text] effects].
  - vm_compute in H. discriminate H.
  - destruct (notification_discloses (Some Fixture.template) Fixture.busOk
                Fixture.teamPayload message)
      as (recipients & jobList & Hr & _ & Hk & _ & project & members & jobs
          & Hp & Hm & _ & Hl & _).
    { rewrite H. left. reflexivity. }
    exists message, recipients. split; [left; reflexivity|].
    split; [exact Hr|]. split; [|exact Hk].
    rewrite Hl. vm_compute in Hp. injection Hp as <-.
    vm_compute in Hm. injection Hm as <-. reflexivity.
  - vm_compute in H. discriminate H.
Defined.

Lemma processCreate_outcomes_witness :
  exists text,
    processCreate None Fixture.busOk Fixture.teamPayload
    = (Throw (TypeError text), []).
Proof.
  apply (proj2 (processCreate_outcomes None Fixture.busOk
                  Fixture.teamPayload)).
  left. reflexivity.
Defined.
